(** * Expert/works linkage and anonymization: a shallow embedding

    The development follows [tools/export.py] and [utilities/anonymize.py]:
    JSON values as Python sees them after [json.load], dictionaries as
    insertion-ordered association lists, the file system as a finite map
    from paths to JSON documents, exceptions as an error type, and the
    functions of the two modules as state-passing programs over a [world]
    made of the file system, the generator state of the shared random
    source and the log.

    What is left out: JSON numbers are taken in their integer form (Python
    [int]); a file holds the JSON document itself, so [json.dump] and
    [json.load] are a store and a lookup and writing always succeeds; log
    entries carry the fixed part of their message; a run that raises
    leaves the random source as it found it (nothing draws from it
    afterwards).

    The environment check of the configuration classes, the extraction
    loop of [tools/build_graph.py] and the queries of
    [graph_rag/core/retrieve.py] are covered as well; the libraries they
    call (the directory listing, the JSON reader, the graph index, the
    query engine) are parameters of their models. *)

From Stdlib Require Import ZArith List String Ascii Bool Lia.
From stdpp Require Import base option list gmap strings.
Import ListNotations.

Local Open Scope Z_scope.
Local Open Scope string_scope.
Local Open Scope list_scope.
Set Warnings "-register-all".

(** ** JSON values and Python's view of them *)

Inductive json : Type :=
| JNull
| JBool (b : bool)
| JInt (n : Z)
| JStr (s : string)
| JList (l : list json)
| JObj (d : list (string * json)).

(** A Python [dict] with string keys, in insertion order. *)
Abbreviation dict := (list (string * json)).

Inductive exn : Type :=
| KeyError
| AttributeError
| TypeError
| UniquenessException
| RequestException
| JSONDecodeError
| FileNotFoundError.

Inductive result (A : Type) : Type :=
| Ok (a : A)
| Err (e : exn).
Arguments Ok {A} a.
Arguments Err {A} e.

#[global] Instance result_ret : MRet result := fun _ a => Ok a.
#[global] Instance result_bind : MBind result := fun _ _ k r =>
  match r with
  | Ok a => k a
  | Err e => Err e
  end.

(** A [for] loop whose body may raise. *)
Fixpoint foldM {A B} (f : A -> B -> result A) (l : list B) (a : A) : result A :=
  match l with
  | [] => Ok a
  | b :: l' => a' ← f a b; foldM f l' a'
  end.

Module Dict.

Fixpoint get (k : string) (d : dict) : option json :=
  match d with
  | [] => None
  | (k', v) :: d' => if String.eqb k' k then Some v else get k d'
  end.

Definition mem (k : string) (d : dict) : bool :=
  match get k d with Some _ => true | None => false end.

(** [d[k] = v]: an existing key keeps its position, a new one goes last. *)
Fixpoint set (k : string) (v : json) (d : dict) : dict :=
  match d with
  | [] => [(k, v)]
  | (k', v') :: d' =>
      if String.eqb k' k then (k', v) :: d' else (k', v') :: set k v d'
  end.

(** [del d[k]] *)
Fixpoint del (k : string) (d : dict) : dict :=
  match d with
  | [] => []
  | (k', v') :: d' =>
      if String.eqb k' k then del k d' else (k', v') :: del k d'
  end.

(** [d.get(k)], with [None] for a missing key. *)
Definition get_or_none (k : string) (d : dict) : json :=
  match get k d with Some v => v | None => JNull end.

End Dict.

(** Python's [==] on values produced by [json.load]: [bool] is a subclass
    of [int], lists compare element-wise, dictionaries by key regardless of
    order. *)
Fixpoint py_eq (a b : json) {struct a} : bool :=
  match a, b with
  | JNull, JNull => true
  | JBool x, JBool y => Bool.eqb x y
  | JBool x, JInt n => Z.eqb (Z.b2z x) n
  | JInt n, JBool x => Z.eqb n (Z.b2z x)
  | JInt m, JInt n => Z.eqb m n
  | JStr s, JStr t => String.eqb s t
  | JList l, JList l' =>
      (fix go (l : list json) (l' : list json) {struct l} : bool :=
         match l, l' with
         | [], [] => true
         | x :: r, y :: r' => py_eq x y && go r r'
         | _, _ => false
         end) l l'
  | JObj d, JObj d' =>
      Nat.eqb (length d) (length d') &&
      (fix all (d : dict) {struct d} : bool :=
         match d with
         | [] => true
         | (k, v) :: r =>
             match Dict.get k d' with
             | Some v' => py_eq v v'
             | None => false
             end && all r
         end) d
  | _, _ => false
  end.

(** Truth value of an object, as tested by [if x:]. *)
Definition truthy (v : json) : bool :=
  match v with
  | JNull => false
  | JBool b => b
  | JInt n => negb (Z.eqb n 0)
  | JStr s => negb (String.eqb s EmptyString)
  | JList l => match l with [] => false | _ => true end
  | JObj d => match d with [] => false | _ => true end
  end.

(** Lists and dictionaries cannot be dictionary keys or set members. *)
Definition hashable (v : json) : bool :=
  match v with
  | JList _ | JObj _ => false
  | _ => true
  end.

(** [x[k]] for a string key [k]. *)
Definition py_getitem (v : json) (k : string) : result json :=
  match v with
  | JObj d => match Dict.get k d with Some x => Ok x | None => Err KeyError end
  | _ => Err TypeError
  end.

(** [x.get(k)] *)
Definition py_get (v : json) (k : string) : result json :=
  match v with
  | JObj d => Ok (Dict.get_or_none k d)
  | _ => Err AttributeError
  end.

(** [x.get(k, [])] *)
Definition py_get_or_empty (v : json) (k : string) : result json :=
  match v with
  | JObj d => Ok (match Dict.get k d with Some x => x | None => JList [] end)
  | _ => Err AttributeError
  end.

Definition chars_of (s : string) : list json :=
  map (fun c => JStr (String c EmptyString)) (list_ascii_of_string s).

(** The items a [for] loop (or a comprehension) visits. *)
Definition py_iter (v : json) : result (list json) :=
  match v with
  | JList l => Ok l
  | JObj d => Ok (map (fun kv => JStr (fst kv)) d)
  | JStr s => Ok (chars_of s)
  | _ => Err TypeError
  end.

(** ** Strings *)

Module Str.

Fixpoint prefix (p s : string) : bool :=
  match p, s with
  | EmptyString, _ => true
  | String a p', String b s' => Ascii.eqb a b && prefix p' s'
  | String _ _, EmptyString => false
  end.

(** [needle in hay] *)
Fixpoint contains (needle hay : string) : bool :=
  prefix needle hay ||
  match hay with
  | EmptyString => false
  | String _ hay' => contains needle hay'
  end.

(** [s.replace(old, new)] for a non-empty [old]; [skip] counts the
    characters of a match still to be passed over. *)
Fixpoint replace_from (old new s : string) (skip : nat) : string :=
  match s with
  | EmptyString => EmptyString
  | String c s' =>
      match skip with
      | S k => replace_from old new s' k
      | O =>
          if prefix old s
          then String.append new (replace_from old new s' (String.length old - 1)%nat)
          else String c (replace_from old new s' 0)
      end
  end.

(** With an empty [old], [new] goes before every character and at the end. *)
Fixpoint interleave (new s : string) : string :=
  match s with
  | EmptyString => new
  | String c s' => String.append new (String c (interleave new s'))
  end.

Definition replace (s old new : string) : string :=
  match old with
  | EmptyString => interleave new s
  | _ => replace_from old new s 0
  end.

Definition is_upper (c : ascii) : bool :=
  let n := nat_of_ascii c in (Nat.leb 65 n && Nat.leb n 90)%bool.
Definition is_lower (c : ascii) : bool :=
  let n := nat_of_ascii c in (Nat.leb 97 n && Nat.leb n 122)%bool.
Definition to_lower (c : ascii) : ascii :=
  if is_upper c then ascii_of_nat (nat_of_ascii c + 32) else c.
Definition to_upper (c : ascii) : ascii :=
  if is_lower c then ascii_of_nat (nat_of_ascii c - 32) else c.

(** [s.lower()] on ASCII text. *)
Fixpoint lower (s : string) : string :=
  match s with
  | EmptyString => EmptyString
  | String c s' => String (to_lower c) (lower s')
  end.

(** [s.title()]: a cased character is upper-cased after an uncased one
    and lower-cased after a cased one. *)
Fixpoint title_from (prev_cased : bool) (s : string) : string :=
  match s with
  | EmptyString => EmptyString
  | String c s' =>
      let cased := (is_upper c || is_lower c)%bool in
      String (if cased then (if prev_cased then to_lower c else to_upper c) else c)
             (title_from cased s')
  end.
Definition title (s : string) : string := title_from false s.

End Str.

(** ** [utilities/anonymize.py] *)

Definition remove_list : list string :=
  [ "EncodedTitle"; "ClickURL"; "externalJobs"; "Photo"; "Content";
    "internalProjects"; "Recomendations"; "ActivityLinks"; "Username" ].
Definition name_list : list string := ["Title"; "FirstName"; "LastName"].
Definition works_list : list string := ["Owner"].
Definition contact_list : list string := ["Email"; "Phone"; "Mobile"].
Definition id_list : list string := ["Id"].
Definition works_id_list : list string := ["ExpertId"].

Definition remove_data (processed_record : dict) : dict :=
  fold_left
    (fun r attribute => if Dict.mem attribute r then Dict.del attribute r else r)
    remove_list processed_record.

(** [r[attribute] = r[attribute].replace(r[attribute], new)]; only strings
    have a [replace] method. *)
Definition replace_field (r : dict) (attribute new : string) : result dict :=
  match Dict.get attribute r with
  | Some (JStr s) => Ok (Dict.set attribute (JStr (Str.replace s s new)) r)
  | Some _ => Err AttributeError
  | None => Err KeyError
  end.

Definition anonymize_name (processed_record : dict) (list : list string)
    (name last_name full_name : string) : result dict :=
  foldM
    (fun r attribute =>
       if Dict.mem attribute r then
         if Str.contains "FirstName" attribute then replace_field r attribute name
         else if Str.contains "LastName" attribute then replace_field r attribute last_name
         else replace_field r attribute full_name
       else Ok r)
    list processed_record.

Definition anonymize_contacts (processed_record : dict)
    (email phone mobile : string) : result dict :=
  foldM
    (fun r attribute =>
       if Dict.mem attribute r then
         if Str.contains "Email" attribute then replace_field r attribute email
         else if Str.contains "Phone" attribute then replace_field r attribute phone
         else if Str.contains "Mobile" attribute then replace_field r attribute mobile
         else Ok r
       else Ok r)
    contact_list processed_record.

Definition anonymize_id (processed_record : dict) (list : list string)
    (fake_id : Z) : dict :=
  fold_left
    (fun r attribute =>
       if Dict.mem attribute r then
         if Str.contains "Id" attribute then Dict.set attribute (JInt fake_id) r
         else if Str.contains "ExpertId" attribute then Dict.set attribute (JInt fake_id) r
         else r
       else r)
    list processed_record.

(** The providers of the Faker library that the anonymizer calls, over an
    explicit state of the random source; [seed] is [Faker.seed]. *)
Class RandomSource (G : Type) : Type := {
  random_int : Z -> Z -> G -> Z * G;
  first_name : G -> string * G;
  last_name : G -> string * G;
  phone_number : G -> string * G;
  seed : Z -> G
}.

(** One [Faker()] instance: the random source and the values its [unique]
    proxy has already returned for [random_int(min=111111, max=999999)]. *)
Record faker (G : Type) : Type := MkFaker {
  fk_rng : G;
  fk_seen : list Z
}.
Arguments MkFaker {G} _ _.
Arguments fk_rng {G} _.
Arguments fk_seen {G} _.

Record identity : Type := MkIdentity {
  fake_id : Z;
  fake_name : string;
  fake_last_name : string;
  fake_full_name : string;
  fake_email : string;
  fake_phone : string;
  fake_mobile : string
}.

Inductive log_entry : Type :=
| Stdout (msg : string)
| LogInfo (msg : string)
| LogWarning (msg : string)
| LogError (msg : string).

Record world (G : Type) : Type := MkWorld {
  fs : gmap string json;
  rng : G;
  log : list log_entry
}.
Arguments MkWorld {G} _ _ _.
Arguments fs {G} _.
Arguments rng {G} _.
Arguments log {G} _.

Definition UNIQUE_ATTEMPTS : nat := 1000.

Definition mem_Z (x : Z) (l : list Z) : bool := existsb (Z.eqb x) l.

Section Anonymizer.
Context {G : Type} `{RS : RandomSource G}.

(** The retry loop behind [fake.unique], as the Faker library has it
    ([UniqueProxy._wrap] in [faker/proxy.py]; the repository only calls
    it): [retval = None] is the sentinel, which always counts as already
    seen; the loop is left as soon as [retval] is new, and running out of
    attempts raises [UniquenessException]. *)
Fixpoint unique_attempts (n : nat) (lo hi : Z) (retval : option Z)
    (seen : list Z) (g : G) : result (Z * G) :=
  match n with
  | O => Err UniquenessException
  | S n' =>
      match retval with
      | Some v =>
          if negb (mem_Z v seen) then Ok (v, g)
          else let '(v', g') := random_int lo hi g in
               unique_attempts n' lo hi (Some v') seen g'
      | None =>
          let '(v', g') := random_int lo hi g in
          unique_attempts n' lo hi (Some v') seen g'
      end
  end.

(** [fake.unique.random_int(min=lo, max=hi)] *)
Definition unique_random_int (lo hi : Z) (fk : faker G) : result (Z * faker G) :=
  '(v, g) ← unique_attempts UNIQUE_ATTEMPTS lo hi None (fk_seen fk) (fk_rng fk);
  Ok (v, MkFaker g (v :: fk_seen fk)).

(** The synthetic identity drawn for one expert. *)
Definition new_identity (fk : faker G) : result (identity * faker G) :=
  '(fid, fk1) ← unique_random_int 111111 999999 fk;
  let '(fname, g2) := first_name (fk_rng fk1) in
  let '(lname, g3) := last_name g2 in
  let '(phone, g4) := phone_number g3 in
  let '(mobile, g5) := phone_number g4 in
  Ok ({| fake_id := fid;
         fake_name := fname;
         fake_last_name := lname;
         fake_full_name := String.append fname (String.append " " lname);
         fake_email :=
           String.append (Str.lower fname)
             (String.append "." (String.append (Str.lower lname) "@roche.com"));
         fake_phone := phone;
         fake_mobile := mobile |},
      MkFaker g5 (fk_seen fk1)).

(** What the inner loop does to a record of [data] that matches. *)
Definition anonymize_work (i : identity) (record : dict) : result dict :=
  let r0 := remove_data record in
  r1 ← anonymize_name r0 works_list (fake_name i) (fake_last_name i) (fake_full_name i);
  r2 ← anonymize_contacts r1 (fake_email i) (fake_phone i) (fake_mobile i);
  Ok (anonymize_id r2 works_id_list (fake_id i)).

(** The body of [for record in data:]. *)
Definition scan_record (original_expert_id : json) (i : identity)
    (record : json) : result json :=
  x ← py_getitem record "ExpertId";
  if py_eq original_expert_id x then
    match record with
    | JObj r => r' ← anonymize_work i r; Ok (JObj r')
    | _ => Err TypeError
    end
  else Ok record.

Fixpoint scan_works (original_expert_id : json) (i : identity)
    (data : list json) : result (list json) :=
  match data with
  | [] => Ok []
  | record :: rest =>
      record' ← scan_record original_expert_id i record;
      rest' ← scan_works original_expert_id i rest;
      Ok (record' :: rest')
  end.

(** The records of a list are updated in place; any other iterable holds
    strings only, on which the first subscript already raises. *)
Definition scan_data (original_expert_id : json) (i : identity)
    (data : json) : result json :=
  items ← py_iter data;
  items' ← scan_works original_expert_id i items;
  Ok (match data with JList _ => JList items' | _ => data end).

(** One turn of the loop over [expert_data]. *)
Definition anonymize_expert (expert_record : json) (data : json)
    (fk : faker G) : result (json * json * faker G) :=
  original_expert_id ← py_getitem expert_record "Id";
  '(i, fk') ← new_identity fk;
  match expert_record with
  | JObj e =>
      let e0 := remove_data e in
      data' ← scan_data original_expert_id i data;
      e1 ← anonymize_name e0 name_list (fake_name i) (fake_last_name i) (fake_full_name i);
      e2 ← anonymize_contacts e1 (fake_email i) (fake_phone i) (fake_mobile i);
      Ok (JObj (anonymize_id e2 id_list (fake_id i)), data', fk')
  | _ => Err TypeError
  end.

Fixpoint anonymize_experts (experts : list json) (data : json)
    (fk : faker G) : result (list json * json * faker G) :=
  match experts with
  | [] => Ok ([], data, fk)
  | expert_record :: rest =>
      '(e', data', fk') ← anonymize_expert expert_record data fk;
      '(rest', data'', fk'') ← anonymize_experts rest data' fk';
      Ok (e' :: rest', data'', fk'')
  end.

Definition original_file : string := "data/original_data.json".
Definition expert_file : string := "data/experts.json".
Definition works_cleaned_file : string := "data/works_cleaned.json".
Definition experts_cleaned_file : string := "data/experts_cleaned.json".

(** The loop of [anonymize_data] on the two loaded documents, with a
    fresh [Faker()] over the shared random source [g]. *)
Definition anonymize_loaded (data expert_data : json) (g : G)
    : result (json * json * G) :=
  experts ← py_iter expert_data;
  '(experts', data', fk') ← anonymize_experts experts data (MkFaker g []);
  Ok (data',
      match expert_data with JList _ => JList experts' | _ => expert_data end,
      fk_rng fk').

Definition anonymize_data (w : world G) : result unit * world G :=
  let w0 := MkWorld (fs w) (rng w) (log w ++ [Stdout "Anonymizing data..."]) in
  match fs w !! original_file with
  | None => (Err FileNotFoundError, w0)
  | Some data =>
      match fs w !! expert_file with
      | None => (Err FileNotFoundError, w0)
      | Some expert_data =>
          match anonymize_loaded data expert_data (rng w) with
          | Err e => (Err e, w0)
          | Ok (data', experts', g') =>
              (Ok tt,
               MkWorld
                 (<[experts_cleaned_file := experts']>
                    (<[works_cleaned_file := data']> (fs w)))
                 g' (log w0))
          end
      end
  end.

(** [Faker.seed(s)] followed by [anonymize_data()]. *)
Definition seeded_anonymize_data (s : Z) (w : world G) : result unit * world G :=
  anonymize_data (MkWorld (fs w) (seed s) (log w)).

End Anonymizer.

(** ** [tools/export.py] *)

(** What one GET request to the vendor API can come to. *)
Inductive response : Type :=
| ConnectionFailed
| HttpStatusError
| MalformedBody
| Body (v : json).

Record Config : Type := MkConfig {
  DEFAULT_LIMIT : Z;
  SHOULD_ANONYMIZE : bool
}.

Definition default_config : Config :=
  {| DEFAULT_LIMIT := 10; SHOULD_ANONYMIZE := true |}.

Definition SINEQUA_OUTPUTS_URL : string :=
  "https://dws.roche.com/DigitalWorkspace_OCS_API/rest/Sinequa/OCS_Output".
Definition SINEQUA_WORKS_URL : string :=
  "https://dws.roche.com/DigitalWorkspace_OCS_API/rest/Sinequa/OCS_Work".
Definition SINEQUA_EXPERT_PROFILE_URL : string :=
  "https://dws.roche.com/DigitalWorkspace_Home_API/rest/Sinequa/GetExpertProfile_GET".

Definition DATA_DIR : string := "data/".
Definition EXPERTS_DIR : string := "data/experts/".

(** Programs over the world that may raise. *)
Definition M (G A : Type) : Type := world G -> result A * world G.

Definition retM {G A} (a : A) : M G A := fun w => (Ok a, w).
Definition raiseM {G A} (e : exn) : M G A := fun w => (Err e, w).
Definition bindM {G A B} (m : M G A) (k : A -> M G B) : M G B :=
  fun w => match m w with
           | (Ok a, w') => k a w'
           | (Err e, w') => (Err e, w')
           end.
Definition liftM {G A} (r : result A) : M G A := fun w => (r, w).
Definition logM {G} (entry : log_entry) : M G unit :=
  fun w => (Ok tt, MkWorld (fs w) (rng w) (log w ++ [entry])).
(** [try: m except Exception as e: h e] *)
Definition catchM {G A} (m : M G A) (h : exn -> M G A) : M G A :=
  fun w => match m w with
           | (Ok a, w') => (Ok a, w')
           | (Err e, w') => h e w'
           end.

Notation "x <~ c1 ;; c2" := (bindM c1 (fun x => c2))
  (at level 100, c1 at next level, right associativity).
Notation "c1 ;;; c2" := (bindM c1 (fun _ => c2))
  (at level 100, right associativity).

(** [str(type(item))] *)
Definition str_of_type (v : json) : string :=
  String.append "<class '"
    (String.append
       match v with
       | JNull => "NoneType"
       | JBool _ => "bool"
       | JInt _ => "int"
       | JStr _ => "str"
       | JList _ => "list"
       | JObj _ => "dict"
       end "'>").

(** [a + b] on what [len] accepts. *)
Definition py_concat (a b : json) : result json :=
  match a, b with
  | JList l, JList l' => Ok (JList (l ++ l'))
  | JStr s, JStr t => Ok (JStr (String.append s t))
  | _, _ => Err TypeError
  end.

(** [len(x)] succeeds on strings, lists and dictionaries. *)
Definition py_len_ok (v : json) : result unit :=
  match v with
  | JStr _ | JList _ | JObj _ => Ok tt
  | _ => Err TypeError
  end.

(** [records[0]] *)
Definition py_first (v : json) : result json :=
  match v with
  | JList (x :: _) => Ok x
  | JStr (String c _) => Ok (JStr (String c EmptyString))
  | JList [] | JStr EmptyString => Err KeyError
  | JObj _ => Err KeyError
  | _ => Err TypeError
  end.

(** The dictionary [works_by_expert]: keys are compared with [==]. *)
Fixpoint index_get (k : json) (idx : list (json * list json)) : option (list json) :=
  match idx with
  | [] => None
  | (k', ws) :: idx' => if py_eq k' k then Some ws else index_get k idx'
  end.

(** [idx.setdefault(k, []).append(w)] *)
Fixpoint index_append (k : json) (w : json) (idx : list (json * list json))
    : list (json * list json) :=
  match idx with
  | [] => [(k, [w])]
  | (k', ws) :: idx' =>
      if py_eq k' k then (k', ws ++ [w]) :: idx'
      else (k', ws) :: index_append k w idx'
  end.

(** Adding to a set: an element equal to a member is not added again. *)
Definition set_add (v : json) (s : list json) : list json :=
  if existsb (fun x => py_eq x v) s then s else s ++ [v].

Section Exporter.
Context {G : Type} `{RS : RandomSource G}.

(** The vendor API, the order in which a [set] hands out its members,
    and [str()] as used by the f-string of the file names. *)
Variable http_get : string -> dict -> response.
Variable set_order : list json -> list json.
Variable py_str : json -> string.

Variable config : Config.

(** *** DWSAPIClient *)

Definition _make_request (url : string) (params : dict) : M G json :=
  match http_get url params with
  | Body v => retM v
  | MalformedBody =>
      logM (LogError "Failed to decode JSON response") ;;; raiseM JSONDecodeError
  | ConnectionFailed | HttpStatusError =>
      logM (LogError "API request failed") ;;; raiseM RequestException
  end.

Definition get_outputs_and_works (limit : option Z) : M G json :=
  let limit :=
    match limit with
    | Some n => if Z.eqb n 0 then DEFAULT_LIMIT config else n
    | None => DEFAULT_LIMIT config
    end in
  let params := [("Limit", JInt limit)] in
  logM (LogInfo "Fetching outputs and works") ;;;
  outputs_data <~ _make_request SINEQUA_OUTPUTS_URL params ;;
  works_data <~ _make_request SINEQUA_WORKS_URL params ;;
  outputs_records <~ liftM (py_get_or_empty outputs_data "RecordList") ;;
  works_records <~ liftM (py_get_or_empty works_data "RecordList") ;;
  liftM (py_len_ok outputs_records) ;;;
  liftM (py_len_ok works_records) ;;;
  logM (LogInfo "Retrieved outputs and works") ;;;
  liftM (py_concat works_records outputs_records).

(** [None] is [JNull]. *)
Definition get_expert_profile (expert_id : json) : M G json :=
  let params := [("UserId", expert_id)] in
  catchM
    (response_data <~ _make_request SINEQUA_EXPERT_PROFILE_URL params ;;
     records <~ liftM (py_get_or_empty response_data "RecordList") ;;
     if truthy records then liftM (py_first records)
     else logM (LogWarning "No expert profile found") ;;; retM JNull)
    (fun e => logM (LogError "Failed to fetch expert profile") ;;; retM JNull).

(** The set comprehension over [outputs_and_works]. *)
Fixpoint collect_expert_ids (items : list json) (acc : list json)
    : result (list json) :=
  match items with
  | [] => Ok acc
  | item :: rest =>
      v ← py_get item "ExpertId";
      match v with
      | JNull => collect_expert_ids rest acc
      | _ => if hashable v then collect_expert_ids rest (set_add v acc)
             else Err TypeError
      end
  end.

Fixpoint fetch_profiles (expert_ids : list json) (experts : list json)
    : M G (list json) :=
  match expert_ids with
  | [] => retM experts
  | expert_id :: rest =>
      expert_profile <~ get_expert_profile expert_id ;;
      fetch_profiles rest
        (if truthy expert_profile then experts ++ [expert_profile] else experts)
  end.

Definition get_experts (outputs_and_works : json) : M G json :=
  items <~ liftM (py_iter outputs_and_works) ;;
  expert_ids <~ liftM (collect_expert_ids items []) ;;
  logM (LogInfo "Found unique expert IDs") ;;;
  experts <~ fetch_profiles (set_order expert_ids) [] ;;
  logM (LogInfo "Successfully fetched expert profiles") ;;;
  retM (JList experts).

(** *** DataProcessor *)

Definition is_under (dir path : string) : bool := Str.prefix dir path.

(** [rmtree] of the experts directory when it exists, then [mkdir]. *)
Definition ensure_directories : M G unit :=
  fun w =>
    (Ok tt,
     MkWorld (filter (fun kv => is_under EXPERTS_DIR (fst kv) = false) (fs w))
             (rng w) (log w)).

Definition save_json (data : json) (filepath : string) : M G unit :=
  fun w => (Ok tt, MkWorld (<[filepath := data]> (fs w)) (rng w) (log w)).

Definition load_json (filepath : string) : M G json :=
  fun w =>
    match fs w !! filepath with
    | Some v => (Ok v, w)
    | None =>
        (Err FileNotFoundError,
         MkWorld (fs w) (rng w) (log w ++ [LogError "Failed to load data"]))
    end.

Definition save_initial_data (outputs_and_works experts : json) : M G unit :=
  items <~ liftM (py_iter outputs_and_works) ;;
  let outputs :=
    List.filter (fun item => Str.contains "Output" (Str.title (str_of_type item))) items in
  let works :=
    List.filter (fun item => Str.contains "Work" (Str.title (str_of_type item))) items in
  save_json (JList outputs) (String.append DATA_DIR "outputs.json") ;;;
  save_json (JList works) (String.append DATA_DIR "works.json") ;;;
  save_json outputs_and_works (String.append DATA_DIR "original_data.json") ;;;
  save_json experts (String.append DATA_DIR "experts.json").

(** The first loop of [combine_experts_with_works]. *)
Fixpoint index_works (works : list json) (works_by_expert : list (json * list json))
    : result (list (json * list json)) :=
  match works with
  | [] => Ok works_by_expert
  | work :: rest =>
      expert_id ← py_get work "ExpertId";
      if truthy expert_id then
        if hashable expert_id
        then index_works rest (index_append expert_id work works_by_expert)
        else Err TypeError
      else index_works rest works_by_expert
  end.

(** The second loop: [expert["works"] = works_by_expert.get(expert_id, [])]. *)
Fixpoint attach_works (works_by_expert : list (json * list json))
    (experts : list json) : result (list json) :=
  match experts with
  | [] => Ok []
  | expert :: rest =>
      expert_id ← py_get expert "Id";
      if hashable expert_id then
        match expert with
        | JObj e =>
            let ws := match index_get expert_id works_by_expert with
                      | Some ws => ws
                      | None => []
                      end in
            rest' ← attach_works works_by_expert rest;
            Ok (JObj (Dict.set "works" (JList ws) e) :: rest')
        | _ => Err AttributeError
        end
      else Err TypeError
  end.

Definition combine_loaded (experts works : json) : result json :=
  work_items ← py_iter works;
  works_by_expert ← index_works work_items [];
  expert_items ← py_iter experts;
  experts' ← attach_works works_by_expert expert_items;
  Ok (match experts with JList _ => JList experts' | _ => experts end).

Definition combine_experts_with_works (experts_file works_file : string)
    : M G json :=
  experts <~ load_json (String.append DATA_DIR experts_file) ;;
  works <~ load_json (String.append DATA_DIR works_file) ;;
  liftM (combine_loaded experts works).

Definition expert_file_name (expert : json) : result string :=
  match expert with
  | JObj e =>
      let expert_id :=
        match Dict.get "Id" e with Some v => v | None => JStr "unknown" end in
      match (match Dict.get "Title" e with Some v => v | None => JStr EmptyString end) with
      | JStr t =>
          let t' := Str.replace t " " "_" in
          let expert_title := if String.eqb t' EmptyString then "untitled" else t' in
          Ok (String.append (py_str expert_id)
                (String.append "_" (String.append expert_title ".json")))
      | _ => Err AttributeError
      end
  | _ => Err AttributeError
  end.

Fixpoint save_expert_files (experts : list json) : M G unit :=
  match experts with
  | [] => retM tt
  | expert :: rest =>
      filename <~ liftM (expert_file_name expert) ;;
      save_json expert (String.append EXPERTS_DIR filename) ;;;
      save_expert_files rest
  end.

Definition save_individual_expert_files (experts : json) : M G unit :=
  items <~ liftM (py_iter experts) ;;
  save_expert_files items ;;;
  logM (LogInfo "Individual expert files saved").

Fixpoint experts_without_works (experts : list json) : result (list json) :=
  match experts with
  | [] => Ok []
  | expert :: rest =>
      ws ← py_get expert "works";
      rest' ← experts_without_works rest;
      Ok (if truthy ws then rest' else expert :: rest')
  end.

Definition check_experts_without_works (experts : json) : M G unit :=
  items <~ liftM (py_iter experts) ;;
  missing <~ liftM (experts_without_works items) ;;
  match missing with
  | [] => logM (LogInfo "All experts have associated works")
  | _ => logM (LogWarning "Found experts without works")
  end.

(** *** DWSDataExporter *)

Definition export_raw_data : M G (json * json) :=
  logM (LogInfo "Starting raw data export...") ;;;
  outputs_and_works <~ get_outputs_and_works None ;;
  experts <~ get_experts outputs_and_works ;;
  save_initial_data outputs_and_works experts ;;;
  logM (LogInfo "Raw data export completed successfully") ;;;
  retM (outputs_and_works, experts).

Definition process_and_save_final_data : M G unit :=
  logM (LogInfo "Processing final data...") ;;;
  files <~ (if SHOULD_ANONYMIZE config then
              logM (LogInfo "Anonymizing data...") ;;;
              anonymize_data ;;;
              retM ("experts_cleaned.json", "works_cleaned.json")
            else retM ("experts.json", "works.json")) ;;
  experts_with_works <~ combine_experts_with_works (fst files) (snd files) ;;
  save_json experts_with_works (String.append DATA_DIR "experts_with_works.json") ;;;
  save_individual_expert_files experts_with_works ;;;
  check_experts_without_works experts_with_works ;;;
  logM (LogInfo "Data processing completed successfully").

Definition run : M G unit :=
  catchM
    (ensure_directories ;;;
     export_raw_data ;;;
     process_and_save_final_data ;;;
     logM (LogInfo "All operations completed successfully"))
    (fun e => logM (LogError "Export process failed") ;;; raiseM e).

End Exporter.

(** ** [Config.validate_environment] of the three tools *)

(** The configuration classes that check the environment:
    [tools/export.py], [tools/build_graph.py] and
    [graph_rag/core/retrieve.py]. *)
Inductive config_class : Type :=
| ExportConfig
| BuildConfig
| QueryConfig.

Definition required_vars (cls : config_class) : list string :=
  match cls with
  | ExportConfig => ["DWS_API_KEY"; "DWS_API_ID"]
  | BuildConfig => ["GALILEO_AWS_KEY"; "GALILEO_AZURE_KEY"; "S3_ENCRYPTION_KEY_ID"]
  | QueryConfig => ["GALILEO_AWS_KEY"; "GALILEO_AZURE_KEY"]
  end.

(** [not os.getenv(var)] *)
Definition unset (environ : gmap string string) (var : string) : bool :=
  match environ !! var with
  | None => true
  | Some value => String.eqb value EmptyString
  end.

(** The [ValueError] of [validate_environment], with the list its message
    prints. *)
Inductive env_error : Type :=
| ValueError (missing_vars : list string).

Definition validate_environment (cls : config_class)
    (environ : gmap string string) : env_error + unit :=
  let missing_vars := List.filter (unset environ) (required_vars cls) in
  match missing_vars with
  | [] => inr tt
  | _ => inl (ValueError missing_vars)
  end.

(** ** [tools/build_graph.py] *)

Module BuildGraph.

Definition JSON_DIR : string := "experts".
Definition SLEEP_DURATION : Z := 30.

(** The exceptions of the module: the two it raises itself
    ([FileNotFoundError], [ValueError]) and those of the libraries it
    calls. *)
Inductive error : Type :=
| DirectoryMissing
| NoJsonFiles
| LibraryError (message : string).

(** What the builder has done: the documents handed to
    [graph_index.extract] that went through, the seconds spent in
    [time.sleep], and the log. *)
Record machine (doc : Type) : Type := MkMachine {
  extracted : list doc;
  slept : Z;
  logged : list log_entry
}.
Arguments MkMachine {doc} _ _ _.
Arguments extracted {doc} _.
Arguments slept {doc} _.
Arguments logged {doc} _.

Definition note {doc : Type} (entry : log_entry) (m : machine doc) : machine doc :=
  MkMachine (extracted m) (slept m) (logged m ++ [entry]).

Section Builder.
Context {file doc : Type}.

(** [list(Path(json_dir).glob("*.json"))], [None] when the directory does
    not exist; [JSONReader.load_data] on one file; and
    [graph_index.extract] on one document, whose outcome may depend on the
    documents extracted before. *)
Variable glob : string -> option (list file).
Variable load_data : file -> error + list doc.
Variable extract : list doc -> doc -> option error.

Fixpoint load_files (json_files : list file) (documents : list doc)
    (m : machine doc) : (error + list doc) * machine doc :=
  match json_files with
  | [] => (inr documents, m)
  | json_file :: rest =>
      match load_data json_file with
      | inr docs =>
          load_files rest (documents ++ docs) (note (LogInfo "Loaded documents") m)
      | inl e => (inl e, note (LogError "Error loading") m)
      end
  end.

Definition _load_json_documents (json_dir : string) (m : machine doc)
    : (error + list doc) * machine doc :=
  match glob json_dir with
  | None => (inl DirectoryMissing, m)
  | Some [] => (inl NoJsonFiles, m)
  | Some json_files => load_files json_files [] (note (LogInfo "Found JSON files") m)
  end.

(** The loop over [enumerate(documents, 1)], from position [i] on, with
    [total] for [len(documents)]. *)
Fixpoint extract_each (documents : list doc) (i total : nat) (m : machine doc)
    : option error * machine doc :=
  match documents with
  | [] => (None, m)
  | document :: rest =>
      let m1 := note (LogInfo "Processing document") m in
      match extract (extracted m1) document with
      | Some e => (Some e, m1)
      | None =>
          let m2 := MkMachine (extracted m1 ++ [document]) (slept m1) (logged m1) in
          let m3 :=
            if Nat.ltb i total
            then MkMachine (extracted m2) (slept m2 + SLEEP_DURATION)
                           (logged m2 ++ [LogInfo "Sleeping"])
            else m2 in
          extract_each rest (S i) total m3
      end
  end.

(** [json_dir or self.config.JSON_DIR] *)
Definition dir_or_default (json_dir : option string) : string :=
  match json_dir with
  | Some d => if String.eqb d EmptyString then JSON_DIR else d
  | None => JSON_DIR
  end.

(** [None] when the extraction completes, the exception raised again
    otherwise.  The handler of [_get_s3_docs] and the [Checkpoint] are the
    same for every document and are part of [extract]. *)
Definition extract_information (json_dir : option string) (m : machine doc)
    : option error * machine doc :=
  let json_dir := dir_or_default json_dir in
  let m0 := note (LogInfo "Starting information extraction...") m in
  match _load_json_documents json_dir m0 with
  | (inl e, m1) => (Some e, note (LogError "Error during extraction") m1)
  | (inr documents, m1) =>
      let m2 := note (LogInfo "Processing documents") m1 in
      match extract_each documents 1 (length documents) m2 with
      | (Some e, m3) => (Some e, note (LogError "Error during extraction") m3)
      | (None, m3) =>
          (None, note (LogInfo "Information extraction completed successfully") m3)
      end
  end.

(** The documents of a directory, as [_load_json_documents] returns them. *)
Definition loaded (json_dir : option string) : error + list doc :=
  fst (_load_json_documents (dir_or_default json_dir) (MkMachine [] 0 [])).

End Builder.
End BuildGraph.

(** ** [graph_rag/core/retrieve.py] *)

Module Retrieve.

(** What the [try] block of [query] can come to: an exception, a response
    with a [response] attribute, or one without, of which [str()] is
    taken. *)
Inductive engine_response : Type :=
| Raises
| WithResponse (response : json)
| Plain (str : string).

(** The questions put to the query engine so far, and the log. *)
Record session : Type := MkSession {
  asked : list string;
  logged : list log_entry
}.

Section Retriever.

(** [str.isspace] on one character, and the query engine, whose answer
    may depend on the questions it was asked before. *)
Variable isspace : ascii -> bool.
Variable engine : list string -> string -> engine_response.

(** [not question.strip()] *)
Definition blank (question : string) : bool :=
  forallb isspace (list_ascii_of_string question).

(** The value returned is Python's: [None] is [JNull]. *)
Definition query (question : string) (s : session) : json * session :=
  if blank question then
    (JNull, MkSession (asked s) (logged s ++ [LogWarning "Empty query provided"]))
  else
    let s1 := MkSession (asked s ++ [question]) (logged s ++ [LogInfo "Executing query"]) in
    match engine (asked s) question with
    | WithResponse result =>
        (result, MkSession (asked s1) (logged s1 ++ [LogInfo "Query executed successfully"]))
    | Plain str =>
        (JStr str,
         MkSession (asked s1)
           (logged s1 ++ [LogWarning "Query response has no 'response' attribute"]))
    | Raises =>
        (JNull, MkSession (asked s1) (logged s1 ++ [LogError "Query execution failed"]))
    end.

Fixpoint ask_all (questions : list string) (results : dict) (s : session)
    : dict * session :=
  match questions with
  | [] => (results, s)
  | question :: rest =>
      let s1 := MkSession (asked s) (logged s ++ [LogInfo "Processing question"]) in
      let '(answer, s2) := query question s1 in
      ask_all rest (Dict.set question answer results) s2
  end.

Definition batch_query (questions : list string) (s : session) : dict * session :=
  ask_all questions [] s.

(** What [query] returns for a question when the engine has been asked
    the questions [before]. *)
Definition answer (question : string) (before : list string) : json :=
  if blank question then JNull
  else match engine before question with
       | WithResponse result => result
       | Plain str => JStr str
       | Raises => JNull
       end.

(** The questions that reach the engine. *)
Definition put_to_engine (questions : list string) : list string :=
  List.filter (fun q => negb (blank q)) questions.

End Retriever.
End Retrieve.

(** ** Vocabulary of the statements *)

(** The three rewriting steps applied to an expert record. *)
Definition finish_expert (i : identity) (e : dict) : result dict :=
  e1 ← anonymize_name (remove_data e) name_list
         (fake_name i) (fake_last_name i) (fake_full_name i);
  e2 ← anonymize_contacts e1 (fake_email i) (fake_phone i) (fake_mobile i);
  Ok (anonymize_id e2 id_list (fake_id i)).

(** The identities a [Faker()] instance hands to [n] experts in turn. *)
Fixpoint gen_identities {G} `{RS : RandomSource G} (n : nat) (fk : faker G)
    : result (list identity * faker G) :=
  match n with
  | O => Ok ([], fk)
  | S n' =>
      '(i, fk1) ← new_identity fk;
      '(rest, fk2) ← gen_identities n' fk1;
      Ok (i :: rest, fk2)
  end.

(** A completed run of the loop over the experts: original ids, identities,
    rewritten experts and the successive states of [data]. *)
Inductive run_trace :
  list json -> json -> list (json * identity) -> list json -> json -> Prop :=
| trace_done data : run_trace [] data [] [] data
| trace_step e o i e' data data1 rest passes rest' data2 :
    Dict.get "Id" e = Some o ->
    scan_data o i data = Ok data1 ->
    finish_expert i e = Ok e' ->
    run_trace rest data1 passes rest' data2 ->
    run_trace (JObj e :: rest) data ((o, i) :: passes) (JObj e' :: rest') data2.

(** What the successive passes do to one record of [data]. *)
Fixpoint scan_passes (passes : list (json * identity)) (record : json)
    : result json :=
  match passes with
  | [] => Ok record
  | (o, i) :: rest => r ← scan_record o i record; scan_passes rest r
  end.

(** The synthetic values, by field, for an expert record and for a
    work/output record. *)
Definition expert_fields (i : identity) : list (string * string) :=
  [ ("Title", fake_full_name i); ("FirstName", fake_name i);
    ("LastName", fake_last_name i); ("Email", fake_email i);
    ("Phone", fake_phone i); ("Mobile", fake_mobile i) ].
Definition work_fields (i : identity) : list (string * string) :=
  [ ("Owner", fake_full_name i); ("Email", fake_email i);
    ("Phone", fake_phone i); ("Mobile", fake_mobile i) ].

(** Every listed field that [before] has holds its synthetic value in [after]. *)
Definition carries (fields : list (string * string)) (before after : dict) : Prop :=
  Forall (fun kv => Dict.mem (fst kv) before = true ->
                    Dict.get (fst kv) after = Some (JStr (snd kv))) fields.

(** The values of field [k] over the records of a document. *)
Definition field_values (k : string) (records : list json) : list json :=
  omap (fun r => match r with JObj d => Dict.get k d | _ => None end) records.

Definition has_field (k : string) (r : dict) : Prop := Dict.mem k r = true.

Definition listed (k : string) (keys : list string) : bool :=
  existsb (fun k' => String.eqb k' k) keys.

(** A field value on which [.replace] can be called, or no field at all. *)
Definition str_or_absent (v : option json) : Prop :=
  match v with
  | Some (JStr _) | None => True
  | Some _ => False
  end.

(** The fields [keys] of a record hold strings where present. *)
Definition string_fields (keys : list string) (r : dict) : Prop :=
  forall k, listed k keys = true -> str_or_absent (Dict.get k r).

Definition expert_keys : list string := name_list ++ contact_list.
Definition work_keys : list string := works_list ++ contact_list.

(** The exceptions a run over lists of mappings can end with; with
    [strict], the one of a [.replace] on a value that is no string is
    left out. *)
Definition run_error (strict : bool) (e : exn) : Prop :=
  e = KeyError \/ e = UniquenessException \/ (strict = false /\ e = AttributeError).

(** A mapping whose fields [keys] hold strings when [strict] is set. *)
Definition good (strict : bool) (keys : list string) (r : json) : Prop :=
  exists d, r = JObj d /\ (strict = true -> string_fields keys d).

(** Linkage as [combine_experts_with_works] decides it. *)
Definition linked (expert work : json) : bool :=
  match expert, work with
  | JObj e, JObj w =>
      match Dict.get "ExpertId" w with
      | Some x => truthy x && py_eq x (Dict.get_or_none "Id" e)
      | None => false
      end
  | _, _ => false
  end.

(** The loops of [anonymize_name] and [anonymize_contacts] have one shape:
    a field that is present is overwritten with the value chosen for it. *)
Definition update_fields (choose : string -> option string) (keys : list string)
    (r : dict) : result dict :=
  foldM (fun r k =>
           if Dict.mem k r then
             match choose k with
             | Some new => replace_field r k new
             | None => Ok r
             end
           else Ok r) keys r.

Definition name_choice (name last_name full_name attribute : string) : option string :=
  Some (if Str.contains "FirstName" attribute then name
        else if Str.contains "LastName" attribute then last_name
        else full_name).

Definition contact_choice (email phone mobile attribute : string) : option string :=
  if Str.contains "Email" attribute then Some email
  else if Str.contains "Phone" attribute then Some phone
  else if Str.contains "Mobile" attribute then Some mobile
  else None.

(** No synthetic id written to the experts equals ([==]) the original id
    of an expert. *)
Definition no_collision (experts outs : list json) : Prop :=
  forall o v,
    In o (field_values "Id" experts) -> In v (field_values "Id" outs) ->
    py_eq o v = false.

(** Expert [j] is the only expert whose original id equals [x]. *)
Definition only_match (experts : list json) (j : nat) (x : json) : Prop :=
  (exists e o, experts !! j = Some (JObj e) /\ Dict.get "Id" e = Some o /\
               py_eq o x = true) /\
  (forall j' e' o', j' <> j -> experts !! j' = Some (JObj e') ->
                    Dict.get "Id" e' = Some o' -> py_eq o' x = false).

(** The first half of the identity invariant as the specification words
    it: after a run from [w] to [w'], an expert and a record of the
    original data with an equal id carry one and the same identifier. *)
Definition shares_identifier {G} (w w' : world G) : Prop :=
  forall experts items outs items' j k e r o x,
    fs w !! expert_file = Some (JList experts) ->
    fs w !! original_file = Some (JList items) ->
    fs w' !! experts_cleaned_file = Some (JList outs) ->
    fs w' !! works_cleaned_file = Some (JList items') ->
    experts !! j = Some (JObj e) -> Dict.get "Id" e = Some o ->
    items !! k = Some (JObj r) -> Dict.get "ExpertId" r = Some x ->
    py_eq o x = true ->
    exists e_out r_out v,
      outs !! j = Some (JObj e_out) /\ items' !! k = Some (JObj r_out) /\
      Dict.get "Id" e_out = Some v /\ Dict.get "ExpertId" r_out = Some v.

(** Linkage preservation as the specification words it: the [ExpertId]
    values of the works written and the [Id] values of the experts written
    are the same set. *)
Definition same_id_sets {G} (w' : world G) : Prop :=
  forall outs items',
    fs w' !! experts_cleaned_file = Some (JList outs) ->
    fs w' !! works_cleaned_file = Some (JList items') ->
    forall v, In v (field_values "ExpertId" items') <-> In v (field_values "Id" outs).

(** The failure condition as the specification words it: a missing [Id]
    or a missing [ExpertId] anywhere makes the run raise [KeyError]. *)
Definition missing_id_raises {G} `{RS : RandomSource G} (w : world G) : Prop :=
  forall experts works : list dict,
    fs w !! expert_file = Some (JList (map JObj experts)) ->
    fs w !! original_file = Some (JList (map JObj works)) ->
    Exists (fun e => Dict.mem "Id" e = false) experts \/
    Exists (fun r => Dict.mem "ExpertId" r = false) works ->
    fst (anonymize_data w) = Err KeyError.

(** The value a hashable key stands for: [True] and [False] are the
    integers 1 and 0. *)
Definition key_of (v : json) : json :=
  match v with
  | JBool b => JInt (Z.b2z b)
  | _ => v
  end.

(** [works_by_expert.get(k, [])] *)
Definition index_get_or_empty (k : json) (idx : list (json * list json)) : list json :=
  match index_get k idx with
  | Some ws => ws
  | None => []
  end.

(** A work or output record files under key [k]. *)
Definition filed_under (k : json) (work : json) : bool :=
  match work with
  | JObj w => let x := Dict.get_or_none "ExpertId" w in truthy x && py_eq x k
  | _ => false
  end.

(** The [ExpertId] of a work can be a dictionary key whenever it is used as one. *)
Definition work_ok (w : dict) : Prop :=
  truthy (Dict.get_or_none "ExpertId" w) = true ->
  hashable (Dict.get_or_none "ExpertId" w) = true.

Definition expert_ok (e : dict) : Prop :=
  hashable (Dict.get_or_none "Id" e) = true.

(** The works an expert record ends with. *)
Definition works_of (expert : dict) (works : list dict) : list json :=
  List.filter (linked (JObj expert)) (map JObj works).

(** Linkage as the specification words it: a work whose [ExpertId] equals
    the [Id] of an expert is in that expert's [works] after the join. *)
Definition equal_ids_are_linked (experts works : list dict) : Prop :=
  forall e w x o,
    In e experts -> In w works ->
    Dict.get "Id" e = Some o -> Dict.get "ExpertId" w = Some x ->
    py_eq x o = true ->
    exists out e' ws,
      combine_loaded (JList (map JObj experts)) (JList (map JObj works)) = Ok (JList out) /\
      In (JObj e') out /\ Dict.get "Id" e' = Some o /\
      Dict.get "works" e' = Some (JList ws) /\ In (JObj w) ws.

(** Every key of [works_by_expert] is hashable. *)
Definition keys_hashable (idx : list (json * list json)) : Prop :=
  Forall (fun kv => hashable (fst kv) = true) idx.

(** A program that leaves the file at path [p] as it is, whether it
    completes or raises. *)
Definition keeps {G A} (p : string) (m : M G A) : Prop :=
  forall w, fs (snd (m w)) !! p = fs w !! p.

(** A program that changes the log only and does not raise. *)
Definition logs_only {G A} (m : M G A) : Prop :=
  forall w, exists a l, m w = (Ok a, MkWorld (fs w) (rng w) (log w ++ l)).

(** The exception [_make_request] raises for a response that is no body. *)
Definition failure_exn (r : response) : option exn :=
  match r with
  | ConnectionFailed | HttpStatusError => Some RequestException
  | MalformedBody => Some JSONDecodeError
  | Body _ => None
  end.

(** What [get_expert_profile] returns, as a function of the vendor's answer. *)
Definition profile_of (http_get : string -> dict -> response) (expert_id : json) : json :=
  match http_get SINEQUA_EXPERT_PROFILE_URL [("UserId", expert_id)] with
  | Body v =>
      match py_get_or_empty v "RecordList" with
      | Ok records =>
          if truthy records then
            match py_first records with Ok x => x | Err _ => JNull end
          else JNull
      | Err _ => JNull
      end
  | _ => JNull
  end.

(** The failure policy as the specification words it: a profile lookup
    comes back empty-handed only when the vendor answered with an empty
    [RecordList]. *)
Definition only_empty_list_is_skipped {G} (http_get : string -> dict -> response) : Prop :=
  forall (w : world G) (expert_id : json),
    fst (get_expert_profile http_get expert_id w) = Ok JNull ->
    exists v,
      http_get SINEQUA_EXPERT_PROFILE_URL [("UserId", expert_id)] = Body v /\
      py_get_or_empty v "RecordList" = Ok (JList []).

(** The query of [get_outputs_and_works] when no limit is given. *)
Definition limit_params (config : Config) : dict :=
  [("Limit", JInt (DEFAULT_LIMIT config))].

(** Removal, names over [names], contacts, id over [[idkey]]: the steps
    that [anonymize_data] applies to a work record and to an expert record. *)
Definition rewrite_record (i : identity) (names : list string) (idkey : string)
    (d : dict) : result dict :=
  r1 ← anonymize_name (remove_data d) names
         (fake_name i) (fake_last_name i) (fake_full_name i);
  r2 ← anonymize_contacts r1 (fake_email i) (fake_phone i) (fake_mobile i);
  Ok (anonymize_id r2 [idkey] (fake_id i)).

(** ** Fixtures *)

(** A random source that counts: the state is the number of draws so far. *)
#[global] Instance counter_source : RandomSource Z := {|
  random_int := fun lo hi g => (lo + g, g + 1);
  first_name := fun g => ("Ann", g + 1);
  last_name := fun g => ("Lee", g + 1);
  phone_number := fun g => ("555-0100", g + 1);
  seed := fun s => s
|}.

(** A random source that always draws the same integer. *)
Definition stuck_source : RandomSource Z := {|
  random_int := fun lo hi g => (lo, g + 1);
  first_name := fun g => ("Ann", g + 1);
  last_name := fun g => ("Lee", g + 1);
  phone_number := fun g => ("555-0100", g + 1);
  seed := fun s => s
|}.

Definition bob : dict :=
  [("Id", JInt 1); ("FirstName", JStr "Bob"); ("Photo", JStr "x");
   ("Email", JStr "bob@example.org")].
Definition bobs_paper : dict :=
  [("ExpertId", JInt 1); ("Owner", JStr "Bob X"); ("Photo", JStr "p")].
Definition carls_paper : dict :=
  [("ExpertId", JInt 99); ("Owner", JStr "Carl"); ("Photo", JStr "p")].

Definition world_of (files : list (string * json)) : world Z :=
  MkWorld (list_to_map files) 0 [].

Definition bob_world : world Z :=
  world_of [ (expert_file, JList [JObj bob]);
             (original_file, JList [JObj bobs_paper; JObj carls_paper]) ].

(** An expert whose original id is the first id the counting source draws. *)
Definition collision_world : world Z :=
  world_of [ (expert_file, JList [JObj [("Id", JInt 1)]; JObj [("Id", JInt 111111)]]);
             (original_file, JList [JObj [("ExpertId", JInt 1)]]) ].

(** An expert to whom no record of the original data belongs. *)
Definition lonely_world : world Z :=
  world_of [ (expert_file, JList [JObj bob]); (original_file, JList []) ].

(** One expert and the one record that belongs to it. *)
Definition pair_world : world Z :=
  world_of [ (expert_file, JList [JObj bob]); (original_file, JList [JObj bobs_paper]) ].

Definition bob_cleaned : dict :=
  [("Id", JInt 111111); ("FirstName", JStr "Ann"); ("Email", JStr "ann.lee@roche.com")].
Definition bobs_paper_cleaned : dict :=
  [("ExpertId", JInt 111111); ("Owner", JStr "Ann Lee")].

(** No expert at all, and a record without [ExpertId]. *)
Definition no_experts_world : world Z :=
  world_of [ (expert_file, JList []);
             (original_file, JList [JObj [("Title", JStr "A paper")]]) ].

(** An expert record without [Id]. *)
Definition nameless_world : world Z :=
  world_of [ (expert_file, JList [JObj [("FirstName", JStr "Bob")]]);
             (original_file, JList [JObj bobs_paper]) ].

Definition ann : dict := [("Id", JInt 1); ("FirstName", JStr "Ann")].
Definition anns_paper : dict := [("ExpertId", JInt 1); ("Owner", JStr "Ann X")].
Definition stray_paper : dict := [("ExpertId", JInt 99)].

Definition linkage_world : world Z :=
  world_of [ ("data/experts.json", JList [JObj ann]);
             ("data/works.json", JList [JObj anns_paper; JObj stray_paper]) ].

Definition raw_config : Config := {| DEFAULT_LIMIT := 10; SHOULD_ANONYMIZE := false |}.

(** [str()] on the identifiers of the fixtures. *)
Definition str_of_id (v : json) : string :=
  match v with
  | JInt 1 => "1"
  | JStr s => s
  | _ => "x"
  end.

(** A vendor that is down. *)
Definition dead_api : string -> dict -> response := fun _ _ => ConnectionFailed.

(** A vendor that lists two works, of the experts 7 and 1, and whose
    profile endpoint answers for expert 1 only. *)
Definition flaky_api : string -> dict -> response :=
  fun url params =>
    if String.eqb url SINEQUA_OUTPUTS_URL then Body (JObj [("RecordList", JList [])])
    else if String.eqb url SINEQUA_WORKS_URL then
      Body (JObj [("RecordList",
                   JList [JObj [("ExpertId", JInt 7)]; JObj anns_paper])])
    else if py_eq (Dict.get_or_none "UserId" params) (JInt 1) then
      Body (JObj [("RecordList", JList [JObj ann])])
    else ConnectionFailed.

Definition same_order : list json -> list json := fun l => l.

(** ** Vocabulary of the further properties *)

(** A field that [remove_data] leaves in place. *)
Definition kept (k : string) : bool := negb (listed k remove_list).

(** The fields [keys] of a record hold strings where present, as a test. *)
Definition all_strings (keys : list string) (r : dict) : bool :=
  forallb (fun k => match Dict.get k r with
                    | Some (JStr _) | None => true
                    | Some _ => false
                    end) keys.

(** The random source keeps [random_int] between its bounds. *)
Definition respects_bounds {G} `{RS : RandomSource G} : Prop :=
  forall lo hi g, lo <= hi -> lo <= fst (random_int lo hi g) <= hi.

(** A random source that walks through the range it is asked for. *)
Definition modular_source : RandomSource Z := {|
  random_int := fun lo hi g => (lo + g mod (hi - lo + 1), g + 1);
  first_name := fun g => ("Ann", g + 1);
  last_name := fun g => ("Lee", g + 1);
  phone_number := fun g => ("555-0100", g + 1);
  seed := fun s => s
|}.

Definition modular_world : world Z :=
  world_of [ (expert_file, JList [JObj bob; JObj [("Id", JInt 2)]]);
             (original_file, JList [JObj bobs_paper]) ].

(** [limit or DEFAULT_LIMIT] *)
Definition effective_limit (config : Config) (limit : option Z) : Z :=
  match limit with
  | Some n => if Z.eqb n 0 then DEFAULT_LIMIT config else n
  | None => DEFAULT_LIMIT config
  end.

(** The records of a response whose [RecordList] is a list or is missing. *)
Definition records_of (d : dict) : option (list json) :=
  match Dict.get "RecordList" d with
  | None => Some []
  | Some (JList l) => Some l
  | Some _ => None
  end.

(** No two members are equal ([==]). *)
Fixpoint all_differ (l : list json) : Prop :=
  match l with
  | [] => True
  | x :: r => (forall y, In y r -> py_eq x y = false) /\ all_differ r
  end.

(** The path [save_individual_expert_files] writes an expert to. *)
Definition expert_path (py_str : json -> string) (expert : json) : option string :=
  match expert_file_name py_str expert with
  | Ok name => Some (String.append EXPERTS_DIR name)
  | Err _ => None
  end.

(** The last expert of the list that is written to path [p]. *)
Fixpoint last_at (py_str : json -> string) (p : string) (experts : list json)
    : option json :=
  match experts with
  | [] => None
  | x :: rest =>
      match last_at py_str p rest with
      | Some y => Some y
      | None =>
          match expert_path py_str x with
          | Some q => if String.eqb q p then Some x else None
          | None => None
          end
      end
  end.

(** The files as they are after the experts of the list have been saved. *)
Definition with_expert_files (py_str : json -> string) (experts : list json)
    (files : gmap string json) (p : string) : option json :=
  match last_at py_str p experts with
  | Some x => Some x
  | None => files !! p
  end.

Definition ann_twice : list json :=
  [ JObj [("Id", JInt 1); ("Title", JStr "Ann Lee"); ("Email", JStr "first")];
    JObj [("Id", JInt 1); ("Title", JStr "Ann Lee"); ("Email", JStr "second")] ].

(** A program that changes no file, whether it completes or raises. *)
Definition fs_kept {G A} (m : M G A) : Prop :=
  forall w, fs (snd (m w)) = fs w.

(** The exception of [combine_experts_with_works] for a record of the
    works file that cannot be filed. *)
Definition filing_error (work : json) : exn :=
  match work with
  | JObj _ => TypeError
  | _ => AttributeError
  end.

(** A record of the works file that stops the first loop of the join:
    no mapping, or a mapping whose [ExpertId] is truthy and unhashable. *)
Definition cannot_be_filed (work : json) : Prop :=
  match work with
  | JObj d => truthy (Dict.get_or_none "ExpertId" d) = true /\
              hashable (Dict.get_or_none "ExpertId" d) = false
  | _ => True
  end.

(** No file is under the experts directory. *)
Definition no_expert_files {G} (w : world G) : Prop :=
  forall p, is_under EXPERTS_DIR p = true -> fs w !! p = None.

Definition listy_world : world Z :=
  world_of [ ("data/experts.json", JList [JObj ann]);
             ("data/works.json",
              JList [JObj anns_paper; JObj [("ExpertId", JList [JInt 1])];
                     JObj stray_paper]) ].

(** A run that finds a file of an earlier run in the experts directory. *)
Definition stale_world : world Z :=
  world_of [("data/experts/9_Old.json", JNull)].

Definition half_set_environ : gmap string string :=
  <["GALILEO_AWS_KEY" := "k"]> (<["GALILEO_AZURE_KEY" := EmptyString]> ∅).

(** A character test and an engine that counts the questions it has had. *)
Definition only_space (c : ascii) : bool := Ascii.eqb c " "%char.

Definition counting_engine (before : list string) (question : string)
    : Retrieve.engine_response :=
  Retrieve.WithResponse (JInt (Z.of_nat (length before))).

(** ** Facts about strings and dictionaries *)

Ltac unbind := unfold mbind, result_bind, mret, result_ret in *.

Example replace_spaces : Str.replace "Ann Mary Lee" " " "_" = "Ann_Mary_Lee".
Proof. reflexivity. Qed.
Example replace_empty_old : Str.replace "abc" EmptyString "-" = "-a-b-c-".
Proof. reflexivity. Qed.
Example title_class_dict : Str.title "<class 'dict'>" = "<Class 'Dict'>".
Proof. reflexivity. Qed.
Example py_eq_true_one : py_eq (JBool true) (JInt 1) = true.
Proof. reflexivity. Qed.
Example py_eq_dict_order :
  py_eq (JObj [("a", JInt 1); ("b", JNull)]) (JObj [("b", JNull); ("a", JInt 1)]) = true.
Proof. reflexivity. Qed.

Lemma prefix_refl (s : string) : Str.prefix s s = true.
Proof.
  induction s as [|c s IH]; simpl; [reflexivity|].
  rewrite Ascii.eqb_refl. exact IH.
Qed.

Lemma replace_from_skipped (old new s : string) (skip : nat) :
  (String.length s <= skip)%nat -> Str.replace_from old new s skip = EmptyString.
Proof.
  revert skip. induction s as [|c s IH]; intros skip H; simpl in *; [reflexivity|].
  destruct skip as [|k]; [lia|]. apply IH. lia.
Qed.

Lemma append_empty (s : string) : String.append s EmptyString = s.
Proof.
  induction s as [|c s IH]; [reflexivity|].
  change (String c (String.append s EmptyString) = String c s). now rewrite IH.
Qed.

(** [s.replace(s, new)] is [new], for every string [s]. *)
Lemma replace_self (s new : string) : Str.replace s s new = new.
Proof.
  destruct s as [|c s]; [reflexivity|].
  unfold Str.replace. cbn [Str.replace_from].
  rewrite prefix_refl.
  rewrite replace_from_skipped by (simpl; lia).
  apply append_empty.
Qed.

Lemma get_set_eq (k : string) (v : json) (d : dict) :
  Dict.get k (Dict.set k v d) = Some v.
Proof.
  induction d as [|[k' v'] d IH]; simpl.
  - now rewrite String.eqb_refl.
  - destruct (String.eqb k' k) eqn:E; simpl; rewrite E; [reflexivity|exact IH].
Qed.

Lemma get_set_ne (k k' : string) (v : json) (d : dict) :
  String.eqb k k' = false -> Dict.get k' (Dict.set k v d) = Dict.get k' d.
Proof.
  intros Hne. induction d as [|[k0 v0] d IH]; simpl.
  - now rewrite Hne.
  - destruct (String.eqb k0 k) eqn:E; simpl.
    + apply String.eqb_eq in E. subst k0. now rewrite Hne.
    + now rewrite IH.
Qed.

Lemma get_del_eq (k : string) (d : dict) : Dict.get k (Dict.del k d) = None.
Proof.
  induction d as [|[k' v'] d IH]; simpl; [reflexivity|].
  destruct (String.eqb k' k) eqn:E; simpl; [exact IH|]. now rewrite E.
Qed.

Lemma get_del_ne (k k' : string) (d : dict) :
  String.eqb k k' = false -> Dict.get k' (Dict.del k d) = Dict.get k' d.
Proof.
  intros Hne. induction d as [|[k0 v0] d IH]; simpl; [reflexivity|].
  destruct (String.eqb k0 k) eqn:E; simpl.
  - apply String.eqb_eq in E. subst k0. now rewrite Hne.
  - now rewrite IH.
Qed.

Lemma mem_get (k : string) (d : dict) :
  Dict.mem k d = true <-> exists v, Dict.get k d = Some v.
Proof.
  unfold Dict.mem. destruct (Dict.get k d); split; eauto; try discriminate.
  intros [v Hv]. discriminate.
Qed.

(** ** Facts about the record rewriting steps *)

Lemma get_mem_false (k : string) (d : dict) :
  Dict.mem k d = false -> Dict.get k d = None.
Proof. unfold Dict.mem. destruct (Dict.get k d); [discriminate|reflexivity]. Qed.

Lemma remove_keys_get (keys : list string) (k : string) (d : dict) :
  Dict.get k
    (fold_left (fun r a => if Dict.mem a r then Dict.del a r else r) keys d)
  = if listed k keys then None else Dict.get k d.
Proof.
  revert d. induction keys as [|a keys IH]; intros d; simpl; [reflexivity|].
  rewrite IH. destruct (String.eqb a k) eqn:E; simpl.
  - apply String.eqb_eq in E. subst a.
    destruct (listed k keys); [reflexivity|].
    destruct (Dict.mem k d) eqn:Hm; [apply get_del_eq|now apply get_mem_false].
  - destruct (listed k keys); [reflexivity|].
    destruct (Dict.mem a d); [now apply get_del_ne|reflexivity].
Qed.

Lemma remove_data_get (k : string) (d : dict) :
  Dict.get k (remove_data d) = if listed k remove_list then None else Dict.get k d.
Proof. apply remove_keys_get. Qed.

Lemma replace_field_ok (r r' : dict) (k new : string) :
  replace_field r k new = Ok r' ->
  r' = Dict.set k (JStr new) r /\ exists s, Dict.get k r = Some (JStr s).
Proof.
  unfold replace_field. destruct (Dict.get k r) as [[]|]; try discriminate.
  intros [= <-]. rewrite replace_self. eauto.
Qed.

Lemma anonymize_name_update (r : dict) (keys : list string) (n l f : string) :
  anonymize_name r keys n l f = update_fields (name_choice n l f) keys r.
Proof.
  unfold anonymize_name, update_fields. revert r.
  induction keys as [|k keys IH]; intros r; simpl; [reflexivity|].
  unbind. destruct (Dict.mem k r); [|apply IH].
  destruct (Str.contains "FirstName" k); [|destruct (Str.contains "LastName" k)];
    (destruct (replace_field r k _); [apply IH|reflexivity]).
Qed.

Lemma anonymize_contacts_update (r : dict) (e p m : string) :
  anonymize_contacts r e p m = update_fields (contact_choice e p m) contact_list r.
Proof.
  unfold anonymize_contacts, update_fields. generalize contact_list. intros keys.
  revert r. induction keys as [|k keys IH]; intros r; simpl; [reflexivity|].
  unbind. unfold contact_choice.
  destruct (Dict.mem k r); [|apply IH].
  destruct (Str.contains "Email" k);
    [|destruct (Str.contains "Phone" k); [|destruct (Str.contains "Mobile" k)]];
    try (destruct (replace_field r k _); [apply IH|reflexivity]).
  apply IH.
Qed.

Section UpdateFields.
Variable choose : string -> option string.

Lemma update_fields_cons (k : string) (keys : list string) (r r' : dict) :
  update_fields choose (k :: keys) r = Ok r' ->
  exists r1,
    update_fields choose keys r1 = Ok r' /\
    (r1 = r \/
     exists new s, choose k = Some new /\ Dict.get k r = Some (JStr s) /\
                   r1 = Dict.set k (JStr new) r).
Proof.
  unfold update_fields. simpl. unbind.
  destruct (Dict.mem k r); [|eauto].
  destruct (choose k) as [new|]; [|eauto].
  destruct (replace_field r k new) as [r1|] eqn:E; [|discriminate].
  intros H. exists r1. split; [exact H|].
  apply replace_field_ok in E as [-> [s Hs]]. right. eauto.
Qed.

(** A field that no step touches keeps its value. *)
Lemma update_fields_other (keys : list string) (k : string) (r r' : dict) :
  update_fields choose keys r = Ok r' ->
  listed k keys = false ->
  Dict.get k r' = Dict.get k r.
Proof.
  revert r. induction keys as [|a keys IH]; intros r H Hk.
  - now injection H as <-.
  - simpl in Hk. apply orb_false_elim in Hk as [Hak Hk].
    apply update_fields_cons in H as (r1 & H & [->|(new & s & _ & _ & ->)]).
    + now apply IH.
    + rewrite (IH _ H Hk). now apply get_set_ne.
Qed.

(** An absent field stays absent. *)
Lemma update_fields_absent (keys : list string) (k : string) (r r' : dict) :
  update_fields choose keys r = Ok r' ->
  Dict.get k r = None -> Dict.get k r' = None.
Proof.
  revert r. induction keys as [|a keys IH]; intros r H Hk.
  - now injection H as <-.
  - apply update_fields_cons in H as (r1 & H & [->|(new & s & _ & Hs & ->)]).
    + exact (IH _ H Hk).
    + apply (IH _ H). destruct (String.eqb a k) eqn:E.
      * apply String.eqb_eq in E. subst a. congruence.
      * now rewrite get_set_ne.
Qed.

Lemma update_fields_kept (keys : list string) (k new : string) (r r' : dict) :
  update_fields choose keys r = Ok r' ->
  choose k = Some new ->
  Dict.get k r = Some (JStr new) -> Dict.get k r' = Some (JStr new).
Proof.
  revert r. induction keys as [|a keys IH]; intros r H Hc Hk.
  - now injection H as <-.
  - apply update_fields_cons in H as (r1 & H & [->|(new' & s & Hc' & Hs & ->)]).
    + exact (IH _ H Hc Hk).
    + apply (IH _ H Hc). destruct (String.eqb a k) eqn:E.
      * apply String.eqb_eq in E. subst a. rewrite get_set_eq. congruence.
      * now rewrite get_set_ne.
Qed.

(** A listed field that is present ends with the value chosen for it. *)
Lemma update_fields_listed (keys : list string) (k new : string) (r r' : dict) :
  update_fields choose keys r = Ok r' ->
  listed k keys = true ->
  choose k = Some new ->
  Dict.mem k r = true ->
  Dict.get k r' = Some (JStr new).
Proof.
  revert r. induction keys as [|a keys IH]; intros r H Hl Hc Hm; [discriminate|].
  simpl in Hl. destruct (String.eqb a k) eqn:E.
  - apply String.eqb_eq in E. subst a.
    unfold update_fields in H. simpl in H. unbind. rewrite Hm, Hc in H.
    destruct (replace_field r k new) as [r1|] eqn:Er; [|discriminate].
    apply replace_field_ok in Er as [-> _].
    apply (update_fields_kept keys k new _ _ H Hc), get_set_eq.
  - simpl in Hl.
    apply update_fields_cons in H as (r1 & H & [->|(new' & s & _ & _ & ->)]).
    + exact (IH _ H Hl Hc Hm).
    + apply (IH _ H Hl Hc). unfold Dict.mem. rewrite get_set_ne by exact E. exact Hm.
Qed.
End UpdateFields.

Lemma anonymize_id_get_other (keys : list string) (k : string) (fid : Z) (r : dict) :
  listed k keys = false ->
  Dict.get k (anonymize_id r keys fid) = Dict.get k r.
Proof.
  unfold anonymize_id. revert r.
  induction keys as [|a keys IH]; intros r Hk; simpl; [reflexivity|].
  simpl in Hk. apply orb_false_elim in Hk as [Hak Hk].
  rewrite (IH _ Hk).
  destruct (Dict.mem a r); [|reflexivity].
  destruct (Str.contains "Id" a); [now apply get_set_ne|].
  destruct (Str.contains "ExpertId" a); [now apply get_set_ne|reflexivity].
Qed.

Lemma mem_same (k : string) (a b : dict) :
  Dict.get k a = Dict.get k b -> Dict.mem k a = Dict.mem k b.
Proof. unfold Dict.mem. now intros ->. Qed.

Lemma anonymize_id_single (a : string) (fid : Z) (r : dict) :
  Str.contains "Id" a = true ->
  anonymize_id r [a] fid = if Dict.mem a r then Dict.set a (JInt fid) r else r.
Proof. intros H. unfold anonymize_id. simpl. now rewrite H. Qed.

Lemma anonymize_id_get_self (a : string) (fid : Z) (r : dict) (x : json) :
  Str.contains "Id" a = true ->
  Dict.get a r = Some x ->
  Dict.get a (anonymize_id r [a] fid) = Some (JInt fid).
Proof.
  intros H Hx. rewrite anonymize_id_single by exact H.
  unfold Dict.mem. rewrite Hx. apply get_set_eq.
Qed.

Lemma anonymize_id_absent (a k : string) (fid : Z) (r : dict) :
  Str.contains "Id" a = true ->
  Dict.get k r = None -> Dict.get k (anonymize_id r [a] fid) = None.
Proof.
  intros H Hk. rewrite anonymize_id_single by exact H.
  destruct (Dict.mem a r) eqn:Hm; [|exact Hk].
  destruct (String.eqb a k) eqn:E.
  - apply String.eqb_eq in E. subst a.
    unfold Dict.mem in Hm. now rewrite Hk in Hm.
  - now rewrite get_set_ne.
Qed.

(** The shape shared by the rewriting of a work record and of an expert
    record: removal, names over [names], contacts, id over [[idkey]]. *)
Section Rewrite.
Variables (i : identity) (names : list string) (idkey : string).
Variables (d d' : dict).
Hypothesis Hid : Str.contains "Id" idkey = true.
Hypothesis Hrun :
  (r1 ← anonymize_name (remove_data d) names
          (fake_name i) (fake_last_name i) (fake_full_name i);
   r2 ← anonymize_contacts r1 (fake_email i) (fake_phone i) (fake_mobile i);
   Ok (anonymize_id r2 [idkey] (fake_id i))) = Ok d'.

Lemma rewrite_steps :
  exists r1 r2,
    update_fields (name_choice (fake_name i) (fake_last_name i) (fake_full_name i))
      names (remove_data d) = Ok r1 /\
    update_fields (contact_choice (fake_email i) (fake_phone i) (fake_mobile i))
      contact_list r1 = Ok r2 /\
    d' = anonymize_id r2 [idkey] (fake_id i).
Proof using Hrun.
  revert Hrun. rewrite anonymize_name_update. unbind.
  destruct (update_fields _ names _) as [r1|]; [|discriminate].
  rewrite anonymize_contacts_update.
  destruct (update_fields _ contact_list _) as [r2|] eqn:E2; [|discriminate].
  intros [= <-]. eauto.
Qed.

(** No field of the remove list is left. *)
Lemma rewrite_removed (k : string) :
  listed k remove_list = true -> Dict.get k d' = None.
Proof using Hrun Hid.
  intros Hk. destruct rewrite_steps as (r1 & r2 & H1 & H2 & ->).
  apply anonymize_id_absent; [exact Hid|].
  apply (update_fields_absent _ _ _ _ _ H2), (update_fields_absent _ _ _ _ _ H1).
  rewrite remove_data_get. now rewrite Hk.
Qed.

(** The id field, when present, holds the synthetic id. *)
Lemma rewrite_id (x : json) :
  listed idkey remove_list = false ->
  listed idkey names = false ->
  listed idkey contact_list = false ->
  Dict.get idkey d = Some x ->
  Dict.get idkey d' = Some (JInt (fake_id i)).
Proof using Hrun Hid.
  intros Hr Hn Hc Hx. destruct rewrite_steps as (r1 & r2 & H1 & H2 & ->).
  apply anonymize_id_get_self with (x := x); [exact Hid|].
  rewrite (update_fields_other _ _ _ _ _ H2 Hc), (update_fields_other _ _ _ _ _ H1 Hn).
  rewrite remove_data_get. now rewrite Hr.
Qed.

(** A name field that the record has ends with its synthetic value. *)
Lemma rewrite_name (k new : string) :
  listed k remove_list = false ->
  listed k names = true ->
  listed k contact_list = false ->
  String.eqb idkey k = false ->
  name_choice (fake_name i) (fake_last_name i) (fake_full_name i) k = Some new ->
  Dict.mem k d = true ->
  Dict.get k d' = Some (JStr new).
Proof using Hrun Hid.
  intros Hr Hn Hc Hne Hch Hm. destruct rewrite_steps as (r1 & r2 & H1 & H2 & ->).
  rewrite anonymize_id_get_other by (simpl; now rewrite Hne).
  rewrite (update_fields_other _ _ _ _ _ H2 Hc).
  apply (update_fields_listed _ _ _ _ _ _ H1 Hn Hch).
  rewrite <- Hm. apply mem_same. rewrite remove_data_get. now rewrite Hr.
Qed.

(** A contact field that the record has ends with its synthetic value. *)
Lemma rewrite_contact (k new : string) :
  listed k remove_list = false ->
  listed k names = false ->
  listed k contact_list = true ->
  String.eqb idkey k = false ->
  contact_choice (fake_email i) (fake_phone i) (fake_mobile i) k = Some new ->
  Dict.mem k d = true ->
  Dict.get k d' = Some (JStr new).
Proof using Hrun Hid.
  intros Hr Hn Hc Hne Hch Hm. destruct rewrite_steps as (r1 & r2 & H1 & H2 & ->).
  rewrite anonymize_id_get_other by (simpl; now rewrite Hne).
  apply (update_fields_listed _ _ _ _ _ _ H2 Hc Hch).
  rewrite <- Hm. apply mem_same.
  rewrite (update_fields_other _ _ _ _ _ H1 Hn).
  rewrite remove_data_get. now rewrite Hr.
Qed.

End Rewrite.

Lemma anonymize_work_removed (i : identity) (d d' : dict) (k : string) :
  anonymize_work i d = Ok d' -> listed k remove_list = true -> Dict.get k d' = None.
Proof. intros H. now apply (rewrite_removed i works_list "ExpertId" d d'). Qed.

Lemma anonymize_work_id (i : identity) (d d' : dict) (x : json) :
  anonymize_work i d = Ok d' ->
  Dict.get "ExpertId" d = Some x ->
  Dict.get "ExpertId" d' = Some (JInt (fake_id i)).
Proof. intros H. now apply (rewrite_id i works_list "ExpertId" d d'). Qed.

Lemma anonymize_work_carries (i : identity) (d d' : dict) :
  anonymize_work i d = Ok d' -> carries (work_fields i) d d'.
Proof.
  intros H. unfold carries, work_fields.
  repeat first [apply List.Forall_nil | apply List.Forall_cons]; cbn [fst snd]; intros Hm.
  - now apply (rewrite_name i works_list "ExpertId" d d').
  - now apply (rewrite_contact i works_list "ExpertId" d d').
  - now apply (rewrite_contact i works_list "ExpertId" d d').
  - now apply (rewrite_contact i works_list "ExpertId" d d').
Qed.

Lemma finish_expert_removed (i : identity) (e e' : dict) (k : string) :
  finish_expert i e = Ok e' -> listed k remove_list = true -> Dict.get k e' = None.
Proof. intros H. now apply (rewrite_removed i name_list "Id" e e'). Qed.

Lemma finish_expert_id (i : identity) (e e' : dict) (x : json) :
  finish_expert i e = Ok e' ->
  Dict.get "Id" e = Some x ->
  Dict.get "Id" e' = Some (JInt (fake_id i)).
Proof. intros H. now apply (rewrite_id i name_list "Id" e e'). Qed.

Lemma finish_expert_carries (i : identity) (e e' : dict) :
  finish_expert i e = Ok e' -> carries (expert_fields i) e e'.
Proof.
  intros H. unfold carries, expert_fields.
  repeat first [apply List.Forall_nil | apply List.Forall_cons]; cbn [fst snd]; intros Hm.
  - now apply (rewrite_name i name_list "Id" e e').
  - now apply (rewrite_name i name_list "Id" e e').
  - now apply (rewrite_name i name_list "Id" e e').
  - now apply (rewrite_contact i name_list "Id" e e').
  - now apply (rewrite_contact i name_list "Id" e e').
  - now apply (rewrite_contact i name_list "Id" e e').
Qed.

(** ** Facts about the unique generator and the loop over the experts *)

Section Generator.
Context {G : Type} `{RS : RandomSource G}.

Lemma unique_attempts_new (n : nat) (lo hi : Z) (retval : option Z)
    (seen : list Z) (g g' : G) (v : Z) :
  unique_attempts n lo hi retval seen g = Ok (v, g') -> mem_Z v seen = false.
Proof.
  revert retval g. induction n as [|n IH]; intros retval g H; simpl in H; [discriminate|].
  destruct retval as [x|].
  - destruct (mem_Z x seen) eqn:E; simpl in H.
    + destruct (random_int lo hi g) as [v1 g1]. exact (IH _ _ H).
    + now injection H as <- <-.
  - destruct (random_int lo hi g) as [v1 g1]. exact (IH _ _ H).
Qed.

Lemma mem_Z_In (x : Z) (l : list Z) : mem_Z x l = false -> ~ In x l.
Proof.
  unfold mem_Z. intros H Hin.
  assert (existsb (Z.eqb x) l = true); [|congruence].
  apply existsb_exists. exists x. split; [exact Hin|apply Z.eqb_refl].
Qed.

Lemma new_identity_seen (fk fk' : faker G) (i : identity) :
  new_identity fk = Ok (i, fk') ->
  fk_seen fk' = fake_id i :: fk_seen fk /\ ~ In (fake_id i) (fk_seen fk).
Proof.
  unfold new_identity, unique_random_int. unbind.
  destruct (unique_attempts _ _ _ _ _ _) as [[v g]|] eqn:E; [|discriminate].
  apply unique_attempts_new, mem_Z_In in E. cbn [fk_rng fk_seen].
  destruct (first_name g) as [fn g2], (last_name g2) as [ln g3],
    (phone_number g3) as [ph g4], (phone_number g4) as [mb g5].
  intros [= <- <-]. now split.
Qed.

Lemma gen_identities_seen (n : nat) (fk fk' : faker G) (ids : list identity) :
  gen_identities n fk = Ok (ids, fk') ->
  length ids = n /\
  fk_seen fk' = rev (map fake_id ids) ++ fk_seen fk /\
  (List.NoDup (fk_seen fk) -> List.NoDup (fk_seen fk')).
Proof.
  revert fk ids. induction n as [|n IH]; intros fk ids H; simpl in H.
  - injection H as <- <-. auto.
  - unbind. destruct (new_identity fk) as [[i fk1]|] eqn:E1; [|discriminate].
    destruct (gen_identities n fk1) as [[rest fk2]|] eqn:E2; [|discriminate].
    injection H as <- <-.
    apply new_identity_seen in E1 as [Hs Hnew].
    apply IH in E2 as (Hlen & Hs2 & Hnd).
    split; [simpl; now rewrite Hlen|]. split.
    + rewrite Hs2, Hs. simpl. now rewrite <- app_assoc.
    + intros Hfk. apply Hnd. rewrite Hs. now apply List.NoDup_cons.
Qed.

(** The ids drawn by one [Faker()] instance for a run are pairwise distinct. *)
Lemma gen_identities_NoDup (n : nat) (g : G) (fk' : faker G) (ids : list identity) :
  gen_identities n (MkFaker g []) = Ok (ids, fk') ->
  List.NoDup (map fake_id ids).
Proof.
  intros H. apply gen_identities_seen in H as (_ & Hs & Hnd).
  cbn [fk_seen] in *. rewrite app_nil_r in Hs.
  specialize (Hnd (List.NoDup_nil _)). rewrite Hs in Hnd.
  apply List.NoDup_rev in Hnd. now rewrite rev_involutive in Hnd.
Qed.

Lemma anonymize_expert_inv (x x' data data' : json) (fk fk' : faker G) :
  anonymize_expert x data fk = Ok (x', data', fk') ->
  exists e o i e',
    x = JObj e /\ Dict.get "Id" e = Some o /\
    new_identity fk = Ok (i, fk') /\
    scan_data o i data = Ok data' /\
    finish_expert i e = Ok e' /\ x' = JObj e'.
Proof.
  unfold anonymize_expert, py_getitem, finish_expert. unbind.
  destruct x as [| | | | |e]; try discriminate.
  destruct (Dict.get "Id" e) as [o|] eqn:Ho; [|discriminate].
  destruct (new_identity fk) as [[i fk1]|] eqn:Hi; [|discriminate].
  destruct (scan_data o i data) as [d1|] eqn:Hs; [|discriminate].
  destruct (anonymize_name _ _ _ _ _) as [e1|] eqn:H1; [|discriminate].
  destruct (anonymize_contacts _ _ _ _) as [e2|] eqn:H2; [|discriminate].
  intros [= <- <- <-]. exists e, o, i. eexists.
  repeat split; try reflexivity; try assumption.
  now rewrite H1, H2.
Qed.

Lemma anonymize_experts_trace (experts experts' : list json) (data data' : json)
    (fk fk' : faker G) :
  anonymize_experts experts data fk = Ok (experts', data', fk') ->
  exists passes,
    gen_identities (length experts) fk = Ok (map snd passes, fk') /\
    run_trace experts data passes experts' data'.
Proof.
  revert experts' data fk. induction experts as [|x rest IH];
    intros experts' data fk H; simpl in H.
  - injection H as <- <- <-. exists []. split; [reflexivity|constructor].
  - unbind. destruct (anonymize_expert x data fk) as [[[x' d1] fk1]|] eqn:E1;
      [|discriminate].
    destruct (anonymize_experts rest d1 fk1) as [[[rest' d2] fk2]|] eqn:E2;
      [|discriminate].
    injection H as <- <- <-.
    apply anonymize_expert_inv in E1 as (e & o & i & e' & -> & Ho & Hi & Hs & Hf & ->).
    apply IH in E2 as (passes & Hg & Ht).
    exists ((o, i) :: passes). split.
    + simpl. unbind. rewrite Hi, Hg. reflexivity.
    + econstructor; eauto.
Qed.

End Generator.

(** ** Following one record through a run *)

Lemma scan_works_each (o : json) (i : identity) (items items' : list json) :
  scan_works o i items = Ok items' ->
  Forall2 (fun r r' => scan_record o i r = Ok r') items items'.
Proof.
  revert items'. induction items as [|r items IH]; intros items' H; simpl in H.
  - injection H as <-. constructor.
  - unbind. destruct (scan_record o i r) as [r'|] eqn:Er; [|discriminate].
    destruct (scan_works o i items) as [rest'|]; [|discriminate].
    injection H as <-. constructor; [exact Er|now apply IH].
Qed.

Lemma scan_data_list (o : json) (i : identity) (items : list json) (data' : json) :
  scan_data o i (JList items) = Ok data' ->
  exists items',
    data' = JList items' /\
    Forall2 (fun r r' => scan_record o i r = Ok r') items items'.
Proof.
  unfold scan_data. simpl. unbind.
  destruct (scan_works o i items) as [items'|] eqn:E; [|discriminate].
  intros [= <-]. exists items'. split; [reflexivity|now apply scan_works_each].
Qed.

Lemma run_trace_records (experts experts' : list json) (items : list json)
    (passes : list (json * identity)) (data' : json) :
  run_trace experts (JList items) passes experts' data' ->
  exists items',
    data' = JList items' /\
    Forall2 (fun r r' => scan_passes passes r = Ok r') items items'.
Proof.
  intros H. remember (JList items) as data eqn:Hd. revert items Hd.
  induction H as [data|e o i e' data data1 rest passes rest' data2 Ho Hs Hf Ht IH];
    intros items ->.
  - exists items. split; [reflexivity|]. apply Forall2_same_length_lookup_2; [done|].
    intros k r r' H1 H2. simpl. congruence.
  - apply scan_data_list in Hs as (items1 & -> & H1).
    destruct (IH items1 eq_refl) as (items2 & -> & H2).
    exists items2. split; [reflexivity|].
    apply Forall2_same_length_lookup_2.
    + rewrite (Forall2_length _ _ _ H1). exact (Forall2_length _ _ _ H2).
    + intros k r r2 Hr Hr2.
      destruct (Forall2_lookup_l _ _ _ _ _ H1 Hr) as (r1 & Hr1 & Hstep).
      destruct (Forall2_lookup_l _ _ _ _ _ H2 Hr1) as (r2' & Hr2' & Hrest).
      simpl. unbind. rewrite Hstep. congruence.
Qed.

(** Position by position: the expert, its original id, its identity and
    its rewritten record. *)
Lemma run_trace_expert (experts experts' : list json) (data data' : json)
    (passes : list (json * identity)) (j : nat) (x : json) :
  run_trace experts data passes experts' data' ->
  experts !! j = Some x ->
  exists e o i e',
    x = JObj e /\ Dict.get "Id" e = Some o /\ passes !! j = Some (o, i) /\
    finish_expert i e = Ok e' /\ experts' !! j = Some (JObj e').
Proof.
  intros H. revert j.
  induction H as [data|e o i e' data data1 rest passes rest' data2 Ho Hs Hf Ht IH];
    intros j Hj; [discriminate|].
  destruct j as [|j]; simpl in *.
  - injection Hj as <-. exists e, o, i, e'. auto.
  - now apply IH.
Qed.

Lemma run_trace_pass (experts experts' : list json) (data data' : json)
    (passes : list (json * identity)) (j : nat) (o : json) (i : identity) :
  run_trace experts data passes experts' data' ->
  passes !! j = Some (o, i) ->
  exists e, experts !! j = Some (JObj e) /\ Dict.get "Id" e = Some o.
Proof.
  intros H. revert j.
  induction H as [data|e o0 i0 e' data data1 rest passes rest' data2 Ho Hs Hf Ht IH];
    intros j Hj; [discriminate|].
  destruct j as [|j]; simpl in *.
  - injection Hj as <- <-. eauto.
  - now apply IH.
Qed.

Lemma run_trace_ids (experts experts' : list json) (data data' : json)
    (passes : list (json * identity)) :
  run_trace experts data passes experts' data' ->
  field_values "Id" experts' = map (fun p => JInt (fake_id (snd p))) passes.
Proof.
  induction 1 as [data|e o i e' data data1 rest passes rest' data2 Ho Hs Hf Ht IH];
    [reflexivity|].
  unfold field_values in *. cbn [omap list_omap]. 
  rewrite (finish_expert_id _ _ _ _ Hf Ho). simpl. now rewrite IH.
Qed.

Lemma scan_passes_app (before after : list (json * identity)) (r : json) :
  scan_passes (before ++ after) r = (r1 ← scan_passes before r; scan_passes after r1).
Proof.
  revert r. induction before as [|[o i] before IH]; intros r; simpl; [reflexivity|].
  unbind. destruct (scan_record o i r); [apply IH|reflexivity].
Qed.

(** A record that no expert of the run matches is left as it is. *)
Lemma scan_passes_unmatched (passes : list (json * identity)) (d : dict) (x : json) :
  Dict.get "ExpertId" d = Some x ->
  (forall o i, In (o, i) passes -> py_eq o x = false) ->
  scan_passes passes (JObj d) = Ok (JObj d).
Proof.
  intros Hx. induction passes as [|[o i] passes IH]; intros Hno; simpl; [reflexivity|].
  unfold scan_record at 1. simpl. rewrite Hx. unbind.
  rewrite (Hno o i) by now left.
  apply IH. intros o' i' Hin. apply (Hno o' i'). now right.
Qed.

(** A record matched by one expert only, whose synthetic id no later
    expert has as original id, is rewritten once, with that expert's
    identity. *)
Lemma scan_passes_matched (before after : list (json * identity)) (o : json)
    (i : identity) (d : dict) (x r' : json) :
  Dict.get "ExpertId" d = Some x ->
  py_eq o x = true ->
  (forall o' i', In (o', i') before -> py_eq o' x = false) ->
  (forall o' i', In (o', i') after -> py_eq o' (JInt (fake_id i)) = false) ->
  scan_passes (before ++ (o, i) :: after) (JObj d) = Ok r' ->
  exists d', r' = JObj d' /\ anonymize_work i d = Ok d'.
Proof.
  intros Hx Heq Hbefore Hafter. rewrite scan_passes_app.
  rewrite (scan_passes_unmatched before d x Hx Hbefore). unbind. simpl.
  unfold scan_record at 1. simpl. rewrite Hx. unbind. rewrite Heq.
  destruct (anonymize_work i d) as [d'|] eqn:Ew; [|discriminate].
  rewrite (scan_passes_unmatched after d' (JInt (fake_id i))); 
    [|now apply (anonymize_work_id i d d' x)|exact Hafter].
  intros [= <-]. eauto.
Qed.

(** ** Runs of [anonymize_data] *)

Lemma cleaned_files_differ : experts_cleaned_file <> works_cleaned_file.
Proof. discriminate. Qed.

Section Runs.
Context {G : Type} `{RS : RandomSource G}.

(** A run that fails writes nothing. *)
Lemma anonymize_data_err (w : world G) (e : exn) :
  fst (anonymize_data w) = Err e -> fs (snd (anonymize_data w)) = fs w.
Proof.
  unfold anonymize_data.
  destruct (fs w !! original_file); [|reflexivity].
  destruct (fs w !! expert_file); [|reflexivity].
  destruct (anonymize_loaded _ _ _) as [[[d' e'] g']|]; [discriminate|reflexivity].
Qed.

(** A run that completes, taken apart. *)
Lemma anonymize_data_ok (w w' : world G) (experts : list json) :
  fs w !! expert_file = Some (JList experts) ->
  anonymize_data w = (Ok tt, w') ->
  exists data passes outs data' fk',
    fs w !! original_file = Some data /\
    gen_identities (length experts) (MkFaker (rng w) []) = Ok (map snd passes, fk') /\
    run_trace experts data passes outs data' /\
    fs w' = <[experts_cleaned_file := JList outs]>
              (<[works_cleaned_file := data']> (fs w)).
Proof.
  intros He. unfold anonymize_data. rewrite He.
  destruct (fs w !! original_file) as [data|]; [|discriminate].
  unfold anonymize_loaded. simpl. unbind.
  destruct (anonymize_experts experts data _) as [[[outs data'] fk']|] eqn:E;
    [|discriminate].
  intros [= <-]. apply anonymize_experts_trace in E as (passes & Hg & Ht).
  exists data, passes, outs, data', fk'. auto.
Qed.

Lemma anonymize_data_loaded (w : world G) (data experts : json) :
  fs w !! original_file = Some data ->
  fs w !! expert_file = Some experts ->
  anonymize_data w =
    match anonymize_loaded data experts (rng w) with
    | Err e => (Err e, MkWorld (fs w) (rng w) (log w ++ [Stdout "Anonymizing data..."]))
    | Ok (data', experts', g') =>
        (Ok tt,
         MkWorld (<[experts_cleaned_file := experts']>
                    (<[works_cleaned_file := data']> (fs w)))
                 g' (log w ++ [Stdout "Anonymizing data..."]))
    end.
Proof. intros Hd He. unfold anonymize_data. now rewrite Hd, He. Qed.

End Runs.

(** ** Field removal *)

(** C3. The remove list is applied to the expert records and to the
    work/output records that match an expert; a record of the original
    data whose [ExpertId] matches no expert is written to
    [works_cleaned.json] as it was read.  Here the expert file holds one
    expert with id 1 and the original data two records, for experts 1 and
    99: the second record is written with its [Photo] field. *)
Theorem unmatched_work_keeps_removed_field :
  exists w',
    anonymize_data bob_world = (Ok tt, w') /\
    fs w' !! works_cleaned_file =
      Some (JList [ JObj [("ExpertId", JInt 111111); ("Owner", JStr "Ann Lee")];
                    JObj carls_paper ]) /\
    listed "Photo" remove_list = true /\
    Dict.get "Photo" carls_paper = Some (JStr "p").
Proof.
  eexists. split; [vm_compute; reflexivity|].
  split; [vm_compute; reflexivity|].
  split; reflexivity.
Qed.

(** ** Uniqueness of the synthetic ids *)



(** When the random source keeps drawing the same integer, the second
    expert gets no id: the run stops with [UniquenessException]. *)
Example stuck_source_raises :
  @anonymize_loaded Z stuck_source (JList []) (JList [JObj bob; JObj bob]) 0
  = Err UniquenessException.
Proof. vm_compute. reflexivity. Qed.

(** ** Determinism under a fixed seed *)


(** ** Identity substitution and linkage *)

Lemma lookup_field_values (k : string) (l : list json) (n : nat) (d : dict) (v : json) :
  l !! n = Some (JObj d) -> Dict.get k d = Some v -> In v (field_values k l).
Proof.
  intros Hl Hv. apply list_elem_of_In. unfold field_values.
  apply list_elem_of_omap. exists (JObj d). split; [|exact Hv].
  now apply list_elem_of_lookup_2 with n.
Qed.

Lemma field_values_lookup (k : string) (l : list json) (v : json) :
  In v (field_values k l) ->
  exists n d, l !! n = Some (JObj d) /\ Dict.get k d = Some v.
Proof.
  intros H. apply list_elem_of_In in H. unfold field_values in H.
  apply list_elem_of_omap in H as (r & Hr & Hv).
  destruct r as [| | | | |d]; try discriminate.
  apply list_elem_of_lookup_1 in Hr as [n Hn]. eauto.
Qed.

Lemma run_trace_out (experts experts' : list json) (data data' : json)
    (passes : list (json * identity)) (j : nat) (x' : json) :
  run_trace experts data passes experts' data' ->
  experts' !! j = Some x' ->
  exists e o i e',
    experts !! j = Some (JObj e) /\ Dict.get "Id" e = Some o /\
    passes !! j = Some (o, i) /\ finish_expert i e = Ok e' /\ x' = JObj e'.
Proof.
  intros H. revert j.
  induction H as [data|e o i e' data data1 rest passes rest' data2 Ho Hs Hf Ht IH];
    intros j Hj; [discriminate|].
  destruct j as [|j]; simpl in *.
  - injection Hj as <-. exists e, o, i, e'. auto.
  - now apply IH.
Qed.

(** The record of a work that one expert only matches, after the run. *)
Lemma matched_work (experts outs items : list json) (passes : list (json * identity))
    (data' : json) (j k : nat) (e r : dict) (o x : json) :
  run_trace experts (JList items) passes outs data' ->
  experts !! j = Some (JObj e) -> Dict.get "Id" e = Some o ->
  items !! k = Some (JObj r) -> Dict.get "ExpertId" r = Some x ->
  py_eq o x = true ->
  (forall j' e' o', j' <> j -> experts !! j' = Some (JObj e') ->
                    Dict.get "Id" e' = Some o' -> py_eq o' x = false) ->
  no_collision experts outs ->
  exists i e_out r_out items',
    data' = JList items' /\
    outs !! j = Some (JObj e_out) /\ finish_expert i e = Ok e_out /\
    items' !! k = Some (JObj r_out) /\ anonymize_work i r = Ok r_out.
Proof.
  intros Ht Hj Ho Hk Hx Heq Honly Hfresh.
  destruct (run_trace_expert _ _ _ _ _ _ _ Ht Hj)
    as (e0 & o0 & i & e_out & [= <-] & Ho' & Hp & Hf & Hout).
  assert (o0 = o) as -> by congruence.
  destruct (run_trace_records _ _ _ _ _ Ht) as (items' & -> & HF).
  destruct (Forall2_lookup_l _ _ _ _ _ HF Hk) as (r' & Hk' & Hscan).
  rewrite <- (take_drop_middle passes j (o, i) Hp) in Hscan.
  apply scan_passes_matched with (x := x) in Hscan as (d' & -> & Hw);
    [exists i, e_out, d', items'; auto| exact Hx | exact Heq | |].
  - intros o' i' Hin. apply list_elem_of_In, elem_of_take in Hin as (j' & Hj' & Hlt).
    destruct (run_trace_pass _ _ _ _ _ _ _ _ Ht Hj') as (e' & He' & Ho'').
    apply (Honly j' e' o'); [lia|exact He'|exact Ho''].
  - intros o' i' Hin. apply list_elem_of_In, list_elem_of_lookup_1 in Hin as (n & Hn).
    rewrite lookup_drop in Hn.
    destruct (run_trace_pass _ _ _ _ _ _ _ _ Ht Hn) as (e' & He' & Ho'').
    apply Hfresh.
    + exact (lookup_field_values _ _ _ _ _ He' Ho'').
    + apply (lookup_field_values _ _ _ _ _ Hout), (finish_expert_id _ _ _ _ Hf Ho).
Qed.




(** C4, as the code has it.  When every record of the original data is
    matched by exactly one expert, every expert matches at least one
    record, and no synthetic id equals an original expert id, the
    [ExpertId] values written to [works_cleaned.json] and the [Id] values
    written to [experts_cleaned.json] are the same set. *)
Theorem linkage_survives_substitution {G : Type} `{RS : RandomSource G}
    (w w' : world G) (experts items outs items' : list json) :
  fs w !! expert_file = Some (JList experts) ->
  fs w !! original_file = Some (JList items) ->
  anonymize_data w = (Ok tt, w') ->
  fs w' !! experts_cleaned_file = Some (JList outs) ->
  fs w' !! works_cleaned_file = Some (JList items') ->
  (forall k r, items !! k = Some r ->
     exists d x j, r = JObj d /\ Dict.get "ExpertId" d = Some x /\
                   only_match experts j x) ->
  (forall j e o, experts !! j = Some (JObj e) -> Dict.get "Id" e = Some o ->
     exists k d x, items !! k = Some (JObj d) /\ Dict.get "ExpertId" d = Some x /\
                   py_eq o x = true) ->
  no_collision experts outs ->
  forall v, In v (field_values "ExpertId" items') <-> In v (field_values "Id" outs).
Proof.
  intros He Hd Hrun Houts Hitems Hall Hcover Hfresh v.
  destruct (anonymize_data_ok w w' experts He Hrun)
    as (data & passes & outs0 & data' & fk' & Hd' & Hg & Ht & Hfs).
  assert (data = JList items) as -> by congruence.
  rewrite Hfs, lookup_insert_eq in Houts. injection Houts as ->.
  rewrite Hfs, lookup_insert_ne, lookup_insert_eq in Hitems
    by exact cleaned_files_differ.
  injection Hitems as ->.
  destruct (run_trace_records _ _ _ _ _ Ht) as (items1 & [= <-] & HF).
  split; intros Hv.
  - apply field_values_lookup in Hv as (k & d' & Hk' & Hvd).
    destruct (Forall2_lookup_r _ _ _ _ _ HF Hk') as (r & Hk & _).
    destruct (Hall k r Hk) as (d & x & j & -> & Hx & (e & o & Hj & Ho & Heq) & Honly).
    destruct (matched_work _ _ _ _ _ _ _ _ _ _ _ Ht Hj Ho Hk Hx Heq Honly Hfresh)
      as (i & e_out & r_out & items2 & [= <-] & Hout & Hf & Hk2 & Hw).
    assert (d' = r_out) as -> by congruence.
    rewrite (anonymize_work_id _ _ _ _ Hw Hx) in Hvd. injection Hvd as <-.
    exact (lookup_field_values _ _ _ _ _ Hout (finish_expert_id _ _ _ _ Hf Ho)).
  - apply field_values_lookup in Hv as (j & e_out & Hout & Hve).
    destruct (run_trace_out _ _ _ _ _ _ _ Ht Hout)
      as (e & o & i & e' & Hj & Ho & Hp & Hf & [= ->]).
    rewrite (finish_expert_id _ _ _ _ Hf Ho) in Hve. injection Hve as <-.
    destruct (Hcover j e o Hj Ho) as (k & d & x & Hk & Hx & Heq).
    destruct (Hall k _ Hk) as (d0 & x0 & j0 & [= <-] & Hx0 & (e0 & o0 & Hj0 & Ho0 & Heq0) & Honly).
    assert (x0 = x) as -> by congruence.
    assert (j0 = j) as ->.
    { destruct (decide (j = j0)) as [->|Hne]; [reflexivity|].
      rewrite (Honly j e o Hne Hj Ho) in Heq. discriminate. }
    destruct (matched_work _ _ _ _ _ _ _ _ _ _ _ Ht Hj Ho Hk Hx Heq Honly Hfresh)
      as (i1 & e_out1 & r_out & items2 & [= <-] & Hout1 & Hf1 & Hk2 & Hw).
    assert (e_out1 = e') as -> by congruence.
    assert (Hid : Dict.get "Id" e' = Some (JInt (fake_id i1)))
      by exact (finish_expert_id _ _ _ _ Hf1 Ho).
    rewrite (finish_expert_id _ _ _ _ Hf Ho) in Hid. injection Hid as Hid.
    rewrite Hid.
    exact (lookup_field_values _ _ _ _ _ Hk2 (anonymize_work_id _ _ _ _ Hw Hx)).
Qed.

Lemma linkage_survives_substitution_witness :
  In (JInt 111111) (field_values "ExpertId" [JObj bobs_paper_cleaned]) <->
  In (JInt 111111) (field_values "Id" [JObj bob_cleaned]).
Proof.
  apply (linkage_survives_substitution pair_world (snd (anonymize_data pair_world))
           [JObj bob] [JObj bobs_paper]).
  - vm_compute; reflexivity.
  - vm_compute; reflexivity.
  - vm_compute; reflexivity.
  - vm_compute; reflexivity.
  - vm_compute; reflexivity.
  - intros [|k] r Hk; [|destruct k; discriminate]. injection Hk as <-.
    exists bobs_paper, (JInt 1), 0%nat. repeat split.
    + exists bob, (JInt 1). repeat split.
    + intros [|j'] e' o' Hne H; [congruence|destruct j'; discriminate].
  - intros [|j] e o Hj Ho; [|destruct j; discriminate]. injection Hj as <-.
    injection Ho as <-. exists 0%nat, bobs_paper, (JInt 1). repeat split.
  - intros o v [<-|[]] [<-|[]]. reflexivity.
Defined.

(** C4 as stated fails: an expert to whom no record belongs is written
    with a synthetic [Id] that is the [ExpertId] of no work. *)
Lemma id_sets_differ_without_works :
  fst (anonymize_data lonely_world) = Ok tt /\
  ~ same_id_sets (snd (anonymize_data lonely_world)).
Proof.
  split; [vm_compute; reflexivity|].
  intros H.
  specialize (H [JObj bob_cleaned] []).
  assert (Hin : In (JInt 111111) (field_values "ExpertId" [])).
  { apply H; [vm_compute; reflexivity|vm_compute; reflexivity|]. now left. }
  destruct Hin.
Qed.

(** ** How a run can fail *)

Lemma replace_field_err (r : dict) (k new : string) (e : exn) :
  Dict.mem k r = true ->
  replace_field r k new = Err e ->
  e = AttributeError /\ ~ str_or_absent (Dict.get k r).
Proof.
  unfold Dict.mem, replace_field.
  destruct (Dict.get k r) as [[]|]; try discriminate; intros _ [= <-]; auto.
Qed.

Lemma get_set_cases (k k' : string) (v : json) (d : dict) :
  Dict.get k' (Dict.set k v d) = if String.eqb k k' then Some v else Dict.get k' d.
Proof.
  destruct (String.eqb k k') eqn:E.
  - apply String.eqb_eq in E. subst k'. apply get_set_eq.
  - now apply get_set_ne.
Qed.

Section UpdateErrors.
Variable choose : string -> option string.

(** The loop raises only on a value that is no string. *)
Lemma update_fields_err (strict : bool) (keys : list string) (r : dict) (e : exn) :
  (strict = true -> string_fields keys r) ->
  update_fields choose keys r = Err e ->
  strict = false /\ e = AttributeError.
Proof.
  revert r. induction keys as [|a keys IH]; intros r Hs H; [discriminate|].
  unfold update_fields in H. simpl in H. unbind.
  assert (Htail : forall r1, (forall k, Dict.get k r1 = Dict.get k r \/
                                        exists s, Dict.get k r1 = Some (JStr s)) ->
                             strict = true -> string_fields keys r1).
  { intros r1 Hr1 Hst k Hk. destruct (Hr1 k) as [->|[s ->]]; [|exact I].
    apply (Hs Hst). simpl. rewrite Hk. apply orb_true_r. }
  destruct (Dict.mem a r) eqn:Hm.
  - destruct (choose a) as [new|].
    + destruct (replace_field r a new) as [r1|e0] eqn:Er.
      * apply replace_field_ok in Er as [-> _].
        apply (IH (Dict.set a (JStr new) r)); [|exact H]. apply Htail.
        intros k. rewrite get_set_cases.
        destruct (String.eqb a k); eauto.
      * injection H as <-. apply (replace_field_err _ _ _ _ Hm) in Er as [-> Hns].
        split; [|reflexivity]. destruct strict; [|reflexivity].
        exfalso. apply Hns, (Hs eq_refl). simpl. now rewrite String.eqb_refl.
    + apply (IH r); [|exact H]. apply Htail. auto.
  - apply (IH r); [|exact H]. apply Htail. auto.
Qed.

(** A string stays a string, an absent field stays absent. *)
Lemma update_fields_strings (keys : list string) (k : string) (r r' : dict) :
  update_fields choose keys r = Ok r' ->
  str_or_absent (Dict.get k r) -> str_or_absent (Dict.get k r').
Proof.
  revert r. induction keys as [|a keys IH]; intros r H Hk.
  - now injection H as <-.
  - apply update_fields_cons in H as (r1 & H & [->|(new & s & _ & _ & ->)]).
    + exact (IH _ H Hk).
    + apply (IH _ H). rewrite get_set_cases. now destruct (String.eqb a k).
Qed.
End UpdateErrors.

Lemma string_fields_app_l (keys keys' : list string) (d : dict) :
  string_fields (keys ++ keys') d -> string_fields keys d.
Proof.
  intros H k Hk. apply H. unfold listed in *. rewrite existsb_app, Hk. reflexivity.
Qed.

Lemma string_fields_app_r (keys keys' : list string) (d : dict) :
  string_fields (keys ++ keys') d -> string_fields keys' d.
Proof.
  intros H k Hk. apply H. unfold listed in *. rewrite existsb_app, Hk.
  apply orb_true_r.
Qed.

Lemma remove_data_strings (k : string) (d : dict) :
  str_or_absent (Dict.get k d) -> str_or_absent (Dict.get k (remove_data d)).
Proof. rewrite remove_data_get. now destruct (listed k remove_list). Qed.

(** The rewriting of a record, by the shape of [Section Rewrite]. *)
Section RewriteErrors.
Variables (i : identity) (names : list string) (idkey : string).
Variable d : dict.
Variable strict : bool.
Hypothesis Hid : Str.contains "Id" idkey = true.
Hypothesis Hfresh : listed idkey (names ++ contact_list) = false.
Hypothesis Hstr : strict = true -> string_fields (names ++ contact_list) d.

Lemma rewrite_outcome :
  match rewrite_record i names idkey d with
  | Ok d' => strict = true -> string_fields (names ++ contact_list) d'
  | Err e => strict = false /\ e = AttributeError
  end.
Proof using Hid Hfresh Hstr.
  unfold rewrite_record. rewrite anonymize_name_update. unbind.
  destruct (update_fields _ names _) as [r1|e] eqn:E1.
  - rewrite anonymize_contacts_update.
    destruct (update_fields _ contact_list r1) as [r2|e] eqn:E2.
    + intros Hst k Hk.
      rewrite anonymize_id_get_other.
      * apply (update_fields_strings _ _ _ _ _ E2),
          (update_fields_strings _ _ _ _ _ E1), remove_data_strings.
        exact (Hstr Hst k Hk).
      * simpl. rewrite orb_false_r.
        destruct (String.eqb idkey k) eqn:E; [|reflexivity].
        apply String.eqb_eq in E. subst k. congruence.
    + apply (update_fields_err _ strict _ _ _) in E2; [exact E2|].
      intros Hst k Hk.
      apply (update_fields_strings _ _ _ _ _ E1), remove_data_strings.
      apply (string_fields_app_r names _ _ (Hstr Hst) k Hk).
  - apply (update_fields_err _ strict _ _ _) in E1; [exact E1|].
    intros Hst k Hk. apply remove_data_strings.
    apply (string_fields_app_l _ contact_list _ (Hstr Hst) k Hk).
Qed.
End RewriteErrors.

Lemma anonymize_work_outcome (strict : bool) (i : identity) (d : dict) :
  (strict = true -> string_fields work_keys d) ->
  match anonymize_work i d with
  | Ok d' => strict = true -> string_fields work_keys d'
  | Err e => strict = false /\ e = AttributeError
  end.
Proof. intros H. now apply (rewrite_outcome i works_list "ExpertId" d strict). Qed.

Lemma finish_expert_outcome (strict : bool) (i : identity) (e : dict) :
  (strict = true -> string_fields expert_keys e) ->
  match finish_expert i e with
  | Ok e' => strict = true -> string_fields expert_keys e'
  | Err err => strict = false /\ err = AttributeError
  end.
Proof. intros H. now apply (rewrite_outcome i name_list "Id" e strict). Qed.

Lemma scan_record_outcome (strict : bool) (o : json) (i : identity) (r : json) :
  good strict work_keys r ->
  match scan_record o i r with
  | Ok r' => good strict work_keys r'
  | Err e => run_error strict e
  end.
Proof.
  intros (d & -> & Hd). unfold scan_record, py_getitem. unbind.
  destruct (Dict.get "ExpertId" d) as [x|]; [|now left].
  destruct (py_eq o x); [|now exists d].
  pose proof (anonymize_work_outcome strict i d Hd) as H.
  destruct (anonymize_work i d) as [d'|e].
  - now exists d'.
  - right. right. exact H.
Qed.

Lemma scan_works_outcome (strict : bool) (o : json) (i : identity) (items : list json) :
  Forall (good strict work_keys) items ->
  match scan_works o i items with
  | Ok items' => Forall (good strict work_keys) items'
  | Err e => run_error strict e
  end.
Proof.
  induction 1 as [|r items Hr Hitems IH]; simpl; [constructor|]. unbind.
  pose proof (scan_record_outcome strict o i r Hr) as H.
  destruct (scan_record o i r) as [r'|e]; [|exact H].
  destruct (scan_works o i items) as [items'|e]; [|exact IH].
  now constructor.
Qed.

Section RunErrors.
Context {G : Type} `{RS : RandomSource G}.

Lemma unique_attempts_err (n : nat) (lo hi : Z) (retval : option Z)
    (seen : list Z) (g : G) (e : exn) :
  unique_attempts n lo hi retval seen g = Err e -> e = UniquenessException.
Proof.
  revert retval g. induction n as [|n IH]; intros retval g H; simpl in H.
  - now injection H as <-.
  - destruct retval as [x|].
    + destruct (negb (mem_Z x seen)); [discriminate|].
      destruct (random_int lo hi g) as [v1 g1]. exact (IH _ _ H).
    + destruct (random_int lo hi g) as [v1 g1]. exact (IH _ _ H).
Qed.

Lemma new_identity_err (fk : faker G) (e : exn) :
  new_identity fk = Err e -> e = UniquenessException.
Proof.
  unfold new_identity, unique_random_int. unbind.
  destruct (unique_attempts _ _ _ _ _ _) as [[v g]|e0] eqn:E.
  - cbn [fk_rng fk_seen].
    destruct (first_name g) as [fn g2], (last_name g2) as [ln g3],
      (phone_number g3) as [ph g4], (phone_number g4) as [mb g5].
    discriminate.
  - intros [= <-]. exact (unique_attempts_err _ _ _ _ _ _ _ E).
Qed.

Lemma anonymize_expert_outcome (strict : bool) (x : json) (items : list json)
    (fk : faker G) :
  good strict expert_keys x ->
  Forall (good strict work_keys) items ->
  match anonymize_expert x (JList items) fk with
  | Ok (x', data', fk') =>
      good strict expert_keys x' /\
      exists items', data' = JList items' /\ Forall (good strict work_keys) items'
  | Err e => run_error strict e
  end.
Proof.
  intros (e0 & -> & He0) Hitems. unfold anonymize_expert, py_getitem. unbind.
  destruct (Dict.get "Id" e0) as [o|]; [|now left].
  destruct (new_identity fk) as [[i fk1]|e] eqn:Ei;
    [|right; left; exact (new_identity_err _ _ Ei)].
  unfold scan_data. simpl. unbind.
  pose proof (scan_works_outcome strict o i items Hitems) as Hs.
  destruct (scan_works o i items) as [items'|e]; [|exact Hs].
  pose proof (finish_expert_outcome strict i e0 He0) as Hf.
  unfold finish_expert in Hf. unbind.
  destruct (anonymize_name _ _ _ _ _) as [e1|e]; [|right; right; exact Hf].
  destruct (anonymize_contacts _ _ _ _) as [e2|e]; [|right; right; exact Hf].
  split; [eexists; split; [reflexivity|exact Hf]|eauto].
Qed.

Lemma anonymize_experts_outcome (strict : bool) (experts items : list json)
    (fk : faker G) :
  Forall (good strict expert_keys) experts ->
  Forall (good strict work_keys) items ->
  match anonymize_experts experts (JList items) fk with
  | Ok _ => True
  | Err e => run_error strict e
  end.
Proof.
  intros He. revert items fk.
  induction He as [|x experts Hx Hexperts IH]; intros items fk Hitems; simpl; [exact I|].
  unbind.
  pose proof (anonymize_expert_outcome strict x items fk Hx Hitems) as H.
  destruct (anonymize_expert x (JList items) fk) as [[[x' d1] fk1]|e]; [|exact H].
  destruct H as (_ & items1 & -> & Hitems1).
  specialize (IH items1 fk1 Hitems1).
  now destruct (anonymize_experts experts (JList items1) fk1) as [[[r d2] fk2]|e].
Qed.

(** An expert without [Id] stops the loop, at that expert or before. *)
Lemma anonymize_experts_needs_id (experts : list dict) (data : json) (fk : faker G) :
  Exists (fun e => Dict.mem "Id" e = false) experts ->
  exists e, anonymize_experts (map JObj experts) data fk = Err e.
Proof.
  intros H. revert data fk.
  induction H as [x experts Hx|x experts H IH]; intros data fk; simpl; unbind.
  - unfold anonymize_expert, py_getitem. simpl.
    rewrite (get_mem_false _ _ Hx). simpl. eauto.
  - destruct (anonymize_expert (JObj x) data fk) as [[[x' d1] fk1]|e]; [|eauto].
    destruct (IH d1 fk1) as [e ->]. eauto.
Qed.

(** A record without [ExpertId] stops the inner loop of the first expert. *)
Lemma scan_works_needs_expert_id (o : json) (i : identity) (works : list dict) :
  Exists (fun r => Dict.mem "ExpertId" r = false) works ->
  exists e, scan_works o i (map JObj works) = Err e.
Proof.
  induction 1 as [r works Hr|r works H [e IH]]; simpl; unbind.
  - unfold scan_record, py_getitem. rewrite (get_mem_false _ _ Hr). simpl. eauto.
  - destruct (scan_record o i (JObj r)); [|eauto].
    change (list_fmap dict json JObj works) with (map JObj works).
    rewrite IH. eauto.
Qed.

Lemma anonymize_experts_needs_expert_id (experts works : list dict) (fk : faker G) :
  experts <> [] ->
  Exists (fun r => Dict.mem "ExpertId" r = false) works ->
  exists e, anonymize_experts (map JObj experts) (JList (map JObj works)) fk = Err e.
Proof.
  intros Hne Hw. destruct experts as [|x experts]; [congruence|]. simpl. unbind.
  destruct (anonymize_expert (JObj x) _ fk) as [[[x' d1] fk1]|e] eqn:E; [|eauto].
  exfalso.
  apply anonymize_expert_inv in E as (e0 & o & i & e' & _ & _ & _ & Hs & _).
  unfold scan_data in Hs. simpl in Hs. unbind.
  destruct (scan_works_needs_expert_id o i works Hw) as [e He].
  change (list_fmap dict json JObj works) with (map JObj works) in Hs.
  rewrite He in Hs. discriminate.
Qed.

End RunErrors.

Lemma has_or_lacks (k : string) (l : list dict) :
  Forall (has_field k) l \/ Exists (fun d => Dict.mem k d = false) l.
Proof.
  induction l as [|d l [IH|IH]].
  - left. constructor.
  - destruct (Dict.mem k d) eqn:E.
    + left. now constructor.
    + right. now left.
  - right. now right.
Qed.

Lemma good_records (strict : bool) (keys : list string) (l : list dict) :
  (strict = true -> Forall (string_fields keys) l) ->
  Forall (good strict keys) (map JObj l).
Proof.
  intros H. apply Forall_forall. intros r Hr.
  apply list_elem_of_In, in_map_iff in Hr as (d & <- & Hd).
  exists d. split; [reflexivity|]. intros Hs.
  specialize (H Hs). rewrite Forall_forall in H. apply H. now apply list_elem_of_In.
Qed.

(** C10, as the code has it.  On lists of mappings, [anonymize_data]
    raises and leaves [works_cleaned.json] and [experts_cleaned.json]
    unwritten whenever an expert record lacks [Id], or there is at least
    one expert and a record of the original data lacks [ExpertId].  The
    exception is [KeyError], [UniquenessException] or [AttributeError],
    whichever comes first, and never [AttributeError] when the name and
    contact fields hold strings.  The run completes only if every expert
    has [Id] and, unless there is no expert, every record has [ExpertId]. *)
Theorem anonymize_data_needs_ids {G : Type} `{RS : RandomSource G}
    (w : world G) (experts works : list dict) :
  fs w !! expert_file = Some (JList (map JObj experts)) ->
  fs w !! original_file = Some (JList (map JObj works)) ->
  (Exists (fun e => Dict.mem "Id" e = false) experts \/
   (experts <> [] /\ Exists (fun r => Dict.mem "ExpertId" r = false) works) ->
   exists e,
     fst (anonymize_data w) = Err e /\
     (e = KeyError \/ e = UniquenessException \/ e = AttributeError) /\
     (Forall (string_fields expert_keys) experts ->
      Forall (string_fields work_keys) works ->
      e = KeyError \/ e = UniquenessException) /\
     fs (snd (anonymize_data w)) = fs w) /\
  (fst (anonymize_data w) = Ok tt ->
   Forall (has_field "Id") experts /\
   (experts = [] \/ Forall (has_field "ExpertId") works)).
Proof.
  intros He Hd.
  assert (Hfail :
    Exists (fun e => Dict.mem "Id" e = false) experts \/
    (experts <> [] /\ Exists (fun r => Dict.mem "ExpertId" r = false) works) ->
    exists e, anonymize_experts (map JObj experts) (JList (map JObj works))
                (MkFaker (rng w) []) = Err e).
  { intros [H|[Hne H]].
    - now apply anonymize_experts_needs_id.
    - now apply anonymize_experts_needs_expert_id. }
  assert (Hrun : anonymize_data w =
            match anonymize_experts (map JObj experts) (JList (map JObj works))
                    (MkFaker (rng w) []) with
            | Ok (experts', data', fk') =>
                (Ok tt,
                 MkWorld (<[experts_cleaned_file := JList experts']>
                            (<[works_cleaned_file := data']> (fs w)))
                         (fk_rng fk') (log w ++ [Stdout "Anonymizing data..."]))
            | Err e => (Err e, MkWorld (fs w) (rng w)
                                 (log w ++ [Stdout "Anonymizing data..."]))
            end).
  { rewrite (anonymize_data_loaded w _ _ Hd He). unfold anonymize_loaded. simpl. unbind.
    now destruct (anonymize_experts _ _ _) as [[[x y] z]|]. }
  split.
  - intros H. destruct (Hfail H) as [e Hex]. exists e.
    rewrite Hrun, Hex. cbn [fst snd fs]. repeat split.
    + pose proof (anonymize_experts_outcome false (map JObj experts) (map JObj works)
                    (MkFaker (rng w) [])) as Ho.
      rewrite Hex in Ho.
      destruct Ho as [->|[->|[_ ->]]]; auto; apply good_records; discriminate.
    + intros Hse Hsw.
      pose proof (anonymize_experts_outcome true (map JObj experts) (map JObj works)
                    (MkFaker (rng w) [])) as Ho.
      rewrite Hex in Ho.
      destruct Ho as [->|[->|[? _]]]; auto; try discriminate;
        apply good_records; auto.
  - intros Hok.
    destruct (has_or_lacks "Id" experts) as [Hid|Hid].
    + split; [exact Hid|].
      destruct experts as [|x experts]; [now left|right].
      destruct (has_or_lacks "ExpertId" works) as [Hw|Hw]; [exact Hw|].
      destruct Hfail as [e Hex]; [right; split; [discriminate|exact Hw]|].
      rewrite Hrun, Hex in Hok. discriminate.
    + destruct Hfail as [e Hex]; [now left|].
      rewrite Hrun, Hex in Hok. discriminate.
Qed.

Lemma anonymize_data_needs_ids_witness :
  exists e,
    fst (anonymize_data nameless_world) = Err e /\
    (e = KeyError \/ e = UniquenessException \/ e = AttributeError) /\
    (Forall (string_fields expert_keys) [[("FirstName", JStr "Bob")]] ->
     Forall (string_fields work_keys) [bobs_paper] ->
     e = KeyError \/ e = UniquenessException) /\
    fs (snd (anonymize_data nameless_world)) = fs nameless_world.
Proof.
  apply (anonymize_data_needs_ids nameless_world [[("FirstName", JStr "Bob")]] [bobs_paper]).
  - vm_compute; reflexivity.
  - vm_compute; reflexivity.
  - left. left. reflexivity.
Defined.

Example nameless_expert_raises_KeyError :
  fst (anonymize_data nameless_world) = Err KeyError.
Proof. vm_compute. reflexivity. Qed.

(** C10 as stated fails: with no expert at all the inner loop never runs,
    and a record without [ExpertId] is written out without any error. *)
Lemma missing_expert_id_unnoticed_without_experts :
  fst (anonymize_data no_experts_world) = Ok tt /\
  ~ missing_id_raises no_experts_world.
Proof.
  split; [vm_compute; reflexivity|].
  intros H.
  specialize (H [] [[("Title", JStr "A paper")]]).
  assert (Hk : fst (anonymize_data no_experts_world) = Err KeyError).
  { apply H; [vm_compute; reflexivity|vm_compute; reflexivity|].
    right. left. reflexivity. }
  vm_compute in Hk. discriminate.
Qed.

(** ** The join of experts and works *)

Lemma py_eq_key_of (a b : json) :
  hashable a = true -> hashable b = true ->
  py_eq a b = true <-> key_of a = key_of b.
Proof.
  destruct a as [|x|m|s| |], b as [|y|n|t| |]; simpl; try discriminate; intros _ _;
    try (split; [discriminate|intros [=]]); try tauto.
  - destruct x, y; simpl; split; congruence.
  - rewrite Z.eqb_eq. split; congruence.
  - rewrite Z.eqb_eq. split; congruence.
  - rewrite Z.eqb_eq. split; congruence.
  - rewrite String.eqb_eq. split; congruence.
Qed.

Lemma py_eq_sym (a b : json) :
  hashable a = true -> hashable b = true -> py_eq a b = py_eq b a.
Proof.
  intros Ha Hb. destruct (py_eq a b) eqn:E1, (py_eq b a) eqn:E2; try reflexivity.
  - apply (py_eq_key_of a b Ha Hb) in E1. symmetry in E1.
    apply (py_eq_key_of b a Hb Ha) in E1. congruence.
  - apply (py_eq_key_of b a Hb Ha) in E2. symmetry in E2.
    apply (py_eq_key_of a b Ha Hb) in E2. congruence.
Qed.

Lemma py_eq_trans (a b c : json) :
  hashable a = true -> hashable b = true -> hashable c = true ->
  py_eq a b = true -> py_eq a c = py_eq b c.
Proof.
  intros Ha Hb Hc Hab. apply (py_eq_key_of a b Ha Hb) in Hab.
  destruct (py_eq a c) eqn:E1, (py_eq b c) eqn:E2; try reflexivity.
  - apply (py_eq_key_of a c Ha Hc) in E1. rewrite Hab in E1.
    apply (py_eq_key_of b c Hb Hc) in E1. congruence.
  - apply (py_eq_key_of b c Hb Hc) in E2. rewrite <- Hab in E2.
    apply (py_eq_key_of a c Ha Hc) in E2. congruence.
Qed.

Lemma index_append_hashable (k w : json) (idx : list (json * list json)) :
  hashable k = true -> keys_hashable idx -> keys_hashable (index_append k w idx).
Proof.
  intros Hk. induction 1 as [|[k0 ws] idx H0 Hidx IH]; simpl.
  - repeat constructor. exact Hk.
  - destruct (py_eq k0 k); constructor; auto.
Qed.

(** After [setdefault(k, []).append(w)], the list under an equal key has
    [w] at its end and every other list is as before. *)
Lemma index_append_get (k k' w : json) (idx : list (json * list json)) :
  hashable k = true -> hashable k' = true -> keys_hashable idx ->
  index_get_or_empty k' (index_append k w idx) =
  index_get_or_empty k' idx ++ (if py_eq k k' then [w] else []).
Proof.
  intros Hk Hk'. unfold index_get_or_empty.
  induction 1 as [|[k0 ws] idx H0 Hidx IH]; simpl.
  - now destruct (py_eq k k').
  - simpl in H0. destruct (py_eq k0 k) eqn:E0; simpl.
    + rewrite <- (py_eq_trans k0 k k' H0 Hk Hk' E0).
      destruct (py_eq k0 k'); [reflexivity|]. now rewrite app_nil_r.
    + destruct (py_eq k0 k') eqn:E1; [|exact IH].
      rewrite (py_eq_trans k0 k' k H0 Hk' Hk E1) in E0.
      rewrite (py_eq_sym k k' Hk Hk'), E0. now rewrite app_nil_r.
Qed.

(** The first loop files every work under its [ExpertId], in the order of
    the works. *)
Lemma index_works_spec (works : list dict) (idx : list (json * list json)) :
  Forall work_ok works -> keys_hashable idx ->
  exists idx',
    index_works (map JObj works) idx = Ok idx' /\
    keys_hashable idx' /\
    forall k, hashable k = true ->
      index_get_or_empty k idx' =
      index_get_or_empty k idx ++ List.filter (filed_under k) (map JObj works).
Proof.
  intros Hw. revert idx. induction Hw as [|w works Hw Hworks IH]; intros idx Hidx; simpl.
  - exists idx. repeat split; [exact Hidx|]. intros k _. now rewrite app_nil_r.
  - unbind. unfold work_ok in Hw.
    destruct (truthy (Dict.get_or_none "ExpertId" w)) eqn:Ht.
    + rewrite (Hw eq_refl).
      destruct (IH (index_append (Dict.get_or_none "ExpertId" w) (JObj w) idx))
        as (idx' & Hrun & Hh & Hget).
      { apply index_append_hashable; [now apply Hw|exact Hidx]. }
      exists idx'. repeat split; [exact Hrun|exact Hh|].
      intros k Hk. rewrite (Hget k Hk).
      rewrite index_append_get by (try apply Hw; auto).
      rewrite <- app_assoc. now destruct (py_eq _ k).
    + destruct (IH idx Hidx) as (idx' & Hrun & Hh & Hget).
      exists idx'. repeat split; [exact Hrun|exact Hh|].
      intros k Hk. now rewrite (Hget k Hk).
Qed.

Lemma attach_works_spec (idx : list (json * list json)) (experts : list dict) :
  Forall expert_ok experts ->
  attach_works idx (map JObj experts) =
  Ok (map (fun e => JObj (Dict.set "works"
                            (JList (index_get_or_empty (Dict.get_or_none "Id" e) idx)) e))
          experts).
Proof.
  induction 1 as [|e experts He Hexperts IH]; simpl; [reflexivity|].
  unbind. unfold expert_ok in He. rewrite He, IH. reflexivity.
Qed.

Lemma filed_under_linked (e : dict) (works : list json) :
  List.filter (filed_under (Dict.get_or_none "Id" e)) works =
  List.filter (linked (JObj e)) works.
Proof.
  apply filter_ext. intros [| | | | |w]; try reflexivity.
  unfold filed_under, linked, Dict.get_or_none.
  now destruct (Dict.get "ExpertId" w).
Qed.

Lemma combine_loaded_spec (experts works : list dict) :
  Forall work_ok works -> Forall expert_ok experts ->
  combine_loaded (JList (map JObj experts)) (JList (map JObj works)) =
  Ok (JList (map (fun e => JObj (Dict.set "works" (JList (works_of e works)) e)) experts)).
Proof.
  intros Hw He. unfold combine_loaded. simpl. unbind.
  destruct (index_works_spec works [] Hw) as (idx & -> & Hh & Hget); [constructor|].
  rewrite (attach_works_spec idx experts He). do 2 f_equal.
  apply map_ext_in. intros e Hin. do 3 f_equal.
  rewrite Forall_forall in He.
  rewrite (Hget _ (He e (proj2 (list_elem_of_In _ _) Hin))).
  apply filed_under_linked.
Qed.

(** C1, as the code has it.  Let the works file hold mappings whose
    [ExpertId], where it is truthy, is hashable, and the experts file
    mappings whose [Id] is hashable.  Then [combine_experts_with_works]
    returns the experts in their order, each with a [works] field that is
    the works file filtered by: [ExpertId] is present, truthy and equal to
    the expert's [Id].  Each such work is therefore there once per
    occurrence in the works file and in the order of that file, and a work
    whose [ExpertId] is absent, falsy or equal to no expert's [Id] is in no
    [works] list. *)
Theorem combine_links_by_truthy_id {G : Type} (w : world G)
    (experts_file works_file : string) (experts works : list dict) :
  fs w !! String.append DATA_DIR experts_file = Some (JList (map JObj experts)) ->
  fs w !! String.append DATA_DIR works_file = Some (JList (map JObj works)) ->
  Forall work_ok works ->
  Forall expert_ok experts ->
  combine_experts_with_works experts_file works_file w =
    (Ok (JList (map (fun e => JObj (Dict.set "works" (JList (works_of e works)) e))
                    experts)), w) /\
  forall e work, In work (works_of e works) <->
                 In work (map JObj works) /\ linked (JObj e) work = true.
Proof.
  intros He Hw Hwok Heok. split.
  - unfold combine_experts_with_works, bindM, load_json, liftM.
    rewrite He, Hw. now rewrite (combine_loaded_spec experts works Hwok Heok).
  - intros e work. unfold works_of. apply filter_In.
Qed.

Lemma combine_links_by_truthy_id_witness :
  combine_experts_with_works "experts.json" "works.json" linkage_world =
    (Ok (JList [JObj [("Id", JInt 1); ("FirstName", JStr "Ann");
                      ("works", JList [JObj anns_paper])]]), linkage_world) /\
  forall e work, In work (works_of e [anns_paper; stray_paper]) <->
                 In work (map JObj [anns_paper; stray_paper]) /\
                 linked (JObj e) work = true.
Proof.
  apply (combine_links_by_truthy_id linkage_world "experts.json" "works.json"
           [ann] [anns_paper; stray_paper]).
  - vm_compute; reflexivity.
  - vm_compute; reflexivity.
  - repeat constructor.
  - repeat constructor.
Defined.

(** C1 as stated fails: a work and an expert with the equal ids 0 are not
    linked, because [if expert_id:] takes 0 for a missing id. *)
Lemma falsy_ids_are_not_linked :
  ~ equal_ids_are_linked [[("Id", JInt 0)]] [[("ExpertId", JInt 0)]].
Proof.
  intros H.
  destruct (H [("Id", JInt 0)] [("ExpertId", JInt 0)] (JInt 0) (JInt 0))
    as (out & e' & ws & Hrun & Hin & Hid & Hws & Hw);
    try (now left); try reflexivity.
  vm_compute in Hrun. injection Hrun as <-.
  destruct Hin as [[= <-]|[]]. vm_compute in Hws. injection Hws as <-.
  destruct Hw.
Qed.

(** ** Programs over the world *)

Section Programs.
Context {G : Type}.

Lemma bindM_ok {A B} (m : M G A) (k : A -> M G B) (w w' : world G) (a : A) :
  m w = (Ok a, w') -> bindM m k w = k a w'.
Proof. unfold bindM. now intros ->. Qed.

Lemma bindM_err {A B} (m : M G A) (k : A -> M G B) (w w' : world G) (e : exn) :
  m w = (Err e, w') -> bindM m k w = (Err e, w').
Proof. unfold bindM. now intros ->. Qed.

Lemma keeps_bind {A B} (p : string) (m : M G A) (k : A -> M G B) :
  keeps p m -> (forall a, keeps p (k a)) -> keeps p (bindM m k).
Proof.
  intros Hm Hk w. unfold bindM. specialize (Hm w).
  destruct (m w) as [[a|e] w'] eqn:E; simpl in *; [|exact Hm].
  now rewrite (Hk a w').
Qed.

Lemma keeps_ret {A} (p : string) (a : A) : keeps p (retM (G := G) a).
Proof. now intros w. Qed.

Lemma keeps_lift {A} (p : string) (r : result A) : keeps p (liftM (G := G) r).
Proof. now intros w. Qed.

Lemma keeps_log (p : string) (entry : log_entry) : keeps p (logM (G := G) entry).
Proof. now intros w. Qed.

Lemma keeps_save (p q : string) (v : json) :
  q <> p -> keeps p (save_json (G := G) v q).
Proof. intros Hne w. unfold save_json. simpl. now apply lookup_insert_ne. Qed.

End Programs.

(** ** The split of outputs and works by type name *)

Lemma type_name_never_matches (item : json) :
  Str.contains "Output" (Str.title (str_of_type item)) = false /\
  Str.contains "Work" (Str.title (str_of_type item)) = false.
Proof. destruct item; split; vm_compute; reflexivity. Qed.

Lemma filter_nothing {A} (f : A -> bool) (l : list A) :
  (forall x, f x = false) -> List.filter f l = [].
Proof.
  intros H. induction l as [|x l IH]; simpl; [reflexivity|]. now rewrite H.
Qed.

Lemma expert_path_differs (name : string) :
  String.append EXPERTS_DIR name <> "data/experts_with_works.json".
Proof. unfold EXPERTS_DIR. cbv [String.append]. discriminate. Qed.

Section RawPath.
Context {G : Type}.
Variable py_str : json -> string.

Lemma save_initial_data_files (items : list json) (experts : json) (w : world G) :
  save_initial_data (JList items) experts w =
    (Ok tt,
     MkWorld (<["data/experts.json" := experts]>
                (<["data/original_data.json" := JList items]>
                   (<["data/works.json" := JList []]>
                      (<["data/outputs.json" := JList []]> (fs w)))))
             (rng w) (log w)).
Proof.
  unfold save_initial_data, bindM, liftM, save_json. simpl.
  rewrite !filter_nothing by (intros x; apply type_name_never_matches).
  reflexivity.
Qed.

Lemma save_expert_files_keeps (items : list json) :
  keeps "data/experts_with_works.json" (save_expert_files (G := G) py_str items).
Proof.
  induction items as [|x items IH]; simpl; [apply keeps_ret|].
  apply keeps_bind; [apply keeps_lift|]. intros name.
  apply keeps_bind; [apply keeps_save, expert_path_differs|]. intros _. exact IH.
Qed.

Lemma after_combine_keeps (experts_with_works : json) :
  keeps "data/experts_with_works.json"
    (save_individual_expert_files (G := G) py_str experts_with_works ;;;
     check_experts_without_works experts_with_works ;;;
     logM (LogInfo "Data processing completed successfully")).
Proof.
  apply keeps_bind.
  - unfold save_individual_expert_files.
    apply keeps_bind; [apply keeps_lift|]. intros items.
    apply keeps_bind; [apply save_expert_files_keeps|]. intros _. apply keeps_log.
  - intros _. apply keeps_bind; [|intros _; apply keeps_log].
    unfold check_experts_without_works.
    apply keeps_bind; [apply keeps_lift|]. intros items.
    apply keeps_bind; [apply keeps_lift|]. intros [|x l]; apply keeps_log.
Qed.
End RawPath.

Lemma combine_run {G : Type} (w : world G) (experts_file works_file : string)
    (experts works : list dict) :
  fs w !! String.append DATA_DIR experts_file = Some (JList (map JObj experts)) ->
  fs w !! String.append DATA_DIR works_file = Some (JList (map JObj works)) ->
  Forall work_ok works ->
  Forall expert_ok experts ->
  combine_experts_with_works experts_file works_file w =
    (Ok (JList (map (fun e => JObj (Dict.set "works" (JList (works_of e works)) e))
                    experts)), w).
Proof.
  intros He Hw Hwok Heok.
  unfold combine_experts_with_works, bindM, load_json, liftM.
  rewrite He, Hw. now rewrite (combine_loaded_spec experts works Hwok Heok).
Qed.



(** ** Failures of the vendor API *)

Section Fetching.
Context {G : Type} `{RS : RandomSource G}.
Variable http_get : string -> dict -> response.
Variable set_order : list json -> list json.
Variable py_str : json -> string.
Variable config : Config.

Lemma make_request_body (url : string) (params : dict) (v : json) (w : world G) :
  http_get url params = Body v -> _make_request http_get url params w = (Ok v, w).
Proof. intros H. unfold _make_request. now rewrite H. Qed.

(** A failed request is logged and re-raised. *)
Lemma make_request_fails (url : string) (params : dict) (e : exn) (w : world G) :
  failure_exn (http_get url params) = Some e ->
  exists msg,
    _make_request http_get url params w =
      (Err e, MkWorld (fs w) (rng w) (log w ++ [LogError msg])).
Proof.
  unfold _make_request.
  destruct (http_get url params); intros [= <-]; eexists; reflexivity.
Qed.

(** [get_expert_profile] never raises: whatever goes wrong ends as [None]. *)
Lemma get_expert_profile_value (expert_id : json) (w : world G) :
  fst (get_expert_profile http_get expert_id w) = Ok (profile_of http_get expert_id).
Proof.
  unfold get_expert_profile, profile_of, catchM, bindM, _make_request.
  destruct (http_get SINEQUA_EXPERT_PROFILE_URL [("UserId", expert_id)]) as [| | |v];
    try reflexivity.
  unfold retM, liftM. 
  destruct (py_get_or_empty v "RecordList") as [records|e]; [|reflexivity].
  destruct (truthy records); [|reflexivity].
  now destruct (py_first records).
Qed.

Lemma get_expert_profile_failure_logged (expert_id : json) (e : exn) (w : world G) :
  failure_exn (http_get SINEQUA_EXPERT_PROFILE_URL [("UserId", expert_id)]) = Some e ->
  profile_of http_get expert_id = JNull /\
  exists msg,
    log (snd (get_expert_profile http_get expert_id w)) =
    log w ++ [LogError msg; LogError "Failed to fetch expert profile"].
Proof.
  unfold get_expert_profile, profile_of, catchM, bindM, _make_request.
  destruct (http_get SINEQUA_EXPERT_PROFILE_URL [("UserId", expert_id)]);
    intros [= <-]; (split; [reflexivity|]); eexists; simpl;
    rewrite <- app_assoc; reflexivity.
Qed.

Lemma get_expert_profile_empty_logged (expert_id v records : json) (w : world G) :
  http_get SINEQUA_EXPERT_PROFILE_URL [("UserId", expert_id)] = Body v ->
  py_get_or_empty v "RecordList" = Ok records ->
  truthy records = false ->
  profile_of http_get expert_id = JNull /\
  log (snd (get_expert_profile http_get expert_id w)) =
    log w ++ [LogWarning "No expert profile found"].
Proof.
  intros Hb Hr Ht.
  unfold get_expert_profile, profile_of, catchM, bindM, _make_request.
  rewrite Hb. unfold retM, liftM. rewrite Hr, Ht. split; reflexivity.
Qed.

(** The loop over the ids goes through all of them. *)
Lemma fetch_profiles_value (expert_ids experts : list json) (w : world G) :
  fst (fetch_profiles http_get expert_ids experts w) =
  Ok (experts ++ List.filter truthy (map (profile_of http_get) expert_ids)).
Proof.
  revert experts w. induction expert_ids as [|x ids IH]; intros experts w; simpl.
  - now rewrite app_nil_r.
  - unfold bindM. pose proof (get_expert_profile_value x w) as Hv.
    destruct (get_expert_profile http_get x w) as [[p|e] w']; simpl in Hv;
      [|discriminate].
    injection Hv as ->. rewrite IH.
    destruct (truthy (profile_of http_get x)); [|reflexivity].
    now rewrite <- app_assoc.
Qed.

(** A request of [get_outputs_and_works] that fails ends the export. *)
Lemma export_raw_data_fails (e : exn) (w : world G) :
  failure_exn (http_get SINEQUA_OUTPUTS_URL (limit_params config)) = Some e \/
  ((exists v, http_get SINEQUA_OUTPUTS_URL (limit_params config) = Body v) /\
   failure_exn (http_get SINEQUA_WORKS_URL (limit_params config)) = Some e) ->
  fst (export_raw_data http_get set_order config w) = Err e.
Proof.
  intros H. unfold export_raw_data.
  erewrite bindM_ok by reflexivity.
  unfold get_outputs_and_works.
  fold (limit_params config).
  destruct H as [H|[[v Hv] H]].
  - unfold bindM at 1. unfold bindM at 1. unfold logM at 1. 
    destruct (make_request_fails SINEQUA_OUTPUTS_URL (limit_params config) e
                (MkWorld (fs w) (rng w)
                   ((log w ++ [LogInfo "Starting raw data export..."])
                      ++ [LogInfo "Fetching outputs and works"])) H) as [msg Hm].
    cbn [fs rng log]. unfold bindM at 1. rewrite Hm. reflexivity.
  - unfold bindM at 1. unfold bindM at 1. unfold logM at 1.
    cbn [fs rng log]. unfold bindM at 1.
    rewrite (make_request_body _ _ v _ Hv).
    unfold bindM at 1.
    destruct (make_request_fails SINEQUA_WORKS_URL (limit_params config) e
                (MkWorld (fs w) (rng w)
                   ((log w ++ [LogInfo "Starting raw data export..."])
                      ++ [LogInfo "Fetching outputs and works"])) H) as [msg Hm].
    rewrite Hm. reflexivity.
Qed.

Lemma run_fails (e : exn) (w : world G) :
  (forall w' : world G, fst (export_raw_data http_get set_order config w') = Err e) ->
  fst (run http_get set_order py_str config w) = Err e.
Proof.
  intros H. unfold run, catchM. unfold bindM at 1.
  unfold ensure_directories at 1.
  unfold bindM at 1.
  match goal with |- context [export_raw_data http_get set_order config ?w1] =>
    specialize (H w1); destruct (export_raw_data http_get set_order config w1)
      as [[a|e'] w2] end; simpl in H; [discriminate|].
  injection H as ->. reflexivity.
Qed.
End Fetching.

(** C2, as the code has it.  A request for the outputs or the works that
    fails (transport, status or decoding) is logged, raised again and
    ends [export_raw_data] and [run] with that exception.  A profile
    lookup never raises: a failed request, like an empty [RecordList], is
    logged and yields [None], and the loop over the ids goes on to collect
    the profiles of all the other ids. *)
Theorem fetch_failure_policy {G : Type} `{RS : RandomSource G}
    (http_get : string -> dict -> response) (set_order : list json -> list json)
    (py_str : json -> string) (config : Config) (w : world G) :
  (forall e,
     failure_exn (http_get SINEQUA_OUTPUTS_URL (limit_params config)) = Some e \/
     ((exists v, http_get SINEQUA_OUTPUTS_URL (limit_params config) = Body v) /\
      failure_exn (http_get SINEQUA_WORKS_URL (limit_params config)) = Some e) ->
     fst (export_raw_data http_get set_order config w) = Err e /\
     fst (run http_get set_order py_str config w) = Err e) /\
  (forall expert_id,
     fst (get_expert_profile http_get expert_id w) = Ok (profile_of http_get expert_id)) /\
  (forall expert_id e,
     failure_exn (http_get SINEQUA_EXPERT_PROFILE_URL [("UserId", expert_id)]) = Some e ->
     profile_of http_get expert_id = JNull /\
     exists msg,
       log (snd (get_expert_profile http_get expert_id w)) =
       log w ++ [LogError msg; LogError "Failed to fetch expert profile"]) /\
  (forall expert_id v records,
     http_get SINEQUA_EXPERT_PROFILE_URL [("UserId", expert_id)] = Body v ->
     py_get_or_empty v "RecordList" = Ok records ->
     truthy records = false ->
     profile_of http_get expert_id = JNull /\
     log (snd (get_expert_profile http_get expert_id w)) =
       log w ++ [LogWarning "No expert profile found"]) /\
  (forall expert_ids experts,
     fst (fetch_profiles http_get expert_ids experts w) =
     Ok (experts ++ List.filter truthy (map (profile_of http_get) expert_ids))).
Proof.
  split; [|split; [|split; [|split]]].
  - intros e H. split.
    + now apply export_raw_data_fails.
    + apply run_fails. intros w'. now apply export_raw_data_fails.
  - intros expert_id. apply get_expert_profile_value.
  - intros expert_id e H.
    exact (get_expert_profile_failure_logged http_get expert_id e w H).
  - intros expert_id v records Hb Hr Ht.
    exact (get_expert_profile_empty_logged http_get expert_id v records w Hb Hr Ht).
  - intros expert_ids experts. apply fetch_profiles_value.
Qed.

Lemma fetch_failure_policy_witness :
  (fst (export_raw_data dead_api same_order default_config (world_of [])) =
     Err RequestException /\
   fst (run dead_api same_order str_of_id default_config (world_of [])) =
     Err RequestException) /\
  (profile_of flaky_api (JInt 7) = JNull /\
   exists msg,
     log (snd (get_expert_profile flaky_api (JInt 7) (world_of []))) =
     log (world_of []) ++ [LogError msg; LogError "Failed to fetch expert profile"]) /\
  fst (fetch_profiles flaky_api [JInt 7; JInt 1] [] (world_of [])) =
    Ok ([] ++ List.filter truthy (map (profile_of flaky_api) [JInt 7; JInt 1])).
Proof.
  pose proof (fetch_failure_policy dead_api same_order str_of_id default_config
                (world_of [])) as (Hdead & _).
  pose proof (fetch_failure_policy flaky_api same_order str_of_id default_config
                (world_of [])) as (_ & _ & Hfail & _ & Hloop).
  split; [|split].
  - apply Hdead. left. reflexivity.
  - apply (Hfail (JInt 7) RequestException). reflexivity.
  - apply Hloop.
Defined.

(** C2 as stated fails: the request for the profile of expert 7 fails in
    transport, the lookup returns [None], and the export completes with
    the profile of expert 1. *)
Lemma failed_profile_lookup_is_skipped :
  flaky_api SINEQUA_EXPERT_PROFILE_URL [("UserId", JInt 7)] = ConnectionFailed /\
  fst (export_raw_data flaky_api same_order default_config (world_of [])) =
    Ok (JList [JObj [("ExpertId", JInt 7)]; JObj anns_paper], JList [JObj ann]) /\
  ~ only_empty_list_is_skipped (G := Z) flaky_api.
Proof.
  split; [reflexivity|]. split; [vm_compute; reflexivity|].
  intros H. destruct (H (world_of []) (JInt 7)) as (v & Hv & _).
  - vm_compute. reflexivity.
  - vm_compute in Hv. discriminate.
Qed.

(** ** Further properties: the record functions of [anonymize.py] *)

Lemma del_filter (k : string) (d : dict) :
  Dict.del k d = List.filter (fun kv => negb (String.eqb (fst kv) k)) d.
Proof.
  induction d as [|[k' v] d IH]; simpl; [reflexivity|].
  destruct (String.eqb k' k); simpl; now rewrite IH.
Qed.

Lemma del_absent (k : string) (d : dict) : Dict.mem k d = false -> Dict.del k d = d.
Proof.
  intros H. apply get_mem_false in H.
  induction d as [|[k' v] d IH]; simpl in *; [reflexivity|].
  destruct (String.eqb k' k); [discriminate|]. now rewrite IH.
Qed.

Lemma filter_twice {A} (f g : A -> bool) (l : list A) :
  List.filter f (List.filter g l) = List.filter (fun x => g x && f x) l.
Proof.
  induction l as [|x l IH]; simpl; [reflexivity|].
  destruct (g x); simpl; [destruct (f x)|]; now rewrite IH.
Qed.

Lemma remove_keys_filter (keys : list string) (d : dict) :
  fold_left (fun r a => if Dict.mem a r then Dict.del a r else r) keys d =
  List.filter (fun kv => negb (listed (fst kv) keys)) d.
Proof.
  revert d. induction keys as [|a keys IH]; intros d; simpl.
  - induction d as [|kv d IHd]; simpl; [reflexivity|]. now rewrite <- IHd.
  - rewrite IH.
    assert (Hd : (if Dict.mem a d then Dict.del a d else d) = Dict.del a d).
    { destruct (Dict.mem a d) eqn:E; [reflexivity|]. symmetry. now apply del_absent. }
    rewrite Hd, del_filter, filter_twice. apply filter_ext. intros [k v]. simpl.
    rewrite (String.eqb_sym a k). now rewrite negb_orb.
Qed.

Lemma remove_data_filter (d : dict) :
  remove_data d = List.filter (fun kv => kept (fst kv)) d.
Proof. apply remove_keys_filter. Qed.

Lemma filter_keys (f : string -> bool) (d : dict) :
  map fst (List.filter (fun kv => f (fst kv)) d) = List.filter f (map fst d).
Proof.
  induction d as [|[k v] d IH]; simpl; [reflexivity|].
  destruct (f k); simpl; now rewrite IH.
Qed.

Lemma filter_same {A} (f : A -> bool) (l : list A) :
  List.filter f (List.filter f l) = List.filter f l.
Proof.
  rewrite filter_twice. apply filter_ext. intros x. now destruct (f x).
Qed.

(** X1. [remove_data] drops the fields of the remove list, all of them and
    nothing else: what is left are the other fields with their values, in
    their order.  Applying it again changes nothing. *)
Theorem remove_data_is_a_filter (d : dict) :
  remove_data d = List.filter (fun kv => negb (listed (fst kv) remove_list)) d /\
  remove_data (remove_data d) = remove_data d.
Proof.
  split; [apply remove_data_filter|].
  rewrite !remove_data_filter. apply filter_same.
Qed.

Lemma set_keys (k : string) (v : json) (d : dict) :
  Dict.mem k d = true -> map fst (Dict.set k v d) = map fst d.
Proof.
  unfold Dict.mem. induction d as [|[k' v'] d IH]; simpl; [discriminate|].
  destruct (String.eqb k' k); simpl; [reflexivity|]. intros H. now rewrite IH.
Qed.

Lemma all_strings_fields (keys : list string) (r : dict) :
  all_strings keys r = true <-> string_fields keys r.
Proof.
  unfold all_strings, string_fields, listed. rewrite forallb_forall. split.
  - intros H k Hk. apply existsb_exists in Hk as (k' & Hin & E).
    apply String.eqb_eq in E. subst k'. specialize (H k Hin).
    now destruct (Dict.get k r) as [[]|].
  - intros H k Hin.
    assert (Hk : existsb (fun k' => String.eqb k' k) keys = true).
    { apply existsb_exists. exists k. split; [exact Hin|apply String.eqb_refl]. }
    specialize (H k Hk). now destruct (Dict.get k r) as [[]|].
Qed.

Lemma forallb_same {A} (f g : A -> bool) (l : list A) :
  (forall x, f x = g x) -> forallb f l = forallb g l.
Proof.
  intros H. induction l as [|x l IH]; simpl; [reflexivity|]. now rewrite H, IH.
Qed.

Section UpdateOutcome.
Variable choose : string -> option string.

Lemma update_fields_keys (keys : list string) (r r' : dict) :
  update_fields choose keys r = Ok r' -> map fst r' = map fst r.
Proof.
  revert r. induction keys as [|a keys IH]; intros r H.
  - now injection H as <-.
  - apply update_fields_cons in H as (r1 & H & [->|(new & s & _ & Hs & ->)]).
    + exact (IH _ H).
    + rewrite (IH _ H). apply set_keys. unfold Dict.mem. now rewrite Hs.
Qed.

Lemma update_fields_unchosen (keys : list string) (k : string) (r r' : dict) :
  update_fields choose keys r = Ok r' ->
  choose k = None -> Dict.get k r' = Dict.get k r.
Proof.
  revert r. induction keys as [|a keys IH]; intros r H Hc.
  - now injection H as <-.
  - apply update_fields_cons in H as (r1 & H & [->|(new & s & Hca & _ & ->)]).
    + exact (IH _ H Hc).
    + rewrite (IH _ H Hc). apply get_set_ne.
      destruct (String.eqb a k) eqn:E; [|reflexivity].
      apply String.eqb_eq in E. subst a. congruence.
Qed.

(** What the loop leaves in each field when it completes. *)
Lemma update_fields_get (keys : list string) (k : string) (r r' : dict) :
  update_fields choose keys r = Ok r' ->
  Dict.get k r' =
  match Dict.get k r with
  | None => None
  | Some v =>
      Some (if listed k keys
            then match choose k with Some new => JStr new | None => v end
            else v)
  end.
Proof.
  intros H. destruct (Dict.get k r) as [v|] eqn:Hk.
  - destruct (listed k keys) eqn:Hl.
    + destruct (choose k) as [new|] eqn:Hc.
      * apply (update_fields_listed _ _ _ _ _ _ H Hl Hc).
        unfold Dict.mem. now rewrite Hk.
      * now rewrite (update_fields_unchosen _ _ _ _ H Hc).
    + now rewrite (update_fields_other _ _ _ _ _ H Hl).
  - exact (update_fields_absent _ _ _ _ _ H Hk).
Qed.

Lemma update_fields_succeeds (keys : list string) (r : dict) :
  all_strings keys r = true -> exists r', update_fields choose keys r = Ok r'.
Proof.
  intros Hs. destruct (update_fields choose keys r) as [r'|e] eqn:E; [eauto|].
  apply (update_fields_err _ true) in E as [? _]; [discriminate|].
  intros _. now apply all_strings_fields.
Qed.

Lemma update_fields_fails (keys : list string) (r : dict) :
  (forall k, listed k keys = true -> choose k <> None) ->
  all_strings keys r = false ->
  update_fields choose keys r = Err AttributeError.
Proof.
  revert r. induction keys as [|a keys IH]; intros r Hch Hs; [discriminate|].
  simpl in Hs. unfold update_fields. simpl. unbind.
  assert (Hca : choose a <> None).
  { apply Hch. simpl. now rewrite String.eqb_refl. }
  assert (Hrest : forall k, listed k keys = true -> choose k <> None).
  { intros k Hk. apply Hch. simpl. rewrite Hk. apply orb_true_r. }
  destruct (choose a) as [new|] eqn:Hc; [|congruence].
  unfold Dict.mem, replace_field.
  destruct (Dict.get a r) as [v|] eqn:Ha.
  - destruct v; try reflexivity.
    simpl in Hs. apply (IH _ Hrest).
    rewrite <- Hs. unfold all_strings. apply forallb_same. intros k.
    rewrite get_set_cases. destruct (String.eqb a k) eqn:E; [|reflexivity].
    apply String.eqb_eq in E. subst k. now rewrite Ha.
  - simpl in Hs. now apply (IH _ Hrest).
Qed.
End UpdateOutcome.

(** X2. [anonymize_name] completes exactly when every field of its list
    that the record has holds a string, and raises [AttributeError]
    otherwise.  When it completes, the record has the same fields in the
    same order; a listed field that was there holds the first name if its
    name contains [FirstName], else the last name if it contains
    [LastName], else the full name; every other field has its value, and
    no field is added. *)
Theorem anonymize_name_outcome (r : dict) (keys : list string) (n l f : string) :
  if all_strings keys r then
    exists r',
      anonymize_name r keys n l f = Ok r' /\
      map fst r' = map fst r /\
      forall k,
        Dict.get k r' =
        match Dict.get k r with
        | None => None
        | Some v =>
            Some (if listed k keys
                  then JStr (if Str.contains "FirstName" k then n
                             else if Str.contains "LastName" k then l else f)
                  else v)
        end
  else anonymize_name r keys n l f = Err AttributeError.
Proof.
  rewrite anonymize_name_update. destruct (all_strings keys r) eqn:Hs.
  - destruct (update_fields_succeeds (name_choice n l f) keys r Hs) as [r' Hr].
    exists r'. split; [exact Hr|]. split; [exact (update_fields_keys _ _ _ _ Hr)|].
    intros k. rewrite (update_fields_get _ _ k _ _ Hr).
    destruct (Dict.get k r); [|reflexivity]. now destruct (listed k keys).
  - apply update_fields_fails; [|exact Hs]. intros k _. discriminate.
Qed.

Lemma contact_choice_listed (e p m k : string) :
  listed k contact_list = true -> contact_choice e p m k <> None.
Proof.
  unfold listed, contact_list. cbn [existsb]. rewrite !orb_true_iff.
  intros [H|[H|[H|H]]]; try discriminate;
    apply String.eqb_eq in H; subst k; discriminate.
Qed.

(** X3. [anonymize_contacts] completes exactly when the [Email], [Phone]
    and [Mobile] fields that the record has hold strings, and raises
    [AttributeError] otherwise (a [null] phone number, for one).  When it
    completes, the record has the same fields in the same order, each of
    the three that was there holds its synthetic value, every other field
    has its value, and no field is added. *)
Theorem anonymize_contacts_outcome (r : dict) (e p m : string) :
  if all_strings contact_list r then
    exists r',
      anonymize_contacts r e p m = Ok r' /\
      map fst r' = map fst r /\
      forall k,
        Dict.get k r' =
        match Dict.get k r with
        | None => None
        | Some v =>
            Some (if String.eqb k "Email" then JStr e
                  else if String.eqb k "Phone" then JStr p
                  else if String.eqb k "Mobile" then JStr m
                  else v)
        end
  else anonymize_contacts r e p m = Err AttributeError.
Proof.
  rewrite anonymize_contacts_update. destruct (all_strings contact_list r) eqn:Hs.
  - destruct (update_fields_succeeds (contact_choice e p m) contact_list r Hs) as [r' Hr].
    exists r'. split; [exact Hr|]. split; [exact (update_fields_keys _ _ _ _ Hr)|].
    intros k. rewrite (update_fields_get _ _ k _ _ Hr).
    destruct (Dict.get k r) as [v|]; [|reflexivity]. f_equal.
    destruct (String.eqb_spec k "Email") as [->|H1]; [reflexivity|].
    destruct (String.eqb_spec k "Phone") as [->|H2]; [reflexivity|].
    destruct (String.eqb_spec k "Mobile") as [->|H3]; [reflexivity|].
    assert (Hl : listed k contact_list = false).
    { unfold listed, contact_list. cbn [existsb].
      rewrite !(proj2 (String.eqb_neq _ _)) by congruence. reflexivity. }
    now rewrite Hl.
  - apply update_fields_fails; [|exact Hs]. intros k. apply contact_choice_listed.
Qed.

Lemma prefix_ExpertId_contains_Id (h : string) :
  Str.prefix "ExpertId" h = true -> Str.contains "Id" h = true.
Proof.
  intros H.
  destruct h as [|c1 [|c2 [|c3 [|c4 [|c5 [|c6 [|c7 [|c8 h]]]]]]]];
    cbn [Str.prefix] in H; rewrite ?andb_false_r in H; try discriminate.
  repeat (apply andb_true_iff in H as [? H]).
  repeat match goal with
         | E : Ascii.eqb _ _ = true |- _ => apply Ascii.eqb_eq in E
         end.
  subst. vm_compute. reflexivity.
Qed.

(** The second test of [anonymize_id] can only hold when the first does. *)
Lemma contains_ExpertId_Id (a : string) :
  Str.contains "ExpertId" a = true -> Str.contains "Id" a = true.
Proof.
  induction a as [|c a IH]; [discriminate|].
  intros H. cbn [Str.contains] in H. apply orb_true_iff in H as [H|H].
  - now apply prefix_ExpertId_contains_Id.
  - cbn [Str.contains]. rewrite (IH H). apply orb_true_r.
Qed.

Lemma anonymize_id_step (r : dict) (a : string) (fid : Z) :
  (if Dict.mem a r then
     if Str.contains "Id" a then Dict.set a (JInt fid) r
     else if Str.contains "ExpertId" a then Dict.set a (JInt fid) r
     else r
   else r) =
  (if Dict.mem a r && Str.contains "Id" a then Dict.set a (JInt fid) r else r).
Proof.
  destruct (Dict.mem a r); [|reflexivity]. simpl.
  destruct (Str.contains "Id" a) eqn:E; [reflexivity|].
  destruct (Str.contains "ExpertId" a) eqn:E'; [|reflexivity].
  apply contains_ExpertId_Id in E'. congruence.
Qed.

Lemma anonymize_id_keys (r : dict) (keys : list string) (fid : Z) :
  map fst (anonymize_id r keys fid) = map fst r.
Proof.
  unfold anonymize_id. revert r.
  induction keys as [|a keys IH]; intros r; simpl; [reflexivity|].
  rewrite IH, anonymize_id_step.
  destruct (Dict.mem a r) eqn:Hm; [|reflexivity].
  destruct (Str.contains "Id" a); [now apply set_keys|reflexivity].
Qed.

Lemma anonymize_id_get (r : dict) (keys : list string) (fid : Z) (k : string) :
  Dict.get k (anonymize_id r keys fid) =
  match Dict.get k r with
  | None => None
  | Some v => Some (if listed k keys && Str.contains "Id" k then JInt fid else v)
  end.
Proof.
  unfold anonymize_id. revert r.
  induction keys as [|a keys IH]; intros r; simpl.
  - now destruct (Dict.get k r).
  - rewrite IH, anonymize_id_step. unfold Dict.mem.
    destruct (String.eqb a k) eqn:E.
    + apply String.eqb_eq in E. subst a.
      destruct (Dict.get k r) as [v|] eqn:Hk; simpl.
      * destruct (Str.contains "Id" k); simpl.
        -- rewrite get_set_eq. now destruct (listed k keys).
        -- rewrite Hk. now rewrite !andb_false_r.
      * now rewrite Hk.
    + simpl.
      destruct (match Dict.get a r with Some _ => true | None => false end
                && Str.contains "Id" a); [|reflexivity].
      now rewrite get_set_ne.
Qed.

(** X4. [anonymize_id] never adds a field and never changes the order of
    the fields: a field of its list that the record has and whose name
    contains [Id] holds the synthetic id, every other field has its
    value.  The branch for [ExpertId] is never the one taken, since a name
    that contains [ExpertId] contains [Id]. *)
Theorem anonymize_id_outcome (r : dict) (keys : list string) (fid : Z) :
  map fst (anonymize_id r keys fid) = map fst r /\
  (forall k,
     Dict.get k (anonymize_id r keys fid) =
     match Dict.get k r with
     | None => None
     | Some v => Some (if listed k keys && Str.contains "Id" k then JInt fid else v)
     end) /\
  (forall a, Str.contains "Id" a = false -> Str.contains "ExpertId" a = false).
Proof.
  split; [apply anonymize_id_keys|]. split; [intros k; apply anonymize_id_get|].
  intros a H. destruct (Str.contains "ExpertId" a) eqn:E; [|reflexivity].
  apply contains_ExpertId_Id in E. congruence.
Qed.

(** ** Further properties: runs of [anonymize_data] *)

Section Bounds.
Context {G : Type} `{RS : RandomSource G}.
Hypothesis Hbounds : respects_bounds.

Lemma unique_attempts_bounded (n : nat) (lo hi : Z) (retval : option Z)
    (seen : list Z) (g g' : G) (v : Z) :
  lo <= hi ->
  (forall x, retval = Some x -> lo <= x <= hi) ->
  unique_attempts n lo hi retval seen g = Ok (v, g') ->
  lo <= v <= hi.
Proof using Hbounds.
  intros Hlh. revert retval g.
  induction n as [|n IH]; intros retval g Hret H; simpl in H; [discriminate|].
  assert (Hdraw : forall v1 g1, random_int lo hi g = (v1, g1) ->
                                forall x, Some v1 = Some x -> lo <= x <= hi).
  { intros v1 g1 E x [= <-]. pose proof (Hbounds lo hi g Hlh) as Hb.
    now rewrite E in Hb. }
  destruct retval as [x|].
  - destruct (negb (mem_Z x seen)).
    + injection H as <- <-. now apply Hret.
    + destruct (random_int lo hi g) as [v1 g1] eqn:E.
      exact (IH _ _ (Hdraw v1 g1 eq_refl) H).
  - destruct (random_int lo hi g) as [v1 g1] eqn:E.
    exact (IH _ _ (Hdraw v1 g1 eq_refl) H).
Qed.

Lemma new_identity_bounded (fk fk' : faker G) (i : identity) :
  new_identity fk = Ok (i, fk') -> 111111 <= fake_id i <= 999999.
Proof using Hbounds.
  unfold new_identity, unique_random_int. unbind.
  destruct (unique_attempts _ _ _ _ _ _) as [[v g]|] eqn:E; [|discriminate].
  apply unique_attempts_bounded in E; [|lia|discriminate].
  cbn [fk_rng fk_seen].
  destruct (first_name g) as [fn g2], (last_name g2) as [ln g3],
    (phone_number g3) as [ph g4], (phone_number g4) as [mb g5].
  intros [= <- <-]. exact E.
Qed.

Lemma gen_identities_bounded (n : nat) (fk fk' : faker G) (ids : list identity) :
  gen_identities n fk = Ok (ids, fk') ->
  Forall (fun i => 111111 <= fake_id i <= 999999) ids.
Proof using Hbounds.
  revert fk ids. induction n as [|n IH]; intros fk ids H; simpl in H.
  - injection H as <- <-. constructor.
  - unbind. destruct (new_identity fk) as [[i fk1]|] eqn:E1; [|discriminate].
    destruct (gen_identities n fk1) as [[rest fk2]|] eqn:E2; [|discriminate].
    injection H as <- <-. constructor.
    + exact (new_identity_bounded _ _ _ E1).
    + exact (IH _ _ E2).
Qed.
End Bounds.

(** X5. When the random source keeps [random_int] between its bounds,
    every [Id] written to [experts_cleaned.json] by a run that completes
    is an integer between 111111 and 999999; in particular it is truthy,
    so the guard of the join does not drop it. *)
Theorem synthetic_ids_in_range {G : Type} `{RS : RandomSource G}
    (w w' : world G) (experts : list json) :
  respects_bounds ->
  fs w !! expert_file = Some (JList experts) ->
  anonymize_data w = (Ok tt, w') ->
  exists outs,
    fs w' !! experts_cleaned_file = Some (JList outs) /\
    forall v, In v (field_values "Id" outs) ->
      exists n, v = JInt n /\ 111111 <= n <= 999999 /\ truthy v = true.
Proof.
  intros Hb He Hrun.
  destruct (anonymize_data_ok w w' experts He Hrun)
    as (data & passes & outs & data' & fk' & _ & Hg & Ht & ->).
  exists outs. split; [apply lookup_insert_eq|].
  intros v Hv. rewrite (run_trace_ids _ _ _ _ _ Ht) in Hv.
  apply in_map_iff in Hv as ([o i] & <- & Hin).
  apply (gen_identities_bounded Hb) in Hg. rewrite Forall_forall in Hg.
  assert (Hi : 111111 <= fake_id i <= 999999).
  { apply Hg. apply list_elem_of_In, in_map_iff. exists (o, i). auto. }
  exists (fake_id i). repeat split; try lia.
  simpl. destruct (Z.eqb_spec (fake_id i) 0); [lia|reflexivity].
Qed.

Lemma synthetic_ids_in_range_witness :
  exists outs,
    fs (snd (@anonymize_data Z modular_source modular_world)) !! experts_cleaned_file
      = Some (JList outs) /\
    forall v, In v (field_values "Id" outs) ->
      exists n, v = JInt n /\ 111111 <= n <= 999999 /\ truthy v = true.
Proof.
  apply (@synthetic_ids_in_range Z modular_source modular_world _
           [JObj bob; JObj [("Id", JInt 2)]]).
  - intros lo hi g Hlh. simpl.
    pose proof (Z.mod_pos_bound g (hi - lo + 1)). lia.
  - vm_compute; reflexivity.
  - vm_compute; reflexivity.
Defined.

(** X6. [anonymize_data] writes [works_cleaned.json] and
    [experts_cleaned.json] and no other file, whether it completes or
    raises: the two files it reads, like every other file, are as they
    were.  When it completes, both cleaned files are there. *)
Theorem anonymize_data_writes_two_files {G : Type} `{RS : RandomSource G}
    (w : world G) (p : string) :
  p <> works_cleaned_file ->
  p <> experts_cleaned_file ->
  fs (snd (anonymize_data w)) !! p = fs w !! p /\
  (fst (anonymize_data w) = Ok tt ->
   is_Some (fs (snd (anonymize_data w)) !! works_cleaned_file) /\
   is_Some (fs (snd (anonymize_data w)) !! experts_cleaned_file)).
Proof.
  intros Hw He. unfold anonymize_data.
  destruct (fs w !! original_file); [|split; [reflexivity|discriminate]].
  destruct (fs w !! expert_file); [|split; [reflexivity|discriminate]].
  destruct (anonymize_loaded _ _ _) as [[[d' e'] g']|];
    [|split; [reflexivity|discriminate]].
  cbn [fst snd fs]. split.
  - now rewrite !lookup_insert_ne by congruence.
  - intros _. split.
    + rewrite lookup_insert_ne by exact cleaned_files_differ.
      rewrite lookup_insert_eq. eauto.
    + rewrite lookup_insert_eq. eauto.
Qed.

Lemma anonymize_data_writes_two_files_witness :
  fs (snd (anonymize_data bob_world)) !! original_file = fs bob_world !! original_file /\
  (fst (anonymize_data bob_world) = Ok tt ->
   is_Some (fs (snd (anonymize_data bob_world)) !! works_cleaned_file) /\
   is_Some (fs (snd (anonymize_data bob_world)) !! experts_cleaned_file)).
Proof.
  apply (anonymize_data_writes_two_files bob_world original_file); discriminate.
Defined.

Lemma rewrite_record_keys (i : identity) (names : list string) (idkey : string)
    (d d' : dict) :
  rewrite_record i names idkey d = Ok d' ->
  map fst d' = List.filter kept (map fst d).
Proof.
  intros H. destruct (rewrite_steps i names idkey d d' H) as (r1 & r2 & H1 & H2 & ->).
  rewrite anonymize_id_keys, (update_fields_keys _ _ _ _ H2),
    (update_fields_keys _ _ _ _ H1), remove_data_filter.
  apply filter_keys.
Qed.

Lemma scan_passes_keys (passes : list (json * identity)) (d : dict) (r' : json) :
  scan_passes passes (JObj d) = Ok r' ->
  exists d', r' = JObj d' /\
             (d' = d \/ map fst d' = List.filter kept (map fst d)).
Proof.
  revert d. induction passes as [|[o i] passes IH]; intros d H; simpl in H.
  - injection H as <-. eauto.
  - unbind. unfold scan_record at 1 in H. unfold py_getitem in H. unbind.
    destruct (Dict.get "ExpertId" d) as [x|]; [|discriminate].
    destruct (py_eq o x).
    + destruct (anonymize_work i d) as [d1|] eqn:Ew; [|discriminate].
      apply (rewrite_record_keys i works_list "ExpertId") in Ew.
      destruct (IH d1 H) as (d' & -> & Hd'). exists d'. split; [reflexivity|].
      right. destruct Hd' as [->|Hk]; [exact Ew|].
      rewrite Hk, Ew. apply filter_same.
    + exact (IH d H).
Qed.

(** X7. A run of [anonymize_data] that completes keeps the shape of both
    lists: as many records, in the same positions.  An expert record ends
    with the fields it had minus those of the remove list, in their
    order; a record of the original data ends either unchanged or with
    the fields it had minus those of the remove list.  No record gains a
    field. *)
Theorem anonymize_data_keeps_shape {G : Type} `{RS : RandomSource G}
    (w w' : world G) (experts items : list json) :
  fs w !! expert_file = Some (JList experts) ->
  fs w !! original_file = Some (JList items) ->
  anonymize_data w = (Ok tt, w') ->
  exists outs items',
    fs w' !! experts_cleaned_file = Some (JList outs) /\
    fs w' !! works_cleaned_file = Some (JList items') /\
    length outs = length experts /\
    length items' = length items /\
    (forall j x, experts !! j = Some x ->
       exists e e', x = JObj e /\ outs !! j = Some (JObj e') /\
                    map fst e' = List.filter kept (map fst e)) /\
    (forall k d, items !! k = Some (JObj d) ->
       exists d', items' !! k = Some (JObj d') /\
                  (d' = d \/ map fst d' = List.filter kept (map fst d))).
Proof.
  intros He Hd Hrun.
  destruct (anonymize_data_ok w w' experts He Hrun)
    as (data & passes & outs & data' & fk' & Hd' & Hg & Ht & ->).
  assert (data = JList items) as -> by congruence.
  destruct (run_trace_records _ _ _ _ _ Ht) as (items' & -> & HF).
  exists outs, items'. split; [apply lookup_insert_eq|].
  split; [rewrite lookup_insert_ne by exact cleaned_files_differ;
          apply lookup_insert_eq|].
  assert (Hpass : forall j x, experts !! j = Some x ->
            exists e e', x = JObj e /\ outs !! j = Some (JObj e') /\
                         map fst e' = List.filter kept (map fst e)).
  { intros j x Hj.
    destruct (run_trace_expert _ _ _ _ _ _ _ Ht Hj)
      as (e & o & i & e' & -> & _ & _ & Hf & Hout).
    exists e, e'. repeat split; [exact Hout|].
    exact (rewrite_record_keys i name_list "Id" e e' Hf). }
  split; [|split; [symmetry; exact (Forall2_length _ _ _ HF)|split; [exact Hpass|]]].
  - apply Nat.le_antisymm.
    + destruct (Nat.le_gt_cases (length outs) (length experts)) as [|Hlt]; [assumption|].
      destruct (lookup_lt_is_Some_2 outs (length experts) Hlt) as [x' Hx'].
      destruct (run_trace_out _ _ _ _ _ _ _ Ht Hx') as (e & _ & _ & _ & Hj & _).
      apply lookup_lt_Some in Hj. lia.
    + destruct (Nat.le_gt_cases (length experts) (length outs)) as [|Hlt]; [assumption|].
      destruct (lookup_lt_is_Some_2 experts (length outs) Hlt) as [x Hx].
      destruct (Hpass _ _ Hx) as (e & e' & _ & Hout & _).
      apply lookup_lt_Some in Hout. lia.
  - intros k d Hk.
    destruct (Forall2_lookup_l _ _ _ _ _ HF Hk) as (r' & Hk' & Hscan).
    destruct (scan_passes_keys _ _ _ Hscan) as (d' & -> & Hkeys).
    exists d'. auto.
Qed.

Lemma anonymize_data_keeps_shape_witness :
  exists outs items',
    fs (snd (anonymize_data bob_world)) !! experts_cleaned_file = Some (JList outs) /\
    fs (snd (anonymize_data bob_world)) !! works_cleaned_file = Some (JList items') /\
    length outs = length [JObj bob] /\
    length items' = length [JObj bobs_paper; JObj carls_paper] /\
    (forall j x, [JObj bob] !! j = Some x ->
       exists e e', x = JObj e /\ outs !! j = Some (JObj e') /\
                    map fst e' = List.filter kept (map fst e)) /\
    (forall k d, [JObj bobs_paper; JObj carls_paper] !! k = Some (JObj d) ->
       exists d', items' !! k = Some (JObj d') /\
                  (d' = d \/ map fst d' = List.filter kept (map fst d))).
Proof.
  apply (anonymize_data_keeps_shape bob_world _ [JObj bob]
           [JObj bobs_paper; JObj carls_paper]).
  - vm_compute; reflexivity.
  - vm_compute; reflexivity.
  - vm_compute; reflexivity.
Defined.

(** ** Further properties: fetching and saving in [export.py] *)

(** X8. When both list requests are answered with mappings whose
    [RecordList] is a list or is missing, [get_outputs_and_works] returns
    the works followed by the outputs, a missing [RecordList] counting as
    empty; the query carries the given limit, or [DEFAULT_LIMIT] when the
    limit is absent or 0; no file is touched. *)
Theorem outputs_and_works_are_works_then_outputs {G : Type}
    (http_get : string -> dict -> response) (config : Config)
    (limit : option Z) (w : world G) (od wd : dict) (outs wks : list json) :
  http_get SINEQUA_OUTPUTS_URL [("Limit", JInt (effective_limit config limit))]
    = Body (JObj od) ->
  http_get SINEQUA_WORKS_URL [("Limit", JInt (effective_limit config limit))]
    = Body (JObj wd) ->
  records_of od = Some outs ->
  records_of wd = Some wks ->
  fst (get_outputs_and_works http_get config limit w) = Ok (JList (wks ++ outs)) /\
  fs (snd (get_outputs_and_works http_get config limit w)) = fs w.
Proof.
  intros Ho Hw Hro Hrw. unfold get_outputs_and_works.
  fold (effective_limit config limit).
  unfold bindM, logM, _make_request, liftM, retM. cbn [fs rng log].
  rewrite Ho, Hw. unfold py_get_or_empty, records_of in *.
  destruct (Dict.get "RecordList" od) as [[| | | |lo|]|]; try discriminate;
    destruct (Dict.get "RecordList" wd) as [[| | | |lw|]|]; try discriminate;
    injection Hro as <-; injection Hrw as <-; split; reflexivity.
Qed.

Lemma outputs_and_works_are_works_then_outputs_witness :
  fst (get_outputs_and_works flaky_api default_config None (world_of []))
    = Ok (JList ([JObj [("ExpertId", JInt 7)]; JObj anns_paper] ++ [])) /\
  fs (snd (get_outputs_and_works flaky_api default_config None (world_of [])))
    = fs (world_of []).
Proof.
  apply (outputs_and_works_are_works_then_outputs flaky_api default_config None
           (world_of []) [("RecordList", JList [])]
           [("RecordList", JList [JObj [("ExpertId", JInt 7)]; JObj anns_paper])]);
    reflexivity.
Defined.

Lemma all_differ_snoc (l : list json) (v : json) :
  all_differ l -> (forall x, In x l -> py_eq x v = false) -> all_differ (l ++ [v]).
Proof.
  induction l as [|x l IH]; simpl; intros Hl Hv.
  - split; [intros y []|exact I].
  - destruct Hl as [Hx Hl]. split.
    + intros y Hy. apply in_app_or in Hy as [Hy|[<-|[]]]; auto.
    + apply IH; auto.
Qed.

Lemma py_eq_refl_hashable (v : json) : hashable v = true -> py_eq v v = true.
Proof. intros H. now apply py_eq_key_of. Qed.

Lemma collect_step (d : dict) (items : list json) (acc : list json) :
  collect_expert_ids (JObj d :: items) acc =
  match Dict.get "ExpertId" d with
  | None | Some JNull => collect_expert_ids items acc
  | Some v => if hashable v then collect_expert_ids items (set_add v acc)
              else Err TypeError
  end.
Proof.
  simpl. unbind. unfold Dict.get_or_none.
  now destruct (Dict.get "ExpertId" d) as [[]|].
Qed.

Lemma set_add_props (v : json) (acc : list json) :
  hashable v = true -> v <> JNull ->
  Forall (fun x => hashable x = true) acc -> all_differ acc -> ~ In JNull acc ->
  Forall (fun x => hashable x = true) (set_add v acc) /\
  all_differ (set_add v acc) /\
  ~ In JNull (set_add v acc) /\
  (forall x, In x acc -> In x (set_add v acc)) /\
  (exists id, In id (set_add v acc) /\ py_eq id v = true) /\
  (forall id, In id (set_add v acc) -> In id acc \/ id = v).
Proof.
  intros Hv Hne Hh Hd Hn. unfold set_add.
  destruct (existsb (fun x => py_eq x v) acc) eqn:E.
  - apply existsb_exists in E as (x & Hx & Hxv).
    repeat split; auto. exists x. auto.
  - assert (Hall : forall x, In x acc -> py_eq x v = false).
    { intros x Hx. destruct (py_eq x v) eqn:Exv; [|reflexivity].
      assert (existsb (fun x => py_eq x v) acc = true); [|congruence].
      apply existsb_exists. eauto. }
    repeat split.
    + apply Forall_app. split; [exact Hh|]. now repeat constructor.
    + now apply all_differ_snoc.
    + intros Hin. apply in_app_or in Hin as [Hin|[Hin|[]]]; [tauto|congruence].
    + intros x Hx. apply in_or_app. now left.
    + exists v. split; [apply in_or_app; right; now left|].
      now apply py_eq_refl_hashable.
    + intros id Hid. apply in_app_or in Hid as [Hid|[Hid|[]]]; auto.
Qed.

Lemma collect_expert_ids_inv (items : list dict) (acc ids : list json) :
  collect_expert_ids (map JObj items) acc = Ok ids ->
  Forall (fun x => hashable x = true) acc -> all_differ acc -> ~ In JNull acc ->
  (all_differ ids /\ ~ In JNull ids) /\
  (forall id, In id ids ->
     In id acc \/ exists d, In d items /\ Dict.get "ExpertId" d = Some id) /\
  (forall x, In x acc -> In x ids) /\
  (forall d x, In d items -> Dict.get "ExpertId" d = Some x -> x <> JNull ->
     exists id, In id ids /\ py_eq id x = true).
Proof.
  revert acc. induction items as [|d items IH]; intros acc H Hh Hd Hn.
  - injection H as <-. repeat split; auto. intros d x [].
  - change (map JObj (d :: items)) with (JObj d :: map JObj items) in H.
    rewrite collect_step in H.
    assert (Hskip : collect_expert_ids (map JObj items) acc = Ok ids ->
              (Dict.get "ExpertId" d = None \/ Dict.get "ExpertId" d = Some JNull) ->
              (all_differ ids /\ ~ In JNull ids) /\
              (forall id, In id ids ->
                 In id acc \/
                 exists d0, In d0 (d :: items) /\ Dict.get "ExpertId" d0 = Some id) /\
              (forall x, In x acc -> In x ids) /\
              (forall d0 x, In d0 (d :: items) -> Dict.get "ExpertId" d0 = Some x ->
                 x <> JNull -> exists id, In id ids /\ py_eq id x = true)).
    { intros H' Hnone. destruct (IH acc H' Hh Hd Hn) as (H1 & H2 & H3 & H4).
      repeat split; try tauto.
      - intros id Hid. destruct (H2 id Hid) as [|(d0 & Hd0 & Hg)]; [now left|].
        right. exists d0. split; [now right|exact Hg].
      - intros d0 x [<-|Hd0] Hg Hx; [destruct Hnone; congruence|]. eauto. }
    destruct (Dict.get "ExpertId" d) as [v|] eqn:Ev; [|now apply Hskip; auto].
    assert (Hadd : v <> JNull -> hashable v = true ->
              collect_expert_ids (map JObj items) (set_add v acc) = Ok ids ->
              (all_differ ids /\ ~ In JNull ids) /\
              (forall id, In id ids ->
                 In id acc \/
                 exists d0, In d0 (d :: items) /\ Dict.get "ExpertId" d0 = Some id) /\
              (forall x, In x acc -> In x ids) /\
              (forall d0 x, In d0 (d :: items) -> Dict.get "ExpertId" d0 = Some x ->
                 x <> JNull -> exists id, In id ids /\ py_eq id x = true)).
    { intros Hne Hv H'.
      destruct (set_add_props v acc Hv Hne Hh Hd Hn) as (A1 & A2 & A3 & A4 & A5 & A6).
      destruct (IH _ H' A1 A2 A3) as (H1 & H2 & H3 & H4).
      repeat split; try tauto.
      - intros id Hid. destruct (H2 id Hid) as [Hin|(d0 & Hd0 & Hg)].
        + destruct (A6 id Hin) as [Hacc|Hv']; [now left|]. subst id.
          right. exists d. split; [now left|exact Ev].
        + right. exists d0. split; [now right|exact Hg].
      - intros x Hx. apply H3, A4, Hx.
      - intros d0 x [<-|Hd0] Hg Hx; [|eauto].
        assert (x = v) as -> by congruence.
        destruct A5 as (id & Hid & Heq). exists id. split; [apply H3, Hid|exact Heq]. }
    destruct v as [|b|n|s|l|o]; try discriminate.
    + apply Hskip; auto.
    + apply Hadd; [discriminate|reflexivity|exact H].
    + apply Hadd; [discriminate|reflexivity|exact H].
    + apply Hadd; [discriminate|reflexivity|exact H].
Qed.



Lemma replace_space_from (t : string) :
  Str.contains " " (Str.replace_from " " "_" t 0) = false.
Proof.
  induction t as [|c t IH]; [reflexivity|].
  cbn [Str.replace_from]. cbn [Str.prefix].
  destruct (Ascii.eqb " " c) eqn:E; cbn [andb String.length Nat.sub].
  - change (Str.contains " " (String "_"%char (Str.replace_from " " "_" t 0)) = false).
    cbn [Str.contains Str.prefix]. rewrite IH. reflexivity.
  - cbn [Str.contains Str.prefix]. rewrite E, IH. reflexivity.
Qed.

(** The title part of a file name has no space. *)
Lemma replace_space (t : string) : Str.contains " " (Str.replace t " " "_") = false.
Proof. apply replace_space_from. Qed.


Section SavingExperts.
Context {G : Type}.
Variable py_str : json -> string.

(** Saving the experts one after the other: a later expert with the same
    file name takes the place of an earlier one. *)
Lemma save_expert_files_ok (experts : list json) (w : world G) :
  Forall (fun x => exists name, expert_file_name py_str x = Ok name) experts ->
  fst (save_expert_files py_str experts w) = Ok tt /\
  rng (snd (save_expert_files py_str experts w)) = rng w /\
  log (snd (save_expert_files py_str experts w)) = log w /\
  forall p, fs (snd (save_expert_files py_str experts w)) !! p =
            with_expert_files py_str experts (fs w) p.
Proof.
  intros H. revert w. induction H as [|x experts [name Hx] Hrest IH]; intros w.
  - repeat split.
  - cbn [save_expert_files]. unfold bindM at 1, liftM at 1. rewrite Hx.
    unfold bindM at 1, save_json at 1.
    destruct (IH (MkWorld (<[String.append EXPERTS_DIR name := x]> (fs w))
                          (rng w) (log w))) as (H1 & H2 & H3 & H4).
    repeat split; [exact H1|exact H2|exact H3|].
    intros p. rewrite H4. unfold with_expert_files. cbn [last_at fs].
    destruct (last_at py_str p experts); [reflexivity|].
    unfold expert_path. rewrite Hx.
    destruct (String.eqb_spec (String.append EXPERTS_DIR name) p) as [<-|Hne].
    + apply lookup_insert_eq.
    + now apply lookup_insert_ne.
Qed.
End SavingExperts.



Example same_name_overwrites :
  map_to_list
    (fs (snd (save_individual_expert_files str_of_id (JList ann_twice) (world_of []))))
  = [("data/experts/1_Ann_Lee.json",
      JObj [("Id", JInt 1); ("Title", JStr "Ann Lee"); ("Email", JStr "second")])].
Proof. vm_compute. reflexivity. Qed.

Lemma index_works_app (good : list dict) (rest : list json)
    (idx : list (json * list json)) :
  Forall work_ok good -> keys_hashable idx ->
  exists idx', index_works (map JObj good ++ rest) idx = index_works rest idx'.
Proof.
  intros Hg. revert idx. induction Hg as [|w good Hw Hgood IH]; intros idx Hidx; simpl.
  - eauto.
  - unbind. unfold work_ok in Hw.
    destruct (truthy (Dict.get_or_none "ExpertId" w)) eqn:Ht.
    + rewrite (Hw eq_refl). apply IH.
      apply index_append_hashable; [now apply Hw|exact Hidx].
    + now apply IH.
Qed.

(** X12. The join stops at the first record of the works file that cannot
    be filed, whatever the experts are: with [AttributeError] when the
    record is no mapping, with [TypeError] when its [ExpertId] is a
    non-empty list or mapping.  An empty list or mapping as [ExpertId] is
    skipped like a missing one. *)
Theorem combine_stops_at_unfilable_work {G : Type} (w : world G)
    (experts_file works_file : string) (experts : json)
    (good : list dict) (bad : json) (rest : list json) :
  fs w !! String.append DATA_DIR experts_file = Some experts ->
  fs w !! String.append DATA_DIR works_file =
    Some (JList (map JObj good ++ bad :: rest)) ->
  Forall work_ok good ->
  cannot_be_filed bad ->
  combine_experts_with_works experts_file works_file w = (Err (filing_error bad), w).
Proof.
  intros He Hw Hgood Hbad.
  unfold combine_experts_with_works, bindM, load_json, liftM.
  rewrite He, Hw. unfold combine_loaded. simpl. unbind.
  destruct (index_works_app good (bad :: rest) [] Hgood) as [idx' ->]; [constructor|].
  simpl. unbind.
  destruct bad as [| | | | |d]; try reflexivity.
  simpl in Hbad. destruct Hbad as [Ht Hh]. simpl. now rewrite Ht, Hh.
Qed.

Lemma combine_stops_at_unfilable_work_witness :
  combine_experts_with_works "experts.json" "works.json" listy_world =
    (Err (filing_error (JObj [("ExpertId", JList [JInt 1])])), listy_world).
Proof.
  apply (combine_stops_at_unfilable_work listy_world "experts.json" "works.json"
           (JList [JObj ann]) [anns_paper]
           (JObj [("ExpertId", JList [JInt 1])]) [JObj stray_paper]).
  - vm_compute; reflexivity.
  - vm_compute; reflexivity.
  - repeat constructor.
  - split; reflexivity.
Defined.

(** ** Further properties: the stages of [run] *)

Section Stages.
Context {G : Type}.

Lemma bindM_inv {A B} (m : M G A) (k : A -> M G B) (w w' : world G) (b : B) :
  bindM m k w = (Ok b, w') ->
  exists a w1, m w = (Ok a, w1) /\ k a w1 = (Ok b, w').
Proof.
  unfold bindM. destruct (m w) as [[a|e] w1]; [eauto|discriminate].
Qed.

Lemma fs_kept_bind {A B} (m : M G A) (k : A -> M G B) :
  fs_kept m -> (forall a, fs_kept (k a)) -> fs_kept (bindM m k).
Proof.
  intros Hm Hk w. unfold bindM. specialize (Hm w).
  destruct (m w) as [[a|e] w1]; simpl in *; [|exact Hm]. now rewrite Hk.
Qed.

Lemma fs_kept_catch {A} (m : M G A) (h : exn -> M G A) :
  fs_kept m -> (forall e, fs_kept (h e)) -> fs_kept (catchM m h).
Proof.
  intros Hm Hh w. unfold catchM. specialize (Hm w).
  destruct (m w) as [[a|e] w1]; simpl in *; [exact Hm|]. now rewrite Hh.
Qed.

Lemma fs_kept_ret {A} (a : A) : fs_kept (retM (G := G) a).
Proof. now intros w. Qed.

Lemma fs_kept_raise {A} (e : exn) : fs_kept (raiseM (G := G) (A := A) e).
Proof. now intros w. Qed.

Lemma fs_kept_lift {A} (r : result A) : fs_kept (liftM (G := G) r).
Proof. now intros w. Qed.

Lemma fs_kept_log (entry : log_entry) : fs_kept (logM (G := G) entry).
Proof. now intros w. Qed.

Variable http_get : string -> dict -> response.
Variable set_order : list json -> list json.
Variable config : Config.

Lemma fs_kept_request (url : string) (params : dict) :
  fs_kept (_make_request (G := G) http_get url params).
Proof.
  unfold _make_request. destruct (http_get url params);
    try apply fs_kept_ret;
    (apply fs_kept_bind; [apply fs_kept_log|intros _; apply fs_kept_raise]).
Qed.

Lemma fs_kept_outputs_and_works (limit : option Z) :
  fs_kept (get_outputs_and_works (G := G) http_get config limit).
Proof.
  unfold get_outputs_and_works.
  repeat first [ apply fs_kept_log | apply fs_kept_lift | apply fs_kept_request
               | apply fs_kept_bind; [|intros ?] ].
Qed.

Lemma fs_kept_profile (expert_id : json) :
  fs_kept (get_expert_profile (G := G) http_get expert_id).
Proof.
  unfold get_expert_profile. apply fs_kept_catch.
  - apply fs_kept_bind; [apply fs_kept_request|intros v].
    apply fs_kept_bind; [apply fs_kept_lift|intros records].
    destruct (truthy records); [apply fs_kept_lift|].
    apply fs_kept_bind; [apply fs_kept_log|intros _; apply fs_kept_ret].
  - intros e. apply fs_kept_bind; [apply fs_kept_log|intros _; apply fs_kept_ret].
Qed.

Lemma fs_kept_profiles (expert_ids experts : list json) :
  fs_kept (fetch_profiles (G := G) http_get expert_ids experts).
Proof.
  revert experts. induction expert_ids as [|x ids IH]; intros experts; simpl.
  - apply fs_kept_ret.
  - apply fs_kept_bind; [apply fs_kept_profile|intros p; apply IH].
Qed.

Lemma fs_kept_experts (outputs_and_works : json) :
  fs_kept (get_experts (G := G) http_get set_order outputs_and_works).
Proof.
  unfold get_experts.
  apply fs_kept_bind; [apply fs_kept_lift|intros items].
  apply fs_kept_bind; [apply fs_kept_lift|intros ids].
  apply fs_kept_bind; [apply fs_kept_log|intros _].
  apply fs_kept_bind; [apply fs_kept_profiles|intros experts].
  apply fs_kept_bind; [apply fs_kept_log|intros _; apply fs_kept_ret].
Qed.

(** What [get_experts] returns is a list of truthy profiles, and it only
    returns when [outputs_and_works] can be gone through. *)
Lemma get_experts_ok (outputs_and_works experts : json) (w w' : world G) :
  get_experts http_get set_order outputs_and_works w = (Ok experts, w') ->
  (exists items, py_iter outputs_and_works = Ok items) /\
  exists l, experts = JList l /\ Forall (fun x => truthy x = true) l.
Proof.
  unfold get_experts. intros H.
  apply bindM_inv in H as (items & w1 & H1 & H).
  apply bindM_inv in H as (ids & w2 & H2 & H).
  apply bindM_inv in H as ([] & w3 & H3 & H).
  apply bindM_inv in H as (l & w4 & H4 & H).
  apply bindM_inv in H as ([] & w5 & H5 & H).
  injection H as <- <-.
  split.
  - exists items. unfold liftM in H1. now injection H1 as ->.
  - exists l. split; [reflexivity|].
    pose proof (fetch_profiles_value http_get (set_order ids) [] w3) as Hv.
    rewrite H4 in Hv. simpl in Hv. injection Hv as ->.
    apply Forall_forall. intros x Hx. apply list_elem_of_In, filter_In in Hx. tauto.
Qed.

Lemma save_initial_data_any (outputs_and_works experts : json) (items : list json)
    (w : world G) :
  py_iter outputs_and_works = Ok items ->
  save_initial_data outputs_and_works experts w =
    (Ok tt,
     MkWorld (<["data/experts.json" := experts]>
                (<["data/original_data.json" := outputs_and_works]>
                   (<["data/works.json" := JList []]>
                      (<["data/outputs.json" := JList []]> (fs w)))))
             (rng w) (log w)).
Proof.
  intros Hi. unfold save_initial_data, bindM, liftM, save_json. rewrite Hi. simpl.
  rewrite !filter_nothing by (intros x; apply type_name_never_matches).
  reflexivity.
Qed.

Lemma export_raw_data_ok (outputs_and_works experts : json) (w w' : world G) :
  export_raw_data http_get set_order config w = (Ok (outputs_and_works, experts), w') ->
  fs w' = <["data/experts.json" := experts]>
            (<["data/original_data.json" := outputs_and_works]>
               (<["data/works.json" := JList []]>
                  (<["data/outputs.json" := JList []]> (fs w)))) /\
  exists l, experts = JList l /\ Forall (fun x => truthy x = true) l.
Proof.
  unfold export_raw_data. intros H.
  apply bindM_inv in H as ([] & w1 & H1 & H).
  apply bindM_inv in H as (oaw & w2 & H2 & H).
  apply bindM_inv in H as (ex & w3 & H3 & H).
  apply bindM_inv in H as ([] & w4 & H4 & H).
  apply bindM_inv in H as ([] & w5 & H5 & H).
  injection H as <- <- <-.
  pose proof (fs_kept_log (LogInfo "Starting raw data export...") w) as K1.
  rewrite H1 in K1. simpl in K1.
  pose proof (fs_kept_outputs_and_works None w1) as K2. rewrite H2 in K2. simpl in K2.
  pose proof (fs_kept_experts oaw w2) as K3. rewrite H3 in K3. simpl in K3.
  destruct (get_experts_ok _ _ _ _ H3) as ([items Hi] & Hl).
  rewrite (save_initial_data_any _ _ items _ Hi) in H4. injection H4 as <-.
  pose proof (fs_kept_log (LogInfo "Raw data export completed successfully")
                (MkWorld (<["data/experts.json" := ex]>
                            (<["data/original_data.json" := oaw]>
                               (<["data/works.json" := JList []]>
                                  (<["data/outputs.json" := JList []]> (fs w3)))))
                         (rng w3) (log w3))) as K5.
  rewrite H5 in K5. simpl in K5.
  split; [|exact Hl]. rewrite K5. congruence.
Qed.
End Stages.

(** X13. When [export_raw_data] completes, the two documents it returns
    are the ones it has written to [original_data.json] and
    [experts.json]; [outputs.json] and [works.json] hold empty lists; no
    other file has changed; and the experts are a list of truthy profiles
    (a lookup that came back with [None] or an empty profile is not in it). *)
Theorem export_raw_data_saves_what_it_returns {G : Type}
    (http_get : string -> dict -> response) (set_order : list json -> list json)
    (config : Config) (w w' : world G) (outputs_and_works experts : json) :
  export_raw_data http_get set_order config w = (Ok (outputs_and_works, experts), w') ->
  fs w' !! "data/original_data.json" = Some outputs_and_works /\
  fs w' !! "data/experts.json" = Some experts /\
  fs w' !! "data/outputs.json" = Some (JList []) /\
  fs w' !! "data/works.json" = Some (JList []) /\
  (forall p, p <> "data/original_data.json" -> p <> "data/experts.json" ->
             p <> "data/outputs.json" -> p <> "data/works.json" ->
             fs w' !! p = fs w !! p) /\
  exists l, experts = JList l /\ Forall (fun x => truthy x = true) l.
Proof.
  intros H. destruct (export_raw_data_ok http_get set_order config _ _ _ _ H) as [-> Hl].
  split; [now rewrite !lookup_insert_ne, lookup_insert_eq by discriminate|].
  split; [apply lookup_insert_eq|].
  split; [now rewrite !lookup_insert_ne, lookup_insert_eq by discriminate|].
  split; [now rewrite !lookup_insert_ne, lookup_insert_eq by discriminate|].
  split; [|exact Hl].
  intros p H1 H2 H3 H4. now rewrite !lookup_insert_ne by congruence.
Qed.

Lemma export_raw_data_saves_what_it_returns_witness :
  let w' := snd (export_raw_data flaky_api same_order default_config (world_of [])) in
  fs w' !! "data/original_data.json" =
    Some (JList [JObj [("ExpertId", JInt 7)]; JObj anns_paper]) /\
  fs w' !! "data/experts.json" = Some (JList [JObj ann]) /\
  fs w' !! "data/outputs.json" = Some (JList []) /\
  fs w' !! "data/works.json" = Some (JList []) /\
  (forall p, p <> "data/original_data.json" -> p <> "data/experts.json" ->
             p <> "data/outputs.json" -> p <> "data/works.json" ->
             fs w' !! p = fs (world_of []) !! p) /\
  exists l, JList [JObj ann] = JList l /\ Forall (fun x => truthy x = true) l.
Proof.
  apply (export_raw_data_saves_what_it_returns flaky_api same_order default_config
           (world_of [])).
  vm_compute. reflexivity.
Defined.

(** ** Further properties: the experts directory after a run *)

Lemma under_experts_dir_fresh (p : string) :
  is_under EXPERTS_DIR p = true ->
  p <> "data/experts.json" /\ p <> "data/original_data.json" /\
  p <> "data/works.json" /\ p <> "data/outputs.json" /\
  p <> "data/experts_cleaned.json" /\ p <> "data/works_cleaned.json" /\
  p <> "data/experts_with_works.json".
Proof.
  intros H. repeat split; intros ->; vm_compute in H; discriminate.
Qed.

Section AfterRun.
Context {G : Type} `{RS : RandomSource G}.
Variable http_get : string -> dict -> response.
Variable set_order : list json -> list json.
Variable py_str : json -> string.
Variable config : Config.

Lemma ensure_directories_empties (w : world G) :
  no_expert_files (snd (ensure_directories w)).
Proof.
  intros p Hp. unfold ensure_directories. cbn [snd fs].
  apply map_lookup_filter_None. right. intros x _. cbn [fst]. now rewrite Hp.
Qed.

Lemma anonymize_data_files (w w' : world G) :
  anonymize_data w = (Ok tt, w') ->
  exists data' experts',
    fs w' = <[experts_cleaned_file := experts']>
              (<[works_cleaned_file := data']> (fs w)).
Proof.
  unfold anonymize_data.
  destruct (fs w !! original_file); [|discriminate].
  destruct (fs w !! expert_file); [|discriminate].
  destruct (anonymize_loaded _ _ _) as [[[data' experts'] g']|e]; [|discriminate].
  intros [= <-]. now exists data', experts'.
Qed.

Lemma fs_kept_load (filepath : string) : fs_kept (load_json (G := G) filepath).
Proof. intros w. unfold load_json. now destruct (fs w !! filepath). Qed.

Lemma fs_kept_combine (experts_file works_file : string) :
  fs_kept (combine_experts_with_works (G := G) experts_file works_file).
Proof.
  unfold combine_experts_with_works.
  apply fs_kept_bind; [apply fs_kept_load|intros experts].
  apply fs_kept_bind; [apply fs_kept_load|intros works]. apply fs_kept_lift.
Qed.

Lemma fs_kept_check (experts : json) :
  fs_kept (check_experts_without_works (G := G) experts).
Proof.
  unfold check_experts_without_works.
  apply fs_kept_bind; [apply fs_kept_lift|intros items].
  apply fs_kept_bind; [apply fs_kept_lift|intros [|x l]]; apply fs_kept_log.
Qed.

Lemma save_expert_files_named (experts : list json) (w w' : world G) :
  save_expert_files py_str experts w = (Ok tt, w') ->
  Forall (fun x => exists name, expert_file_name py_str x = Ok name) experts.
Proof.
  revert w. induction experts as [|x experts IH]; intros w H; [constructor|].
  cbn [save_expert_files] in H.
  apply bindM_inv in H as (name & w1 & H1 & H).
  apply bindM_inv in H as ([] & w2 & H2 & H).
  constructor; [|exact (IH _ H)].
  exists name. unfold liftM in H1. now injection H1 as -> _.
Qed.

Lemma stage_fs {A} (m : M G A) (w w' : world G) (a : A) :
  fs_kept m -> m w = (Ok a, w') -> fs w' = fs w.
Proof. intros K H. specialize (K w). now rewrite H in K. Qed.

Lemma process_expert_files (w w' : world G) :
  process_and_save_final_data py_str config w = (Ok tt, w') ->
  no_expert_files w ->
  exists experts_with_works items,
    fs w' !! "data/experts_with_works.json" = Some experts_with_works /\
    py_iter experts_with_works = Ok items /\
    forall p, is_under EXPERTS_DIR p = true -> fs w' !! p = last_at py_str p items.
Proof.
  unfold process_and_save_final_data. intros H Hnone.
  apply bindM_inv in H as ([] & w1 & H1 & H).
  apply bindM_inv in H as (files & w2 & H2 & H).
  apply bindM_inv in H as (ew & w3 & H3 & H).
  apply bindM_inv in H as ([] & w4 & H4 & H).
  pose proof (after_combine_keeps py_str ew w4) as Hkeep. rewrite H in Hkeep.
  cbn [snd] in Hkeep.
  apply bindM_inv in H as ([] & w5 & H5 & H).
  apply bindM_inv in H as ([] & w6 & H6 & H).
  unfold save_individual_expert_files in H5.
  apply bindM_inv in H5 as (items & w4' & Hi & H5).
  apply bindM_inv in H5 as ([] & w4'' & Hs & H5).
  unfold liftM in Hi.
  assert (Hiter : py_iter ew = Ok items /\ w4' = w4).
  { destruct (py_iter ew); [|discriminate]. now injection Hi as -> ->. }
  destruct Hiter as [Hiter ->].
  (* the files before the experts are saved one by one *)
  assert (Hbefore : forall p, is_under EXPERTS_DIR p = true -> fs w4 !! p = None).
  { intros p Hp.
    destruct (under_experts_dir_fresh p Hp) as (_ & _ & _ & _ & P5 & P6 & P7).
    unfold save_json in H4. injection H4 as <-. cbn [fs].
    rewrite lookup_insert_ne by (unfold DATA_DIR; cbv [String.append]; congruence).
    rewrite (stage_fs _ _ _ _ (fs_kept_combine _ _) H3).
    assert (E2 : fs w2 !! p = fs w1 !! p).
    { destruct (SHOULD_ANONYMIZE config).
      - apply bindM_inv in H2 as ([] & v1 & L1 & H2).
        apply bindM_inv in H2 as ([] & v2 & L2 & H2).
        injection H2 as _ <-.
        destruct (anonymize_data_files _ _ L2) as (d' & e' & ->).
        unfold experts_cleaned_file, works_cleaned_file.
        rewrite !lookup_insert_ne by congruence.
        now rewrite (stage_fs _ _ _ _ (fs_kept_log _) L1).
      - now injection H2 as _ <-. }
    rewrite E2, (stage_fs _ _ _ _ (fs_kept_log _) H1). now apply Hnone. }
  exists ew, items. split; [|split; [exact Hiter|]].
  - rewrite Hkeep. unfold save_json in H4. injection H4 as <-. apply lookup_insert_eq.
  - intros p Hp.
    rewrite (stage_fs _ _ _ _ (fs_kept_log _) H).
    rewrite (stage_fs _ _ _ _ (fs_kept_check _) H6).
    rewrite (stage_fs _ _ _ _ (fs_kept_log _) H5).
    destruct (save_expert_files_ok py_str items w4 (save_expert_files_named _ _ _ Hs))
      as (_ & _ & _ & Hfs).
    rewrite Hs in Hfs. cbn [snd] in Hfs. rewrite Hfs. unfold with_expert_files.
    destruct (last_at py_str p items); [reflexivity|]. now apply Hbefore.
Qed.

Lemma run_expert_files (w w' : world G) :
  run http_get set_order py_str config w = (Ok tt, w') ->
  exists experts_with_works items,
    fs w' !! "data/experts_with_works.json" = Some experts_with_works /\
    py_iter experts_with_works = Ok items /\
    forall p, is_under EXPERTS_DIR p = true -> fs w' !! p = last_at py_str p items.
Proof.
  unfold run, catchM. intros H.
  match type of H with context [bindM ?m ?k w] =>
    destruct (bindM m k w) as [[[]|e] w0] eqn:E end.
  2:{ unfold bindM, logM, raiseM in H. discriminate. }
  injection H as ->.
  apply bindM_inv in E as ([] & w1 & H1 & E).
  apply bindM_inv in E as (raw & w2 & H2 & E).
  apply bindM_inv in E as ([] & w3 & H3 & E).
  destruct (process_expert_files w2 w3 H3) as (ew & items & F1 & F2 & F3).
  - intros p Hp. destruct raw as [oaw ex].
    destruct (export_raw_data_ok _ _ _ _ _ _ _ H2) as [-> _].
    destruct (under_experts_dir_fresh p Hp) as (P1 & P2 & P3 & P4 & _).
    rewrite !lookup_insert_ne by congruence.
    pose proof (ensure_directories_empties w p Hp) as Hn.
    now rewrite H1 in Hn.
  - exists ew, items. rewrite (stage_fs _ _ _ _ (fs_kept_log _) E). auto.
Qed.
End AfterRun.



(** ** Further properties: the environment check *)

Lemma unset_spec (environ : gmap string string) (var : string) :
  unset environ var = true <->
  environ !! var = None \/ environ !! var = Some EmptyString.
Proof.
  unfold unset. destruct (environ !! var) as [value|]; [|tauto].
  destruct (String.eqb_spec value EmptyString) as [->|Hne]; split.
  - now right.
  - reflexivity.
  - discriminate.
  - intros [H|H]; [discriminate|congruence].
Qed.

Lemma filter_sublist {A} (f : A -> bool) (l : list A) :
  sublist (List.filter f l) l.
Proof.
  induction l as [|x l IH]; simpl; [constructor|].
  destruct (f x); [now apply sublist_skip|now apply sublist_cons].
Qed.

(** X15. [validate_environment] of each of the three configuration
    classes passes exactly when every required variable is set to a
    non-empty value.  Otherwise its [ValueError] lists, in the order of
    [required_vars], the required variables that are unset or set to the
    empty string, and no other. *)
Theorem validate_environment_outcome (cls : config_class)
    (environ : gmap string string) :
  match validate_environment cls environ with
  | inr _ =>
      forall var, In var (required_vars cls) ->
        exists value, environ !! var = Some value /\ value <> EmptyString
  | inl (ValueError missing_vars) =>
      missing_vars <> [] /\
      sublist missing_vars (required_vars cls) /\
      forall var, In var missing_vars <->
        In var (required_vars cls) /\
        (environ !! var = None \/ environ !! var = Some EmptyString)
  end.
Proof.
  unfold validate_environment.
  destruct (List.filter (unset environ) (required_vars cls)) as [|v l] eqn:E.
  - intros var Hin.
    destruct (unset environ var) eqn:U.
    + assert (H : In var (List.filter (unset environ) (required_vars cls)))
        by (apply filter_In; auto).
      rewrite E in H. destruct H.
    + unfold unset in U. destruct (environ !! var) as [value|]; [|discriminate].
      exists value. split; [reflexivity|]. intros ->. discriminate.
  - rewrite <- E. split; [rewrite E; discriminate|].
    split; [apply filter_sublist|].
    intros var. rewrite filter_In, unset_spec. tauto.
Qed.

(** ** Further properties: pacing of the extraction *)

Section Pacing.
Import BuildGraph.
Context {file doc : Type}.
Variable glob : string -> option (list file).
Variable load_data : file -> error + list doc.
Variable extract : list doc -> doc -> option error.

Lemma load_files_value (json_files : list file) (documents : list doc)
    (m m' : machine doc) :
  fst (load_files load_data json_files documents m) =
  fst (load_files load_data json_files documents m').
Proof.
  revert documents m m'. induction json_files as [|f rest IH]; intros; simpl;
    [reflexivity|].
  destruct (load_data f); [reflexivity|apply IH].
Qed.

Lemma load_files_machine (json_files : list file) (documents : list doc)
    (m : machine doc) :
  extracted (snd (load_files load_data json_files documents m)) = extracted m /\
  slept (snd (load_files load_data json_files documents m)) = slept m.
Proof.
  revert documents m. induction json_files as [|f rest IH]; intros; simpl;
    [now split|].
  destruct (load_data f); [now split|].
  destruct (IH (documents ++ l) (note (LogInfo "Loaded documents") m)) as [-> ->].
  now split.
Qed.

Lemma load_json_documents_value (json_dir : string) (m m' : machine doc) :
  fst (_load_json_documents glob load_data json_dir m) =
  fst (_load_json_documents glob load_data json_dir m').
Proof.
  unfold _load_json_documents. destruct (glob json_dir) as [[|f l]|];
    try reflexivity. apply load_files_value.
Qed.

Lemma load_json_documents_machine (json_dir : string) (m : machine doc) :
  extracted (snd (_load_json_documents glob load_data json_dir m)) = extracted m /\
  slept (snd (_load_json_documents glob load_data json_dir m)) = slept m.
Proof.
  unfold _load_json_documents. destruct (glob json_dir) as [[|f l]|];
    try (now split).
  destruct (load_files_machine (f :: l) [] (note (LogInfo "Found JSON files") m))
    as [-> ->]. now split.
Qed.

Lemma extract_each_spec (documents : list doc) (i total : nat) (m : machine doc) :
  (i + length documents = S total)%nat ->
  exists done,
    extracted (snd (extract_each extract documents i total m)) = extracted m ++ done /\
    match fst (extract_each extract documents i total m) with
    | None =>
        done = documents /\
        slept (snd (extract_each extract documents i total m)) =
          slept m + SLEEP_DURATION * Z.of_nat (length documents - 1)
    | Some e =>
        slept (snd (extract_each extract documents i total m)) =
          slept m + SLEEP_DURATION * Z.of_nat (length done) /\
        exists document rest,
          documents = done ++ document :: rest /\
          extract (extracted m ++ done) document = Some e
    end.
Proof.
  revert i m. induction documents as [|d rest IH]; intros i m Hlen.
  - exists []. simpl. rewrite app_nil_r. split; [reflexivity|]. split; [reflexivity|lia].
  - cbn [extract_each]. cbn [note extracted slept logged].
    destruct (extract (extracted m) d) as [e|] eqn:Ex.
    + exists []. cbn [fst snd extracted slept length]. rewrite app_nil_r.
      split; [reflexivity|]. split; [simpl; lia|]. exists d, rest. now split.
    + cbn [length] in Hlen.
      match goal with |- context [extract_each extract rest (S i) total ?m3] =>
        destruct (IH (S i) m3 ltac:(lia)) as (done & Hext & Hres);
        assert (Hm3 : extracted m3 = extracted m ++ [d] /\
                      slept m3 = slept m +
                        (if Nat.ltb i total then SLEEP_DURATION else 0))
          by (destruct (Nat.ltb i total); simpl; split; auto; lia);
        destruct Hm3 as [He3 Hs3]
      end.
      exists (d :: done). rewrite Hext, He3, <- app_assoc. split; [reflexivity|].
      destruct (fst (extract_each extract rest (S i) total _)) as [e|].
      * destruct Hres as (Hsl & document & tail & Hrest & Hfail).
        rewrite Hsl, Hs3. split.
        -- assert (Hlt : Nat.ltb i total = true).
           { apply Nat.ltb_lt. rewrite Hrest, length_app in Hlen. simpl in Hlen. lia. }
           rewrite Hlt. cbn [length]. lia.
        -- exists document, tail. split; [now rewrite Hrest|].
           rewrite He3, <- app_assoc in Hfail. exact Hfail.
      * destruct Hres as [-> Hsl]. split; [reflexivity|].
        rewrite Hsl, Hs3. clear - Hlen. unfold SLEEP_DURATION.
        destruct (Nat.ltb_spec i total) as [Hlt|Hge];
          destruct rest; cbn [length] in *; lia.
Qed.
End Pacing.


(** ** Further properties: questions and answers *)

Lemma set_keys_new (k : string) (v : json) (d : dict) :
  Dict.mem k d = false -> map fst (Dict.set k v d) = map fst d ++ [k].
Proof.
  unfold Dict.mem. induction d as [|[k' v'] d IH]; simpl; [reflexivity|].
  destruct (String.eqb k' k); simpl; [discriminate|]. intros H. now rewrite IH.
Qed.

Lemma mem_keys (k : string) (d : dict) :
  Dict.mem k d = true <-> In k (map fst d).
Proof.
  unfold Dict.mem. induction d as [|[k' v'] d IH]; simpl.
  - split; [discriminate|tauto].
  - destruct (String.eqb_spec k' k) as [->|Hne].
    + split; auto.
    + rewrite IH. split; [now right|]. intros [E|H]; [congruence|exact H].
Qed.

Lemma NoDup_snoc {A} (l : list A) (x : A) :
  List.NoDup l -> ~ In x l -> List.NoDup (l ++ [x]).
Proof.
  induction 1 as [|y l Hy Hl IH]; intros Hx; simpl.
  - constructor; [intros []|constructor].
  - constructor.
    + rewrite in_app_iff. simpl. intros [H|[->|[]]]; [now apply Hy|].
      apply Hx. now left.
    + apply IH. intros H. apply Hx. now right.
Qed.

Lemma set_keys_cases (k : string) (v : json) (d : dict) :
  (List.NoDup (map fst d) -> List.NoDup (map fst (Dict.set k v d))) /\
  forall k', In k' (map fst (Dict.set k v d)) <-> k' = k \/ In k' (map fst d).
Proof.
  destruct (Dict.mem k d) eqn:E.
  - rewrite set_keys by exact E. split; [tauto|].
    intros k'. apply mem_keys in E. split; [now right|].
    intros [->|H]; [exact E|exact H].
  - rewrite set_keys_new by exact E. split.
    + intros Hnd. apply NoDup_snoc; [exact Hnd|].
      intros Hin. apply mem_keys in Hin. congruence.
    + intros k'. rewrite in_app_iff. simpl. split.
      * intros [H|[->|[]]]; auto.
      * intros [->|H]; auto.
Qed.

Section Asking.
Import Retrieve.
Variable isspace : ascii -> bool.
Variable engine : list string -> string -> engine_response.

Lemma query_value (question : string) (s : session) :
  fst (query isspace engine question s) = answer isspace engine question (asked s) /\
  asked (snd (query isspace engine question s)) =
    asked s ++ put_to_engine isspace [question].
Proof.
  unfold query, answer, put_to_engine. cbn [List.filter].
  destruct (blank isspace question); cbn [negb fst snd asked].
  - now rewrite app_nil_r.
  - now destruct (engine (asked s) question).
Qed.

Lemma put_to_engine_app (l l' : list string) :
  put_to_engine isspace (l ++ l') = put_to_engine isspace l ++ put_to_engine isspace l'.
Proof. unfold put_to_engine. apply List.filter_app. Qed.

Lemma ask_all_app (pre post : list string) (results : dict) (s : session) :
  ask_all isspace engine (pre ++ post) results s =
  ask_all isspace engine post
    (fst (ask_all isspace engine pre results s))
    (snd (ask_all isspace engine pre results s)).
Proof.
  revert results s. induction pre as [|q pre IH]; intros results s; [reflexivity|].
  cbn [app ask_all].
  destruct (query isspace engine q _) as [a s2]. apply IH.
Qed.

Lemma ask_all_asked (questions : list string) (results : dict) (s : session) :
  asked (snd (ask_all isspace engine questions results s)) =
  asked s ++ put_to_engine isspace questions.
Proof.
  revert results s. induction questions as [|q rest IH]; intros results s.
  - simpl. now rewrite app_nil_r.
  - cbn [ask_all].
    pose proof (query_value q
      (MkSession (asked s) (logged s ++ [LogInfo "Processing question"]))) as [_ Hq].
    destruct (query isspace engine q _) as [a s2]. cbn [snd asked] in Hq.
    rewrite IH, Hq. change (q :: rest) with ([q] ++ rest).
    now rewrite put_to_engine_app, app_assoc.
Qed.

Lemma ask_all_keys (questions : list string) (results : dict) (s : session) :
  (List.NoDup (map fst results) ->
   List.NoDup (map fst (fst (ask_all isspace engine questions results s)))) /\
  forall k, In k (map fst (fst (ask_all isspace engine questions results s))) <->
            In k (map fst results) \/ In k questions.
Proof.
  revert results s. induction questions as [|q rest IH]; intros results s.
  - simpl. split; [tauto|]. intros k. tauto.
  - cbn [ask_all]. destruct (query isspace engine q _) as [a s2].
    destruct (IH (Dict.set q a results) s2) as [Hnd Hin].
    destruct (set_keys_cases q a results) as [Hnd' Hin'].
    split; [tauto|].
    intros k. rewrite Hin, Hin'. simpl. intuition congruence.
Qed.

Lemma ask_all_other (questions : list string) (results : dict) (s : session)
    (k : string) :
  ~ In k questions ->
  Dict.get k (fst (ask_all isspace engine questions results s)) = Dict.get k results.
Proof.
  revert results s. induction questions as [|q rest IH]; intros results s Hk;
    [reflexivity|].
  cbn [ask_all]. destruct (query isspace engine q _) as [a s2].
  rewrite IH by (intros H; apply Hk; now right).
  apply get_set_ne. apply String.eqb_neq. intros ->. apply Hk. now left.
Qed.
End Asking.

(** X17. [batch_query] puts every question that is not blank to the
    engine, in order and as often as it occurs, and no blank one.  The
    dictionary it returns has one entry for each distinct question, and
    the entry of a question that occurs more than once holds the answer
    to its last occurrence. *)
Theorem batch_query_outcome (isspace : ascii -> bool)
    (engine : list string -> string -> Retrieve.engine_response)
    (pre post : list string) (question : string) (s : Retrieve.session) :
  ~ In question post ->
  let questions := pre ++ question :: post in
  let r := Retrieve.batch_query isspace engine questions s in
  Retrieve.asked (snd r) =
    Retrieve.asked s ++ Retrieve.put_to_engine isspace questions /\
  List.NoDup (map fst (fst r)) /\
  (forall k, In k (map fst (fst r)) <-> In k questions) /\
  Dict.get question (fst r) =
    Some (Retrieve.answer isspace engine question
            (Retrieve.asked s ++ Retrieve.put_to_engine isspace pre)).
Proof.
  intros Hlast. cbv zeta. unfold Retrieve.batch_query.
  split; [apply ask_all_asked|].
  destruct (ask_all_keys isspace engine (pre ++ question :: post) [] s) as [Hnd Hin].
  split; [apply Hnd; constructor|].
  split; [intros k; rewrite Hin; simpl; tauto|].
  rewrite ask_all_app. cbn [Retrieve.ask_all].
  pose proof (ask_all_asked isspace engine pre [] s) as Hpre.
  destruct (Retrieve.ask_all isspace engine pre [] s) as [r1 s1]. cbn [fst snd] in *.
  pose proof (query_value isspace engine question
    (Retrieve.MkSession (Retrieve.asked s1)
       (Retrieve.logged s1 ++ [LogInfo "Processing question"]))) as [Hq _].
  destruct (Retrieve.query isspace engine question _) as [a s2].
  cbn [fst Retrieve.asked] in Hq.
  rewrite ask_all_other by exact Hlast.
  rewrite get_set_eq, Hq, Hpre. reflexivity.
Qed.

Lemma batch_query_outcome_witness :
  let questions := ["who"; "  "] ++ "who" :: ["why"] in
  let r := Retrieve.batch_query only_space counting_engine questions
             (Retrieve.MkSession [] []) in
  Retrieve.asked (snd r) =
    Retrieve.asked (Retrieve.MkSession [] []) ++
    Retrieve.put_to_engine only_space questions /\
  List.NoDup (map fst (fst r)) /\
  (forall k, In k (map fst (fst r)) <-> In k questions) /\
  Dict.get "who" (fst r) =
    Some (Retrieve.answer only_space counting_engine "who"
            (Retrieve.asked (Retrieve.MkSession [] []) ++
             Retrieve.put_to_engine only_space ["who"; "  "])).
Proof.
  apply (batch_query_outcome only_space counting_engine ["who"; "  "] ["why"] "who"
           (Retrieve.MkSession [] [])).
  intros [H|[]]. discriminate.
Defined.

Example asked_twice_last_answer_stays :
  Retrieve.batch_query only_space counting_engine ["who"; "  "; "who"; "why"]
    (Retrieve.MkSession [] []) =
  ([("who", JInt 1); ("  ", JNull); ("why", JInt 2)],
   Retrieve.MkSession ["who"; "who"; "why"]
     [LogInfo "Processing question"; LogInfo "Executing query";
      LogInfo "Query executed successfully";
      LogInfo "Processing question"; LogWarning "Empty query provided";
      LogInfo "Processing question"; LogInfo "Executing query";
      LogInfo "Query executed successfully";
      LogInfo "Processing question"; LogInfo "Executing query";
      LogInfo "Query executed successfully"]).
Proof. vm_compute. reflexivity. Qed.
